(** * SafeTrack alert lifecycle: the alert store and the alert detector

    A shallow embedding of [src/lib/alert-storage.ts] (class
    [AlertStorageManager]) and of [detectCriticalAlerts] in
    [src/app/page.tsx], with the properties of the alert lifecycle proved
    about them.

    Conventions of the embedding.
    - A JavaScript [number] is a binary64 float ([PrimFloat.float]); the
      comparisons of the source are the IEEE comparisons, so [NaN] behaves
      as it does in the browser.
    - [localStorage] holds two items.  An item is modelled by the value
      [JSON.parse] makes of its text, typed as the source types it
      ([AlertData[]]); [None] stands for an item that is absent or whose
      text does not parse (the source reads both as the empty array).
    - [localStorage.setItem] may throw (quota exceeded, storage disabled).
      Whether it does is a function of the host, see [Host].
    - A record is stored as it is handed over.  ([JSON.stringify] writes
      a number that is not finite as [null]; the embedding agrees with the
      source on records whose numbers are finite.)
    - The clock is an input: functions that read [new Date()] take the
      time value [now] (milliseconds since the epoch). *)

From Stdlib Require Import Floats.PrimFloat Floats.FloatOps Floats.SpecFloat.
From Stdlib Require Import Numbers.Cyclic.Int63.Uint63.
From Stdlib Require Import Bool String Ascii List Sorted ZArith Lia.
Import ListNotations.

Local Open Scope string_scope.
Local Open Scope list_scope.

(** ** Data model *)

Definition number := float.
Bind Scope float_scope with number.

(** [src/types/device-data.ts] *)
Module DeviceData.
Record t := mk {
  id : string;
  timestamp : string;
  location : string;
  latitude : number;
  longitude : number;
  panicstatus : bool;
  fallstatus : bool;
  heartbeat : number
}.
End DeviceData.

Inductive AlertStatus := PANIC | FALL.
Inductive Severity := LOW | MEDIUM | HIGH | CRITICAL.

(** [interface AlertData]; the optional fields [archived?] and [severity?]
    are [None] when the property is absent. *)
Record AlertData := mkAlertData {
  id : string;
  deviceId : string;
  timestamp : string;
  location : string;
  latitude : number;
  longitude : number;
  status : AlertStatus;
  heartbeat : number;
  coordinates : string;
  emailSent : bool;
  archived : option bool;
  severity : option Severity
}.

(** [alert.severity = v] *)
Definition set_severity (v : Severity) (a : AlertData) : AlertData :=
  mkAlertData (id a) (deviceId a) (timestamp a) (location a) (latitude a)
    (longitude a) (status a) (heartbeat a) (coordinates a) (emailSent a)
    (archived a) (Some v).

(** [{ ...alert, archived: true }] *)
Definition set_archived (a : AlertData) : AlertData :=
  mkAlertData (id a) (deviceId a) (timestamp a) (location a) (latitude a)
    (longitude a) (status a) (heartbeat a) (coordinates a) (emailSent a)
    (Some true) (severity a).

(** [alert.emailSent = true] *)
Definition set_emailSent (a : AlertData) : AlertData :=
  mkAlertData (id a) (deviceId a) (timestamp a) (location a) (latitude a)
    (longitude a) (status a) (heartbeat a) (coordinates a) true
    (archived a) (severity a).

(** [interface StorageStats] *)
Record StorageStats := mkStorageStats {
  totalAlerts : nat;
  panicAlerts : nat;
  fallAlerts : nat;
  emailsSent : nat;
  archivedAlerts : nat;
  oldestAlert : option string;
  newestAlert : option string;
  storageSize : nat
}.

(** ** The persistent key-value store *)

Inductive Key := STORAGE_KEY | ARCHIVED_KEY.

Record Storage := mkStorage {
  critical_alerts : option (list AlertData);   (* "safetrack_critical_alerts" *)
  archived_alerts : option (list AlertData)    (* "safetrack_archived_alerts" *)
}.

Definition emptyStorage : Storage := mkStorage None None.

(** [JSON.parse(localStorage.getItem(key))], [None] when there is nothing
    to parse. *)
Definition getItem (ls : Storage) (k : Key) : option (list AlertData) :=
  match k with
  | STORAGE_KEY => critical_alerts ls
  | ARCHIVED_KEY => archived_alerts ls
  end.

Definition writeItem (ls : Storage) (k : Key) (v : option (list AlertData)) : Storage :=
  match k with
  | STORAGE_KEY => mkStorage v (archived_alerts ls)
  | ARCHIVED_KEY => mkStorage (critical_alerts ls) v
  end.

(** What the browser supplies.  [setItem_throws ls k v] tells whether
    [localStorage.setItem(k, JSON.stringify(v))] throws in storage state
    [ls]; [Date_parse s] is the time value of [new Date(s)], [None] for an
    invalid date; [Date_minusDays now d] is the time value of
    [c = new Date(now); c.setDate(c.getDate() - d)] (calendar arithmetic in
    the host's time zone); [Blob_size] is the byte size of the two stored
    texts, [None] when [new Blob] throws. *)
Class Host := {
  setItem_throws : Storage -> Key -> list AlertData -> bool;
  removeItem_throws : Storage -> Key -> bool;
  Date_parse : string -> option Z;
  Date_minusDays : Z -> Z -> Z;
  Date_toISOString : Z -> string;
  Number_toString : number -> string;
  Blob_size : Storage -> option nat
}.

(** Outcome of a function that can let an exception escape. *)
Inductive Completion (A : Type) :=
| Normal (a : A)
| Throw.
Arguments Normal {A} a.
Arguments Throw {A}.

Section Store.
Context {host : Host}.

(** [localStorage.setItem(k, JSON.stringify(v))]: [None] when it throws,
    and then nothing is written. *)
Definition setItem (ls : Storage) (k : Key) (v : list AlertData) : option Storage :=
  if setItem_throws ls k v then None else Some (writeItem ls k (Some v)).

(** [localStorage.removeItem(k)] *)
Definition removeItem (ls : Storage) (k : Key) : option Storage :=
  if removeItem_throws ls k then None else Some (writeItem ls k None).

Definition MAX_ACTIVE_ALERTS : nat := 1000.
Definition MAX_ARCHIVED_ALERTS : nat := 5000.

(** [getAllAlerts()] *)
Definition getAllAlerts (ls : Storage) : list AlertData :=
  match getItem ls STORAGE_KEY with
  | Some stored => stored
  | None => []
  end.

(** [getArchivedAlerts()] *)
Definition getArchivedAlerts (ls : Storage) : list AlertData :=
  match getItem ls ARCHIVED_KEY with
  | Some stored => stored
  | None => []
  end.

(** [classifyAlertSeverity(alert)] *)
Definition classifyAlertSeverity (alert : AlertData) : Severity :=
  if PrimFloat.ltb 120 (heartbeat alert) then CRITICAL
  else if PrimFloat.ltb 100 (heartbeat alert) then HIGH
  else if PrimFloat.ltb 90 (heartbeat alert) then MEDIUM
  else LOW.

(** [archiveAlerts(alerts)]; the [catch] is the [None] branch. *)
Definition archiveAlerts (alerts : list AlertData) (ls : Storage) : bool * Storage :=
  let existingArchived := getArchivedAlerts ls in
  let updatedArchived := map set_archived alerts ++ existingArchived in
  let limitedArchived := firstn MAX_ARCHIVED_ALERTS updatedArchived in
  match setItem ls ARCHIVED_KEY limitedArchived with
  | Some ls' => (true, ls')
  | None => (false, ls)
  end.

(** [saveAlert(alert)].  The source assigns [alert.severity] on the
    caller's object, so the object as the caller sees it after the call is
    returned next to the boolean. *)
Definition saveAlert (alert : AlertData) (ls : Storage) : bool * AlertData * Storage :=
  let existingAlerts := getAllAlerts ls in
  let isDuplicate := existsb (fun existing => id existing =? id alert) existingAlerts in
  if isDuplicate then (false, alert, ls)
  else
    let alert := set_severity (classifyAlertSeverity alert) alert in
    let updatedAlerts := alert :: existingAlerts in
    if (MAX_ACTIVE_ALERTS <? length updatedAlerts)%nat then
      let alertsToArchive := skipn MAX_ACTIVE_ALERTS updatedAlerts in
      let '(_, ls1) := archiveAlerts alertsToArchive ls in
      let activeAlerts := firstn MAX_ACTIVE_ALERTS updatedAlerts in
      match setItem ls1 STORAGE_KEY activeAlerts with
      | Some ls2 => (true, alert, ls2)
      | None => (false, alert, ls1)
      end
    else
      match setItem ls STORAGE_KEY updatedAlerts with
      | Some ls1 => (true, alert, ls1)
      | None => (false, alert, ls)
      end.

(** [getAlertsByDevice], [getAlertsByStatus] *)
Definition getAlertsByDevice (d : string) (ls : Storage) : list AlertData :=
  filter (fun alert => deviceId alert =? d) (getAllAlerts ls).

Definition AlertStatus_eqb (x y : AlertStatus) : bool :=
  match x, y with
  | PANIC, PANIC | FALL, FALL => true
  | _, _ => false
  end.

Definition getAlertsByStatus (st : AlertStatus) (ls : Storage) : list AlertData :=
  filter (fun alert => AlertStatus_eqb (status alert) st) (getAllAlerts ls).

(** [deleteAlert(alertId)] *)
Definition deleteAlert (alertId : string) (ls : Storage) : bool * Storage :=
  let alerts := getAllAlerts ls in
  let updatedAlerts := filter (fun alert => negb (id alert =? alertId)) alerts in
  match setItem ls STORAGE_KEY updatedAlerts with
  | Some ls' => (true, ls')
  | None => (false, ls)
  end.

(** [clearAllAlerts()], [clearArchivedAlerts()] *)
Definition clearAllAlerts (ls : Storage) : bool * Storage :=
  match removeItem ls STORAGE_KEY with
  | Some ls' => (true, ls')
  | None => (false, ls)
  end.

Definition clearArchivedAlerts (ls : Storage) : bool * Storage :=
  match removeItem ls ARCHIVED_KEY with
  | Some ls' => (true, ls')
  | None => (false, ls)
  end.

(** [new Date(ts) >= cutoffDate] and [new Date(ts) < cutoffDate]: both are
    false for an invalid date, whose time value is [NaN]. *)
Definition notBefore (cutoffDate : Z) (alert : AlertData) : bool :=
  match Date_parse (timestamp alert) with
  | Some t => (cutoffDate <=? t)%Z
  | None => false
  end.

Definition before (cutoffDate : Z) (alert : AlertData) : bool :=
  match Date_parse (timestamp alert) with
  | Some t => (t <? cutoffDate)%Z
  | None => false
  end.

(** [getAlertsByDateRange(startDate, endDate)] *)
Definition getAlertsByDateRange (startDate endDate : Z) (ls : Storage) : list AlertData :=
  filter (fun alert =>
            match Date_parse (timestamp alert) with
            | Some t => (startDate <=? t)%Z && (t <=? endDate)%Z
            | None => false
            end) (getAllAlerts ls).

(** [cleanupOldAlerts(daysToKeep)].  The write of the kept alerts is not
    inside a [try], so its exception escapes. *)
Definition cleanupOldAlerts (daysToKeep : Z) (now : Z) (ls : Storage)
  : Completion nat * Storage :=
  let cutoffDate := Date_minusDays now daysToKeep in
  let alerts := getAllAlerts ls in
  let alertsToKeep := filter (notBefore cutoffDate) alerts in
  let alertsToArchive := filter (before cutoffDate) alerts in
  if (0 <? length alertsToArchive)%nat then
    let '(_, ls1) := archiveAlerts alertsToArchive ls in
    match setItem ls1 STORAGE_KEY alertsToKeep with
    | Some ls2 => (Normal (length alertsToArchive), ls2)
    | None => (Throw, ls1)
    end
  else (Normal (length alertsToArchive), ls).

(** [alerts.findIndex(p)], [None] for [-1] *)
Fixpoint findIndex {A} (p : A -> bool) (l : list A) : option nat :=
  match l with
  | [] => None
  | x :: l' => if p x then Some 0%nat else option_map S (findIndex p l')
  end.

(** [alerts[i] = f(alerts[i])] for an index inside the array *)
Fixpoint update_at {A} (i : nat) (f : A -> A) (l : list A) : list A :=
  match l, i with
  | [], _ => []
  | x :: l', O => f x :: l'
  | x :: l', S j => x :: update_at j f l'
  end.

(** [markEmailSent(alertId)] *)
Definition markEmailSent (alertId : string) (ls : Storage) : bool * Storage :=
  let alerts := getAllAlerts ls in
  match findIndex (fun alert => id alert =? alertId) alerts with
  | None => (false, ls)
  | Some alertIndex =>
      let alerts := update_at alertIndex set_emailSent alerts in
      match setItem ls STORAGE_KEY alerts with
      | Some ls' => (true, ls')
      | None => (false, ls)
      end
  end.

(** [timestamps.sort()]: the default sort orders strings by their code
    units. *)
Fixpoint insert_sorted (s : string) (l : list string) : list string :=
  match l with
  | [] => [s]
  | x :: l' => if String.leb s x then s :: l else x :: insert_sorted s l'
  end.

Definition sort_strings (l : list string) : list string :=
  fold_right insert_sorted [] l.

(** [calculateStorageSize()] *)
Definition calculateStorageSize (ls : Storage) : nat :=
  match Blob_size ls with
  | Some n => n
  | None => 0%nat
  end.

(** [getStorageStats()] *)
Definition getStorageStats (ls : Storage) : StorageStats :=
  let activeAlerts := getAllAlerts ls in
  let archivedAlerts := getArchivedAlerts ls in
  let allAlerts := activeAlerts ++ archivedAlerts in
  let timestamps := sort_strings (map timestamp allAlerts) in
  mkStorageStats
    (length allAlerts)
    (length (filter (fun alert => AlertStatus_eqb (status alert) PANIC) allAlerts))
    (length (filter (fun alert => AlertStatus_eqb (status alert) FALL) allAlerts))
    (length (filter emailSent allAlerts))
    (length archivedAlerts)
    (if (0 <? length timestamps)%nat then nth_error timestamps 0 else None)
    (if (0 <? length timestamps)%nat
     then nth_error timestamps (length timestamps - 1) else None)
    (calculateStorageSize ls).

End Store.

(** ** JSON documents *)

(** The values [JSON.parse] produces, as far as the store looks into them:
    an array is an array of alerts, as the source types it. *)
#[warnings="-register-all"]
Inductive JSValue :=
| JSNull
| JSBoolean (b : bool)
| JSNumber (x : number)
| JSString (s : string)
| JSArray (alerts : list AlertData)
| JSObject (props : list (string * JSValue)).

(** A JSON text is represented by what [JSON.parse] makes of it: [None] is
    a text on which it throws.  [JSON.stringify(v)] is the text of [v]. *)
Definition JSONText := option JSValue.

Definition JSON_stringify (v : JSValue) : JSONText := Some v.
Definition JSON_parse (t : JSONText) : option JSValue := t.

(** The own property [name] of a parsed object ([None]: [undefined]); on
    duplicate keys [JSON.parse] keeps the last one. *)
Fixpoint lookup_prop (name : string) (props : list (string * JSValue)) : option JSValue :=
  match props with
  | [] => None
  | (k, v) :: rest =>
      match lookup_prop name rest with
      | Some v' => Some v'
      | None => if k =? name then Some v else None
      end
  end.

(** [value.name]: reading a property of [null] throws a [TypeError];
    numbers, booleans, strings and arrays have no property of the names
    the store asks for. *)
Definition get_prop (value : JSValue) (name : string) : Completion (option JSValue) :=
  match value with
  | JSNull => Throw
  | JSObject props => Normal (lookup_prop name props)
  | _ => Normal None
  end.

(** [x && Array.isArray(x)], with the array it holds *)
Definition truthy_array (x : option JSValue) : option (list AlertData) :=
  match x with
  | Some (JSArray alerts) => Some alerts
  | _ => None
  end.

Definition Number_of_nat (n : nat) : number :=
  PrimFloat.of_uint63 (Uint63.of_Z (Z.of_nat n)).

Definition JSON_of_optional_string (o : option string) : JSValue :=
  match o with
  | Some s => JSString s
  | None => JSNull
  end.

Definition JSON_of_stats (st : StorageStats) : JSValue :=
  JSObject
    [ ("totalAlerts", JSNumber (Number_of_nat (totalAlerts st)));
      ("panicAlerts", JSNumber (Number_of_nat (panicAlerts st)));
      ("fallAlerts", JSNumber (Number_of_nat (fallAlerts st)));
      ("emailsSent", JSNumber (Number_of_nat (emailsSent st)));
      ("archivedAlerts", JSNumber (Number_of_nat (archivedAlerts st)));
      ("oldestAlert", JSON_of_optional_string (oldestAlert st));
      ("newestAlert", JSON_of_optional_string (newestAlert st));
      ("storageSize", JSNumber (Number_of_nat (storageSize st))) ].

Section ExportImport.
Context {host : Host}.

(** [exportAlerts(includeArchived)] *)
Definition exportAlerts (includeArchived : bool) (now : Z) (ls : Storage) : JSONText :=
  let activeAlerts := getAllAlerts ls in
  let archivedAlerts := if includeArchived then getArchivedAlerts ls else [] in
  let exportData :=
    JSObject
      [ ("exportDate", JSString (Date_toISOString now));
        ("activeAlerts", JSArray activeAlerts);
        ("archivedAlerts", JSArray archivedAlerts);
        ("stats", JSON_of_stats (getStorageStats ls)) ] in
  JSON_stringify exportData.

(** [importAlerts(jsonData)]; every [(false, _)] is the [catch]. *)
Definition importAlerts (jsonData : JSONText) (ls : Storage) : bool * Storage :=
  match JSON_parse jsonData with
  | None => (false, ls)
  | Some importData =>
      match get_prop importData "activeAlerts" with
      | Throw => (false, ls)
      | Normal activeField =>
          let after_active :=
            match truthy_array activeField with
            | Some alerts => setItem ls STORAGE_KEY alerts
            | None => Some ls
            end in
          match after_active with
          | None => (false, ls)
          | Some ls1 =>
              match get_prop importData "archivedAlerts" with
              | Throw => (false, ls1)
              | Normal archivedField =>
                  let after_archived :=
                    match truthy_array archivedField with
                    | Some alerts => setItem ls1 ARCHIVED_KEY alerts
                    | None => Some ls1
                    end in
                  match after_archived with
                  | None => (false, ls1)
                  | Some ls2 => (true, ls2)
                  end
              end
          end
      end
  end.

End ExportImport.

(** ** The alert detector ([src/app/page.tsx]) *)

Section Detector.
Context {host : Host}.

(** The body of [devices.forEach] in [detectCriticalAlerts]: the state is
    the storage and the array [newAlerts]. *)
Definition detectDevice (st : Storage * list AlertData) (device : DeviceData.t)
  : Storage * list AlertData :=
  let '(ls, newAlerts) := st in
  let isCritical :=
    (DeviceData.panicstatus device || DeviceData.fallstatus device)
    && PrimFloat.ltb 90 (DeviceData.heartbeat device) in
  if isCritical then
    let alertId := (DeviceData.id device ++ "-" ++ DeviceData.timestamp device)%string in
    let existingAlerts := getAllAlerts ls in
    match find (fun alert => id alert =? alertId) existingAlerts with
    | Some _ => (ls, newAlerts)
    | None =>
        let alert :=
          {| id := alertId;
             deviceId := DeviceData.id device;
             timestamp := DeviceData.timestamp device;
             location := DeviceData.location device;
             latitude := DeviceData.latitude device;
             longitude := DeviceData.longitude device;
             status := if DeviceData.panicstatus device then PANIC else FALL;
             heartbeat := DeviceData.heartbeat device;
             coordinates :=
               (Number_toString (DeviceData.latitude device) ++ ", "
                ++ Number_toString (DeviceData.longitude device))%string;
             emailSent := false;
             archived := None;
             severity := None |} in
        let '(saved, alert, ls') := saveAlert alert ls in
        if saved then (ls', newAlerts ++ [alert]) else (ls', newAlerts)
    end
  else (ls, newAlerts).

(** [detectCriticalAlerts(devices)]: the storage afterwards and the alerts
    that are appended to the dashboard's [criticalAlerts]. *)
Definition detectCriticalAlerts (devices : list DeviceData.t) (ls : Storage)
  : Storage * list AlertData :=
  fold_left detectDevice devices (ls, []).

End Detector.

(** ** Runs of store operations *)

Inductive Op :=
| OpSave (alert : AlertData)
| OpArchive (alerts : list AlertData)
| OpDelete (alertId : string)
| OpCleanup (daysToKeep now : Z)
| OpMarkEmailSent (alertId : string)
| OpClearAll
| OpClearArchived.

(** The operations above, or an import. *)
Inductive Call :=
| CallOp (op : Op)
| CallImport (jsonData : JSONText).

Section Runs.
Context {host : Host}.

(** The storage after one operation, whatever it returned. *)
Definition exec (ls : Storage) (op : Op) : Storage :=
  match op with
  | OpSave alert => snd (saveAlert alert ls)
  | OpArchive alerts => snd (archiveAlerts alerts ls)
  | OpDelete alertId => snd (deleteAlert alertId ls)
  | OpCleanup daysToKeep now => snd (cleanupOldAlerts daysToKeep now ls)
  | OpMarkEmailSent alertId => snd (markEmailSent alertId ls)
  | OpClearAll => snd (clearAllAlerts ls)
  | OpClearArchived => snd (clearArchivedAlerts ls)
  end.

Definition run (ops : list Op) (ls : Storage) : Storage :=
  fold_left exec ops ls.

(** The storage after one call of any writing method of the store. *)
Definition call (ls : Storage) (c : Call) : Storage :=
  match c with
  | CallOp op => exec ls op
  | CallImport jsonData => snd (importAlerts jsonData ls)
  end.

Definition calls (cs : list Call) (ls : Storage) : Storage :=
  fold_left call cs ls.

End Runs.

(** ** The dashboard page and the telemetry fetch

    The rest of [src/app/page.tsx] that touches the alert items, and the
    telemetry fetch with its read cache (the second part of
    [src/lib/alert-storage.ts] as it is filed here, [loadFromCache] to
    [fetchDeviceData]). *)

(** The names of the two alert items in [localStorage]. *)
Definition key_name (k : Key) : string :=
  match k with
  | STORAGE_KEY => "safetrack_critical_alerts"
  | ARCHIVED_KEY => "safetrack_archived_alerts"
  end.

Definition key_of_name (name : string) : option Key :=
  if name =? "safetrack_critical_alerts" then Some STORAGE_KEY
  else if name =? "safetrack_archived_alerts" then Some ARCHIVED_KEY
  else None.

Definition CACHE_KEY : string := "safetrack_device_data".
Definition CACHE_EXPIRY_MS : Z := 3000.

(** [interface CacheData] *)
Module CacheData.
Record t := mk {
  data : list DeviceData.t;
  timestamp : Z;
  lastUpdate : string
}.
End CacheData.

(** The item [safetrack_device_data]: [None] when it is absent or its text
    does not parse. *)
Definition DeviceCache := option CacheData.t.

(** The alert items and the telemetry cache together. *)
Record PageStorage := mkPageStorage {
  alert_items : Storage;
  device_data : DeviceCache
}.

(** A JSON value that is not an object or an array, or a missing property. *)
Inductive Scalar :=
| SUndefined
| SNull
| SBoolean (b : bool)
| SNumber (x : number)
| SString (s : string).

(** An object of the telemetry endpoint, read through the properties the
    fetch looks at.  [timestamp] and [location] are a string or missing
    ([None]); the other properties are any scalar. *)
Module Raw.
Record item := mk {
  id : Scalar;
  deviceId : Scalar;
  timestamp : option string;
  location : option string;
  latitude : Scalar;
  longitude : Scalar;
  panicstatus : Scalar;
  fallstatus : Scalar;
  heartbeat : Scalar
}.
End Raw.

(** What [response.json()] delivers: an array of objects, one object, or
    anything else ([null], a number, a string, a boolean). *)
Inductive FetchResult :=
| ResultArray (items : list Raw.item)
| ResultObject (item : Raw.item)
| ResultOther.

(** The outcome of the request: [FetchFailed] when [fetch] rejects or is
    aborted by the timeout, when the status is not ok, or when the body is
    not JSON. *)
Inductive Response :=
| FetchFailed
| FetchJson (result : FetchResult).

(** The clock readings of one [fetchDeviceData]: [Date.now()] in
    [loadFromCache], [new Date()] at the item of each index, [new Date()]
    for [updateTime], and [Date.now()] in [saveToCache]. *)
Record Clock := mkClock {
  at_load : Z;
  at_item : nat -> Z;
  at_update : Z;
  at_save : Z
}.

(** What the browser supplies besides [Host]: whether removing a key
    other than the alert items and the cache throws, whether writing or
    removing the cache item throws, and [Number(s)] for a string. *)
Class PageHost := {
  other_removeItem_throws : PageStorage -> string -> bool;
  cache_setItem_throws : DeviceCache -> CacheData.t -> bool;
  cache_removeItem_throws : DeviceCache -> bool;
  String_toNumber : string -> number
}.

(** Truthiness of a scalar. *)
Definition truthy (v : Scalar) : bool :=
  match v with
  | SUndefined | SNull => false
  | SBoolean b => b
  | SNumber x => (x <? 0)%float || (0 <? x)%float
  | SString s => negb (s =? "")
  end.

(** [a || b] *)
Definition or_else (a b : Scalar) : Scalar := if truthy a then a else b.

(** [v === "true" || v === true] *)
Definition is_true_flag (v : Scalar) : bool :=
  match v with
  | SString s => s =? "true"
  | SBoolean b => b
  | _ => false
  end.

(** [s || fallback] for a string property that may be missing *)
Definition string_or (s : option string) (fallback : string) : string :=
  match s with
  | Some t => if t =? "" then fallback else t
  | None => fallback
  end.

Section Telemetry.
Context {host : Host} {page : PageHost}.

(** [String(v)] *)
Definition JS_String (v : Scalar) : string :=
  match v with
  | SUndefined => "undefined"
  | SNull => "null"
  | SBoolean true => "true"
  | SBoolean false => "false"
  | SNumber x => Number_toString x
  | SString s => s
  end.

(** [Number(v)] *)
Definition JS_Number (v : Scalar) : number :=
  match v with
  | SUndefined => nan
  | SNull => 0
  | SBoolean true => 1
  | SBoolean false => 0
  | SNumber x => x
  | SString s => String_toNumber s
  end.

(** The object literal built from one item in [fetchDeviceData]; [now] is
    the reading of [new Date()]. *)
Definition transformItem (now : Z) (item : Raw.item) : DeviceData.t :=
  {| DeviceData.id := JS_String (or_else (Raw.id item) (or_else (Raw.deviceId item) (SString "")));
     DeviceData.timestamp := string_or (Raw.timestamp item) (Date_toISOString now);
     DeviceData.location := string_or (Raw.location item) "";
     DeviceData.latitude := JS_Number (or_else (Raw.latitude item) (SNumber 0));
     DeviceData.longitude := JS_Number (or_else (Raw.longitude item) (SNumber 0));
     DeviceData.panicstatus := is_true_flag (Raw.panicstatus item);
     DeviceData.fallstatus := is_true_flag (Raw.fallstatus item);
     DeviceData.heartbeat := JS_Number (or_else (Raw.heartbeat item) (SNumber 0)) |}.

(** The test of the [filter] (and of the [if] for a single object). *)
Definition keepDevice (device : DeviceData.t) : bool :=
  negb (DeviceData.id device =? "")
  && negb (DeviceData.id device =? "unknown")
  && negb (DeviceData.id device =? "")
  && (negb (DeviceData.location device =? "")
      || negb (DeviceData.latitude device =? 0)%float
      || negb (DeviceData.longitude device =? 0)%float).

(** [result.map(...)], the item of index [i] reading the clock at [i]. *)
Fixpoint transformItems (clock : nat -> Z) (i : nat) (items : list Raw.item)
  : list DeviceData.t :=
  match items with
  | [] => []
  | item :: rest => transformItem (clock i) item :: transformItems clock (S i) rest
  end.

(** [transformedData] as [fetchDeviceData] computes it from [result]. *)
Definition transformResult (clock : nat -> Z) (result : FetchResult) : list DeviceData.t :=
  match result with
  | ResultArray items => filter keepDevice (transformItems clock 0 items)
  | ResultObject item =>
      let device := transformItem (clock 0%nat) item in
      if keepDevice device then [device] else []
  | ResultOther => []
  end.

(** [loadFromCache()]: what it returns and the cache item afterwards;
    [now] is [Date.now()]. *)
Definition loadFromCache (now : Z) (cache : DeviceCache)
  : option CacheData.t * DeviceCache :=
  match cache with
  | None => (None, cache)
  | Some cacheData =>
      let age := (now - CacheData.timestamp cacheData)%Z in
      if (CACHE_EXPIRY_MS <? age)%Z then
        if cache_removeItem_throws cache then (None, cache) else (None, None)
      else (Some cacheData, cache)
  end.

(** [saveToCache(deviceData, updateTime)]; [now] is [Date.now()]. *)
Definition saveToCache (deviceData : list DeviceData.t) (updateTime now : Z)
    (cache : DeviceCache) : DeviceCache :=
  let cacheData :=
    {| CacheData.data := deviceData;
       CacheData.timestamp := now;
       CacheData.lastUpdate := Date_toISOString updateTime |} in
  if cache_setItem_throws cache cacheData then cache else Some cacheData.

(** [fetchDeviceData(forceRefresh)]: the devices it resolves to and the
    cache item afterwards.  (It also calls [saveHistoricalData], which
    writes another item and lets no exception out.) *)
Definition fetchDeviceData (forceRefresh : bool) (clock : Clock) (response : Response)
    (cache : DeviceCache) : list DeviceData.t * DeviceCache :=
  let request (cache : DeviceCache) :=
    match response with
    | FetchFailed => ([], cache)
    | FetchJson result =>
        let transformedData := transformResult (at_item clock) result in
        (transformedData,
         saveToCache transformedData (at_update clock) (at_save clock) cache)
    end in
  if negb forceRefresh then
    match loadFromCache (at_load clock) cache with
    | (Some cachedData, cache1) => (CacheData.data cachedData, cache1)
    | (None, cache1) => request cache1
    end
  else request cache.

(** [localStorage.removeItem(name)] on the alert items and the cache. *)
Definition removeItem_named (name : string) (st : PageStorage) : option PageStorage :=
  match key_of_name name with
  | Some k =>
      match removeItem (alert_items st) k with
      | Some items => Some (mkPageStorage items (device_data st))
      | None => None
      end
  | None =>
      if name =? CACHE_KEY then
        if cache_removeItem_throws (device_data st) then None
        else Some (mkPageStorage (alert_items st) None)
      else if other_removeItem_throws st name then None
      else Some st
  end.

(** Statements [localStorage.removeItem(n)] in a row inside one [try]: the
    first that throws ends the row. *)
Fixpoint removeItems (names : list string) (st : PageStorage) : Completion unit * PageStorage :=
  match names with
  | [] => (Normal tt, st)
  | name :: rest =>
      match removeItem_named name st with
      | Some st' => removeItems rest st'
      | None => (Throw, st)
      end
  end.

(** The four removals that [handleBeforeUnload], [clearCache] and
    [clearAllDataOnStartup] make, and [handleLogout] before it removes the
    login flag. *)
Definition cleared_names : list string :=
  [ "safetrack_device_data"; "safetrack_historical_data";
    "safetrack_alerts"; "safetrack_archived_alerts" ].

(** [handleBeforeUnload()]: the storage it leaves. *)
Definition handleBeforeUnload (st : PageStorage) : PageStorage :=
  snd (removeItems cleared_names st).

(** [clearCache()]: the storage it leaves and the [criticalAlerts] the page
    shows afterwards ([setCriticalAlerts([])] is reached only when no
    removal throws). *)
Definition clearCache (criticalAlerts : list AlertData) (st : PageStorage)
  : PageStorage * list AlertData :=
  match removeItems cleared_names st with
  | (Normal _, st') => (st', [])
  | (Throw, st') => (st', criticalAlerts)
  end.

(** The counters [fetchData] sets from a batch: [setTotalDevices],
    [setActiveAlerts], [setFallAlerts]. *)
Definition totalDevices_of (dataResponse : list DeviceData.t) : nat :=
  length dataResponse.

Definition activeAlerts_of (dataResponse : list DeviceData.t) : nat :=
  length (filter (fun d => DeviceData.panicstatus d || DeviceData.fallstatus d) dataResponse).

Definition fallAlerts_of (dataResponse : list DeviceData.t) : nat :=
  length (filter (fun d => DeviceData.fallstatus d) dataResponse).

End Telemetry.

(** ** A concrete host

    A browser in the UTC time zone whose storage accepts every write and
    that has no [Blob].  [Date_parse] recognises the format that
    [toISOString] writes ([YYYY-MM-DDTHH:mm:ss.sssZ]) and takes every other
    text for an invalid date; [Number_toString] writes the exact decimal
    expansion, which is what JavaScript prints for integers below [1e21]
    and for binary fractions with a short expansion. *)
Module UTC.

Local Open Scope Z_scope.

Definition digit (c : ascii) : option Z :=
  let n := Z.of_nat (nat_of_ascii c) in
  if (48 <=? n) && (n <=? 57) then Some (n - 48) else None.

Fixpoint digits (cs : list ascii) (acc : Z) : option Z :=
  match cs with
  | [] => Some acc
  | c :: cs' =>
      match digit c with
      | Some d => digits cs' (10 * acc + d)
      | None => None
      end
  end.

(** Days between 1970-01-01 and the civil date [y-m-d]. *)
Definition days_from_civil (y m d : Z) : Z :=
  let y' := if m <=? 2 then y - 1 else y in
  let era := y' / 400 in
  let yoe := y' - era * 400 in
  let doy := (153 * (if 2 <? m then m - 3 else m + 9) + 2) / 5 + d - 1 in
  let doe := yoe * 365 + yoe / 4 - yoe / 100 + doy in
  era * 146097 + doe - 719468.

(** The civil date of a day number. *)
Definition civil_from_days (z : Z) : Z * Z * Z :=
  let z := z + 719468 in
  let era := z / 146097 in
  let doe := z - era * 146097 in
  let yoe := (doe - doe / 1460 + doe / 36524 - doe / 146096) / 365 in
  let doy := doe - (365 * yoe + yoe / 4 - yoe / 100) in
  let mp := (5 * doy + 2) / 153 in
  let d := doy - (153 * mp + 2) / 5 + 1 in
  let m := if mp <? 10 then mp + 3 else mp - 9 in
  ((if m <=? 2 then yoe + era * 400 + 1 else yoe + era * 400), m, d).

Definition days_in_month (y m : Z) : Z :=
  days_from_civil (if m =? 12 then y + 1 else y) (if m =? 12 then 1 else m + 1) 1
  - days_from_civil y m 1.

Definition parse (s : string) : option Z :=
  match list_ascii_of_string s with
  | [y1; y2; y3; y4; "-"%char; m1; m2; "-"%char; d1; d2; "T"%char;
     h1; h2; ":"%char; n1; n2; ":"%char; s1; s2; "."%char; f1; f2; f3; "Z"%char] =>
      match digits [y1; y2; y3; y4] 0, digits [m1; m2] 0, digits [d1; d2] 0,
            digits [h1; h2] 0, digits [n1; n2] 0, digits [s1; s2] 0,
            digits [f1; f2; f3] 0 with
      | Some y, Some m, Some d, Some h, Some n, Some sec, Some ms =>
          if (1 <=? m) && (m <=? 12) && (1 <=? d) && (d <=? days_in_month y m)
             && (h <=? 23) && (n <=? 59) && (sec <=? 59)
          then Some ((((days_from_civil y m d * 24 + h) * 60 + n) * 60 + sec) * 1000 + ms)
          else None
      | _, _, _, _, _, _, _ => None
      end
  | _ => None
  end.

Fixpoint decimal_digits (fuel : nat) (n : Z) (acc : string) : string :=
  let acc' := String (ascii_of_nat (48 + Z.to_nat (n mod 10))) acc in
  match fuel with
  | O => acc'
  | S fuel' => if n <? 10 then acc' else decimal_digits fuel' (n / 10) acc'
  end.

(** The decimal numeral of a natural number. *)
Definition decimal (n : Z) : string :=
  decimal_digits (Z.to_nat (Z.log2 n)) n "".

Fixpoint zeros (k : nat) : string :=
  match k with
  | O => ""
  | S k' => String "0"%char (zeros k')
  end.

(** [n] written with at least [width] digits. *)
Definition padded (width : nat) (n : Z) : string :=
  let s := decimal n in
  (zeros (width - String.length s) ++ s)%string.

Definition toISOString (t : Z) : string :=
  let day := t / 86400000 in
  let ms := t mod 86400000 in
  let '(y, m, d) := civil_from_days day in
  (padded 4 y ++ "-" ++ padded 2 m ++ "-" ++ padded 2 d ++ "T"
   ++ padded 2 (ms / 3600000) ++ ":" ++ padded 2 (ms / 60000 mod 60) ++ ":"
   ++ padded 2 (ms / 1000 mod 60) ++ "." ++ padded 3 (ms mod 1000) ++ "Z")%string.

Fixpoint strip_zeros (rev_digits : list ascii) : list ascii :=
  match rev_digits with
  | "0"%char :: rest => strip_zeros rest
  | _ => rev_digits
  end.

Definition fraction (width : nat) (n : Z) : string :=
  string_of_list_ascii
    (rev (strip_zeros (rev (list_ascii_of_string (padded width n))))).

Definition toString (x : number) : string :=
  match Prim2SF x with
  | S754_zero _ => "0"
  | S754_infinity false => "Infinity"
  | S754_infinity true => "-Infinity"
  | S754_nan => "NaN"
  | S754_finite sign m e =>
      let body :=
        if 0 <=? e then decimal (Z.pos m * 2 ^ e)
        else
          let den := 2 ^ (- e) in
          let whole := Z.pos m / den in
          let part := Z.pos m mod den in
          if part =? 0 then decimal whole
          else (decimal whole ++ "."
                ++ fraction (Z.to_nat (- e)) (part * 5 ^ (- e)))%string in
      if sign then ("-" ++ body)%string else body
  end.

#[export] Instance browser : Host := {|
  setItem_throws := fun _ _ _ => false;
  removeItem_throws := fun _ _ => false;
  Date_parse := parse;
  Date_minusDays := fun now d => now - d * 86400000;
  Date_toISOString := toISOString;
  Number_toString := toString;
  Blob_size := fun _ => None
|}.

(** The same browser with an archive item that has outgrown the quota:
    writes to the archive throw, writes to the active item go through. *)
Definition archiveFull : Host := {|
  setItem_throws := fun _ k _ => match k with ARCHIVED_KEY => true | STORAGE_KEY => false end;
  removeItem_throws := fun _ _ => false;
  Date_parse := parse;
  Date_minusDays := fun now d => now - d * 86400000;
  Date_toISOString := toISOString;
  Number_toString := toString;
  Blob_size := fun _ => None
|}.

End UTC.

(** The rest of the same browser: no removal and no cache write throws.
    [Number(s)] is given for unsigned decimal integers (the worked cases use
    no other numeric text) and is [NaN] elsewhere. *)
Module UTCPage.

Definition toNumber (s : string) : number :=
  match UTC.digits (list_ascii_of_string s) 0 with
  | Some n => PrimFloat.of_uint63 (Uint63.of_Z n)
  | None => nan
  end.

Definition browser : PageHost := {|
  other_removeItem_throws := fun _ _ => false;
  cache_setItem_throws := fun _ _ => false;
  cache_removeItem_throws := fun _ => false;
  String_toNumber := toNumber
|}.

End UTCPage.


(** A browser in which the active item has outgrown the quota: writes to it
    throw, writes to the archive go through. *)
Definition activeFullHost : Host := {|
  setItem_throws := fun _ k _ => match k with STORAGE_KEY => true | ARCHIVED_KEY => false end;
  removeItem_throws := fun _ _ => false;
  Date_parse := UTC.parse;
  Date_minusDays := fun now d => (now - d * 86400000)%Z;
  Date_toISOString := UTC.toISOString;
  Number_toString := UTC.toString;
  Blob_size := fun _ => None
|}.

(** ** Sample data for the worked cases *)

(** An alert as the detector builds it; used for the worked cases. *)
Definition sample_alert (device ts : string) (st : AlertStatus) (hb : number) : AlertData :=
  {| id := (device ++ "-" ++ ts)%string; deviceId := device; timestamp := ts;
     location := "Ward 3"; latitude := 12.5; longitude := 77.25;
     status := st; heartbeat := hb; coordinates := "12.5, 77.25";
     emailSent := false; archived := None; severity := None |}.

(** A reading as the telemetry fetch delivers it; used for the worked cases. *)
Definition sample_reading (panic fall : bool) (hb : number) : DeviceData.t :=
  {| DeviceData.id := "band-7"; DeviceData.timestamp := "2024-05-01T10:00:00.000Z";
     DeviceData.location := "Ward 3";
     DeviceData.latitude := 12.5; DeviceData.longitude := 77.25;
     DeviceData.panicstatus := panic; DeviceData.fallstatus := fall;
     DeviceData.heartbeat := hb |}.

(** The alert number [n] of a series with distinct ids, and a storage
    whose active item holds [n] of them. *)
Definition numbered_alert (n : nat) : AlertData :=
  sample_alert ("band-" ++ UTC.decimal (Z.of_nat n)) "2024-05-01T10:00:00.000Z" FALL 95.

Definition active_series (n : nat) : Storage :=
  mkStorage (Some (map numbered_alert (seq 0 n))) None.

(** A day in June 2024 and one in July, as time values. *)
Definition june_1_2024 : Z := 1717200000000.
Definition july_1_2024 : Z := 1719792000000.

(** ** Vocabulary of the properties *)

(** The test [saveAlert] makes on each active record. *)
Definition same_id (a : AlertData) : AlertData -> bool :=
  fun existing => id existing =? id a.

(** No two records of the list share an id. *)
Definition unique_ids (l : list AlertData) : Prop := NoDup (map id l).

(** The list [deleteAlert] writes back. *)
Definition without_id (alertId : string) (alerts : list AlertData) : list AlertData :=
  filter (fun alert => negb (id alert =? alertId)) alerts.

(** Every stored record, active or archived. *)
Definition records (ls : Storage) : list AlertData :=
  getAllAlerts ls ++ getArchivedAlerts ls.

(** A record with its two flags blanked: what is left is what the store
    never rewrites once the record is in. *)
Definition without_flags (r : AlertData) : AlertData :=
  mkAlertData (id r) (deviceId r) (timestamp r) (location r) (latitude r)
    (longitude r) (status r) (heartbeat r) (coordinates r) false None (severity r).

(** [r'] is [r] up to [emailSent] and [archived]. *)
Definition same_but_flags (r r' : AlertData) : Prop :=
  without_flags r' = without_flags r.

(** Every record of [dst] is, up to the flags, a record of [src]. *)
Definition Derived (src dst : list AlertData) : Prop :=
  forall r', In r' dst -> exists r, In r src /\ same_but_flags r r'.

(** The records an operation brings to the store. *)
Definition presented (op : Op) : list AlertData :=
  match op with
  | OpSave alert => [set_severity (classifyAlertSeverity alert) alert]
  | OpArchive alerts => alerts
  | _ => []
  end.

(** The alerts of the arrays an import document holds under
    [activeAlerts] and [archivedAlerts]. *)
Definition array_under (importData : JSValue) (name : string) : list AlertData :=
  match get_prop importData name with
  | Normal field =>
      match truthy_array field with
      | Some alerts => alerts
      | None => []
      end
  | Throw => []
  end.

Definition document_alerts (jsonData : JSONText) : list AlertData :=
  match JSON_parse jsonData with
  | Some importData =>
      array_under importData "activeAlerts" ++ array_under importData "archivedAlerts"
  | None => []
  end.

(** The records a call brings to the store. *)
Definition brought (c : Call) : list AlertData :=
  match c with
  | CallOp op => presented op
  | CallImport jsonData => document_alerts jsonData
  end.

(** Whether the document holds an array under [name]: the loose check of
    [importAlerts], "present and a sequence". *)
Definition holds_array (jsonData : JSONText) (name : string) : bool :=
  match JSON_parse jsonData with
  | Some importData =>
      match get_prop importData name with
      | Normal (Some (JSArray _)) => true
      | _ => false
      end
  | None => false
  end.

(** [r'] is [r] with its flags raised at most: [emailSent] may have gone
    from [false] to [true] and [archived] may have been set to [true]. *)
Definition advances (r r' : AlertData) : Prop :=
  same_but_flags r r' /\
  (emailSent r = true -> emailSent r' = true) /\
  (archived r = Some true -> archived r' = Some true).

(** Every record of [dst] comes, by [R], from a record of [src]. *)
Definition Traced (R : AlertData -> AlertData -> Prop) (src dst : list AlertData) : Prop :=
  forall r', In r' dst -> exists r, In r src /\ R r r'.

(** The alert an operation submits, as [saveAlert] stores it. *)
Definition submitted (op : Op) : list AlertData :=
  match op with
  | OpSave alert => [set_severity (classifyAlertSeverity alert) alert]
  | _ => []
  end.

(** A list of strings in ascending order. *)
Definition ascending (l : list string) : Prop :=
  StronglySorted (fun a b => String.leb a b = true) l.

(** The test the detector makes on a reading before it looks at the store. *)
Definition isCritical (device : DeviceData.t) : bool :=
  (DeviceData.panicstatus device || DeviceData.fallstatus device)
  && (90 <? DeviceData.heartbeat device)%float.

(** The id the detector gives the alert of a reading. *)
Definition alertId_of (device : DeviceData.t) : string :=
  (DeviceData.id device ++ "-" ++ DeviceData.timestamp device)%string.

(** The fields of a record other than [severity]. *)
Definition fields_but_severity (r : AlertData) :=
  (id r, deviceId r, timestamp r, location r, latitude r, longitude r,
   status r, heartbeat r, coordinates r, emailSent r, archived r).

(** The test of [getAlertsByDateRange] on one alert. *)
Definition dated_within {host : Host} (startDate endDate : Z) (alert : AlertData) : bool :=
  match Date_parse (timestamp alert) with
  | Some t => (startDate <=? t)%Z && (t <=? endDate)%Z
  | None => false
  end.

(** The record the detector builds for a reading, before it is submitted. *)
Definition candidate_of {host : Host} (device : DeviceData.t) : AlertData :=
  {| id := alertId_of device;
     deviceId := DeviceData.id device;
     timestamp := DeviceData.timestamp device;
     location := DeviceData.location device;
     latitude := DeviceData.latitude device;
     longitude := DeviceData.longitude device;
     status := if DeviceData.panicstatus device then PANIC else FALL;
     heartbeat := DeviceData.heartbeat device;
     coordinates :=
       (Number_toString (DeviceData.latitude device) ++ ", "
        ++ Number_toString (DeviceData.longitude device))%string;
     emailSent := false;
     archived := None;
     severity := None |}.

(** An object of the telemetry endpoint with the given flags, and a clock
    that reads [t] throughout. *)
Definition sample_item (panic fall : Scalar) : Raw.item :=
  {| Raw.id := SString "band-7"; Raw.deviceId := SUndefined;
     Raw.timestamp := Some "2024-05-01T10:00:00.000Z";
     Raw.location := Some "Ward 3";
     Raw.latitude := SNumber 12.5; Raw.longitude := SNumber 77.25;
     Raw.panicstatus := panic; Raw.fallstatus := fall;
     Raw.heartbeat := SNumber 130 |}.

Definition clock_at (t : Z) : Clock := mkClock t (fun _ => t) t t.


(** * Properties *)

(** ** Reading back what was written *)

Section StorageFacts.
Context {host : Host}.

Lemma getItem_writeItem_same ls k v : getItem (writeItem ls k v) k = v.
Proof. destruct k; reflexivity. Qed.

Lemma getItem_writeItem_other ls k k' v :
  k <> k' -> getItem (writeItem ls k v) k' = getItem ls k'.
Proof. destruct k, k'; intros Hk; try reflexivity; contradiction. Qed.

Lemma setItem_Some ls k v ls' :
  setItem ls k v = Some ls' ->
  setItem_throws ls k v = false /\ ls' = writeItem ls k (Some v).
Proof.
  unfold setItem. destruct (setItem_throws ls k v); intros E.
  - discriminate.
  - inversion E. split; reflexivity.
Qed.

Lemma setItem_None ls k v :
  setItem ls k v = None -> setItem_throws ls k v = true.
Proof. unfold setItem. destruct (setItem_throws ls k v); [reflexivity | discriminate]. Qed.

Lemma getAllAlerts_write_active ls v :
  getAllAlerts (writeItem ls STORAGE_KEY (Some v)) = v.
Proof. reflexivity. Qed.

Lemma getAllAlerts_write_archived ls v :
  getAllAlerts (writeItem ls ARCHIVED_KEY v) = getAllAlerts ls.
Proof. reflexivity. Qed.

Lemma getArchivedAlerts_write_archived ls v :
  getArchivedAlerts (writeItem ls ARCHIVED_KEY (Some v)) = v.
Proof. reflexivity. Qed.

Lemma getArchivedAlerts_write_active ls v :
  getArchivedAlerts (writeItem ls STORAGE_KEY v) = getArchivedAlerts ls.
Proof. reflexivity. Qed.

(** [archiveAlerts] never touches the active item. *)
Lemma archiveAlerts_active alerts ls :
  getItem (snd (archiveAlerts alerts ls)) STORAGE_KEY = getItem ls STORAGE_KEY.
Proof.
  unfold archiveAlerts.
  destruct (setItem ls ARCHIVED_KEY _) as [ls'|] eqn:E; [|reflexivity].
  apply setItem_Some in E. destruct E as [_ ->]. reflexivity.
Qed.

Lemma archiveAlerts_getAllAlerts alerts ls :
  getAllAlerts (snd (archiveAlerts alerts ls)) = getAllAlerts ls.
Proof. unfold getAllAlerts. rewrite archiveAlerts_active. reflexivity. Qed.

(** What [archiveAlerts] leaves in the archive. *)
Lemma archiveAlerts_archived alerts ls :
  getArchivedAlerts (snd (archiveAlerts alerts ls)) =
  if fst (archiveAlerts alerts ls)
  then firstn MAX_ARCHIVED_ALERTS (map set_archived alerts ++ getArchivedAlerts ls)
  else getArchivedAlerts ls.
Proof.
  unfold archiveAlerts.
  destruct (setItem ls ARCHIVED_KEY _) as [ls'|] eqn:E; [|reflexivity].
  apply setItem_Some in E. destruct E as [_ ->]. reflexivity.
Qed.

End StorageFacts.

(** ** Submitting an alert *)

Section SaveAlert.
Context {host : Host}.




Lemma existsb_same_id alert l :
  existsb (same_id alert) l = true <->
  exists existing, In existing l /\ id existing = id alert.
Proof.
  rewrite existsb_exists. unfold same_id.
  split; intros [x [Hin Hx]]; exists x; split; try assumption;
    apply String.eqb_eq; assumption.
Qed.



(** What an accepted submission leaves behind. *)
Lemma saveAlert_accepted alert ls alert' ls' :
  saveAlert alert ls = (true, alert', ls') ->
  existsb (same_id alert) (getAllAlerts ls) = false /\
  alert' = set_severity (classifyAlertSeverity alert) alert /\
  getAllAlerts ls' = firstn MAX_ACTIVE_ALERTS (alert' :: getAllAlerts ls) /\
  getItem ls' ARCHIVED_KEY =
    getItem
      (if (MAX_ACTIVE_ALERTS <? length (alert' :: getAllAlerts ls))%nat
       then snd (archiveAlerts (skipn MAX_ACTIVE_ALERTS (alert' :: getAllAlerts ls)) ls)
       else ls) ARCHIVED_KEY.
Proof.
  unfold saveAlert. fold (same_id alert).
  destruct (existsb (same_id alert) (getAllAlerts ls)) eqn:Hdup; [discriminate|].
  set (a := set_severity (classifyAlertSeverity alert) alert).
  set (updated := a :: getAllAlerts ls).
  destruct (MAX_ACTIVE_ALERTS <? length updated)%nat eqn:Hover.
  - destruct (archiveAlerts (skipn MAX_ACTIVE_ALERTS updated) ls) as [ok ls1] eqn:Harch.
    destruct (setItem ls1 STORAGE_KEY (firstn MAX_ACTIVE_ALERTS updated)) as [ls2|] eqn:Hset;
      intros E; inversion E; subst alert' ls'.
    apply setItem_Some in Hset. destruct Hset as [_ ->].
    fold updated. rewrite Hover, Harch. repeat split; reflexivity.
  - destruct (setItem ls STORAGE_KEY updated) as [ls1|] eqn:Hset;
      intros E; inversion E; subst alert' ls'.
    apply setItem_Some in Hset. destruct Hset as [_ ->].
    fold updated. rewrite Hover. repeat split; try reflexivity.
    rewrite getAllAlerts_write_active. symmetry. apply firstn_all2.
    apply Nat.ltb_ge in Hover. exact Hover.
Qed.

(** The accepted alert is the first active record. *)
Lemma saveAlert_accepted_head alert ls alert' ls' :
  saveAlert alert ls = (true, alert', ls') ->
  getAllAlerts ls' = alert' :: firstn (MAX_ACTIVE_ALERTS - 1) (getAllAlerts ls).
Proof.
  intros Hsave. apply saveAlert_accepted in Hsave.
  destruct Hsave as (_ & _ & Hact & _). rewrite Hact. reflexivity.
Qed.

End SaveAlert.




(** ** Severity *)


Section DerivedFacts.

Lemma same_but_flags_severity r r' :
  same_but_flags r r' ->
  severity r' = severity r /\ heartbeat r' = heartbeat r /\ id r' = id r.
Proof.
  unfold same_but_flags, without_flags. intros E. inversion E. repeat split; assumption.
Qed.

Lemma Derived_incl src dst : incl dst src -> Derived src dst.
Proof. intros Hincl r' Hin. exists r'. split; [apply Hincl, Hin | reflexivity]. Qed.

Lemma Derived_nil src : Derived src [].
Proof. intros r' []. Qed.

Lemma Derived_app src d1 d2 : Derived src d1 -> Derived src d2 -> Derived src (d1 ++ d2).
Proof.
  intros H1 H2 r' Hin. apply in_app_or in Hin. destruct Hin; [apply H1 | apply H2]; assumption.
Qed.

Lemma in_firstn {A} (x : A) n l : In x (firstn n l) -> In x l.
Proof.
  intros Hin. rewrite <- (firstn_skipn n l). apply in_or_app. left. exact Hin.
Qed.

Lemma in_skipn {A} (x : A) n l : In x (skipn n l) -> In x l.
Proof.
  intros Hin. rewrite <- (firstn_skipn n l). apply in_or_app. right. exact Hin.
Qed.

Lemma Derived_firstn src n l : Derived src l -> Derived src (firstn n l).
Proof. intros H r' Hin. apply H. eapply in_firstn; eassumption. Qed.

Lemma Derived_skipn src n l : Derived src l -> Derived src (skipn n l).
Proof. intros H r' Hin. apply H. eapply in_skipn; eassumption. Qed.

Lemma Derived_filter src p l : Derived src l -> Derived src (filter p l).
Proof. intros H r' Hin. apply H. apply filter_In in Hin. apply Hin. Qed.

Lemma Derived_set_archived src l : Derived src l -> Derived src (map set_archived l).
Proof.
  intros H r' Hin. apply in_map_iff in Hin. destruct Hin as [r0 [<- Hin0]].
  destruct (H r0 Hin0) as [r [Hr E]]. exists r. split; [exact Hr|].
  unfold same_but_flags in *. rewrite <- E. reflexivity.
Qed.

Lemma In_update_at {A} i (f : A -> A) l x :
  In x (update_at i f l) -> In x l \/ exists y, In y l /\ x = f y.
Proof.
  revert i. induction l as [|a l IH]; intros i Hin; simpl in Hin.
  - destruct i; contradiction.
  - destruct i as [|j]; simpl in Hin.
    + destruct Hin as [<-|Hin].
      * right. exists a. split; [left; reflexivity | reflexivity].
      * left. right. exact Hin.
    + destruct Hin as [<-|Hin].
      * left. left. reflexivity.
      * destruct (IH j Hin) as [H|[y [Hy ->]]].
        -- left. right. exact H.
        -- right. exists y. split; [right; exact Hy | reflexivity].
Qed.

Lemma Derived_set_emailSent src i l :
  Derived src l -> Derived src (update_at i set_emailSent l).
Proof.
  intros H r' Hin. apply In_update_at in Hin. destruct Hin as [Hin|[y [Hy ->]]].
  - apply H, Hin.
  - destruct (H y Hy) as [r [Hr E]]. exists r. split; [exact Hr|].
    unfold same_but_flags in *. rewrite <- E. reflexivity.
Qed.

End DerivedFacts.

Create HintDb derived.
#[export] Hint Resolve Derived_nil Derived_app Derived_firstn Derived_skipn
  Derived_filter Derived_set_archived Derived_set_emailSent : derived.

Section Lineage.
Context {host : Host}.

Lemma setItem_active_Derived src ls v ls' :
  setItem ls STORAGE_KEY v = Some ls' ->
  Derived src v -> Derived src (getArchivedAlerts ls) ->
  Derived src (getAllAlerts ls') /\ Derived src (getArchivedAlerts ls').
Proof.
  intros Hset Hv Harch. apply setItem_Some in Hset. destruct Hset as [_ ->].
  split; assumption.
Qed.

Lemma archiveAlerts_Derived src alerts ls :
  Derived src alerts ->
  Derived src (getAllAlerts ls) -> Derived src (getArchivedAlerts ls) ->
  Derived src (getAllAlerts (snd (archiveAlerts alerts ls))) /\
  Derived src (getArchivedAlerts (snd (archiveAlerts alerts ls))).
Proof.
  intros Hin Hact Harch. split.
  - rewrite archiveAlerts_getAllAlerts. exact Hact.
  - rewrite archiveAlerts_archived.
    destruct (fst (archiveAlerts alerts ls)); auto with derived.
Qed.

Lemma saveAlert_Derived src alert ls :
  Derived src [set_severity (classifyAlertSeverity alert) alert] ->
  Derived src (getAllAlerts ls) -> Derived src (getArchivedAlerts ls) ->
  Derived src (getAllAlerts (snd (saveAlert alert ls))) /\
  Derived src (getArchivedAlerts (snd (saveAlert alert ls))).
Proof.
  intros Hnew Hact Harch. unfold saveAlert.
  destruct (existsb _ (getAllAlerts ls)); [split; assumption|].
  set (a := set_severity (classifyAlertSeverity alert) alert) in *.
  assert (Hupd : Derived src (a :: getAllAlerts ls))
    by (change (Derived src ([a] ++ getAllAlerts ls)); auto with derived).
  destruct (MAX_ACTIVE_ALERTS <? length (a :: getAllAlerts ls))%nat.
  - pose proof (archiveAlerts_Derived src
                  (skipn MAX_ACTIVE_ALERTS (a :: getAllAlerts ls)) ls) as Hls1.
    destruct (archiveAlerts (skipn MAX_ACTIVE_ALERTS (a :: getAllAlerts ls)) ls)
      as [ok ls1].
    simpl snd in Hls1. destruct Hls1 as [Hact1 Harch1]; auto with derived.
    destruct (setItem ls1 STORAGE_KEY _) as [ls2|] eqn:Hset; simpl snd.
    + eapply setItem_active_Derived; eauto with derived.
    + split; assumption.
  - destruct (setItem ls STORAGE_KEY _) as [ls1|] eqn:Hset; simpl snd.
    + eapply setItem_active_Derived; eauto.
    + split; assumption.
Qed.

Lemma deleteAlert_Derived src alertId ls :
  Derived src (getAllAlerts ls) -> Derived src (getArchivedAlerts ls) ->
  Derived src (getAllAlerts (snd (deleteAlert alertId ls))) /\
  Derived src (getArchivedAlerts (snd (deleteAlert alertId ls))).
Proof.
  intros Hact Harch. unfold deleteAlert.
  destruct (setItem ls STORAGE_KEY _) as [ls1|] eqn:Hset; simpl snd.
  - eapply setItem_active_Derived; eauto with derived.
  - split; assumption.
Qed.

Lemma cleanupOldAlerts_Derived src daysToKeep now ls :
  Derived src (getAllAlerts ls) -> Derived src (getArchivedAlerts ls) ->
  Derived src (getAllAlerts (snd (cleanupOldAlerts daysToKeep now ls))) /\
  Derived src (getArchivedAlerts (snd (cleanupOldAlerts daysToKeep now ls))).
Proof.
  intros Hact Harch. unfold cleanupOldAlerts.
  set (cutoffDate := Date_minusDays now daysToKeep).
  destruct (0 <? length (filter (before cutoffDate) (getAllAlerts ls)))%nat;
    [|split; assumption].
  pose proof (archiveAlerts_Derived src
                (filter (before cutoffDate) (getAllAlerts ls)) ls) as Hls1.
  destruct (archiveAlerts (filter (before cutoffDate) (getAllAlerts ls)) ls)
    as [ok ls1].
  simpl snd in Hls1. destruct Hls1 as [Hact1 Harch1]; auto with derived.
  destruct (setItem ls1 STORAGE_KEY _) as [ls2|] eqn:Hset; simpl snd.
  - eapply setItem_active_Derived; eauto with derived.
  - split; assumption.
Qed.

Lemma markEmailSent_Derived src alertId ls :
  Derived src (getAllAlerts ls) -> Derived src (getArchivedAlerts ls) ->
  Derived src (getAllAlerts (snd (markEmailSent alertId ls))) /\
  Derived src (getArchivedAlerts (snd (markEmailSent alertId ls))).
Proof.
  intros Hact Harch. unfold markEmailSent.
  destruct (findIndex _ (getAllAlerts ls)) as [i|]; [|split; assumption].
  destruct (setItem ls STORAGE_KEY _) as [ls1|] eqn:Hset; simpl snd.
  - eapply setItem_active_Derived; eauto with derived.
  - split; assumption.
Qed.

Lemma clear_Derived src ls k :
  Derived src (getAllAlerts ls) -> Derived src (getArchivedAlerts ls) ->
  Derived src (getAllAlerts (writeItem ls k None)) /\
  Derived src (getArchivedAlerts (writeItem ls k None)).
Proof.
  intros Hact Harch. destruct k; split; try assumption; apply Derived_nil.
Qed.

(** One operation adds nothing to the store but what it was handed, and
    rewrites no field of a stored record but the two flags. *)
Lemma exec_Derived src op ls :
  Derived src (presented op) ->
  Derived src (getAllAlerts ls) -> Derived src (getArchivedAlerts ls) ->
  Derived src (getAllAlerts (exec ls op)) /\
  Derived src (getArchivedAlerts (exec ls op)).
Proof.
  intros Hnew Hact Harch. destruct op; simpl exec; simpl presented in Hnew.
  - apply saveAlert_Derived; assumption.
  - apply archiveAlerts_Derived; assumption.
  - apply deleteAlert_Derived; assumption.
  - apply cleanupOldAlerts_Derived; assumption.
  - apply markEmailSent_Derived; assumption.
  - unfold clearAllAlerts, removeItem.
    destruct (removeItem_throws ls STORAGE_KEY); cbn [snd];
      [split; assumption | apply clear_Derived; assumption].
  - unfold clearArchivedAlerts, removeItem.
    destruct (removeItem_throws ls ARCHIVED_KEY); cbn [snd];
      [split; assumption | apply clear_Derived; assumption].
Qed.

(** An import stores the arrays of the document as they are. *)
Lemma importAlerts_Derived src jsonData ls :
  Derived src (document_alerts jsonData) ->
  Derived src (getAllAlerts ls) -> Derived src (getArchivedAlerts ls) ->
  Derived src (getAllAlerts (snd (importAlerts jsonData ls))) /\
  Derived src (getArchivedAlerts (snd (importAlerts jsonData ls))).
Proof.
  intros Hdoc Hact Harch. unfold importAlerts.
  unfold document_alerts, array_under in Hdoc.
  destruct (JSON_parse jsonData) as [importData|]; [|split; assumption].
  destruct (get_prop importData "activeAlerts") as [activeField|]; [|split; assumption].
  assert (H1 : forall ls1,
             match truthy_array activeField with
             | Some alerts => setItem ls STORAGE_KEY alerts
             | None => Some ls
             end = Some ls1 ->
             Derived src (getAllAlerts ls1) /\ Derived src (getArchivedAlerts ls1)).
  { intros ls1 E. destruct (truthy_array activeField) as [alerts|].
    - apply setItem_active_Derived with (src := src) in E; try assumption.
      intros r' Hin. apply Hdoc. apply in_or_app. left. exact Hin.
    - inversion E; subst. split; assumption. }
  destruct (match truthy_array activeField with
            | Some alerts => setItem ls STORAGE_KEY alerts
            | None => Some ls
            end) as [ls1|]; [|split; assumption].
  destruct (H1 ls1 eq_refl) as [Hact1 Harch1]. cbn [snd].
  destruct (get_prop importData "archivedAlerts") as [archivedField|]; [|split; assumption].
  destruct (truthy_array archivedField) as [alerts|]; [|split; assumption].
  destruct (setItem ls1 ARCHIVED_KEY alerts) as [ls2|] eqn:E; cbn [snd];
    [|split; assumption].
  apply setItem_Some in E. destruct E as [_ ->]. split; [exact Hact1|].
  rewrite getArchivedAlerts_write_archived.
  intros r' Hin. apply Hdoc. apply in_or_app. right. exact Hin.
Qed.

Lemma call_Derived src c ls :
  Derived src (brought c) ->
  Derived src (getAllAlerts ls) -> Derived src (getArchivedAlerts ls) ->
  Derived src (getAllAlerts (call ls c)) /\
  Derived src (getArchivedAlerts (call ls c)).
Proof.
  destruct c as [op|jsonData]; cbn [call brought].
  - apply exec_Derived.
  - apply importAlerts_Derived.
Qed.

Lemma calls_Derived cs : forall src ls,
  Derived src (flat_map brought cs) ->
  Derived src (getAllAlerts ls) -> Derived src (getArchivedAlerts ls) ->
  Derived src (records (calls cs ls)).
Proof.
  induction cs as [|c cs IH]; intros src ls Hnew Hact Harch.
  - simpl. unfold records. auto with derived.
  - cbn [calls fold_left]. cbn [flat_map] in Hnew.
    assert (Hc : Derived src (brought c))
      by (intros r' Hin; apply Hnew; apply in_or_app; left; exact Hin).
    assert (Hcs : Derived src (flat_map brought cs))
      by (intros r' Hin; apply Hnew; apply in_or_app; right; exact Hin).
    destruct (call_Derived src c ls Hc Hact Harch) as [Hact' Harch'].
    apply IH; assumption.
Qed.

End Lineage.

(** C2.  Severity is fixed at save time from the heartbeat.  When
    [saveAlert] accepts an alert, the record it stores (the first active
    record) and the caller's object have the field [severity] set to the
    value the thresholds give for the heartbeat: above 120 [CRITICAL], else
    above 100 [HIGH], else above 90 [MEDIUM], else [LOW]; so 121, 101, 91
    and 89 give [CRITICAL], [HIGH], [MEDIUM] and [LOW].  The other fields of
    the stored record are those of the alert.  No later operation recomputes
    the severity: after any sequence of calls of the store's writing methods,
    every stored record is, up to the flags [emailSent] and [archived], a
    record that was stored before or one that a call brought (a submitted
    alert with the severity of its own save, a record handed to
    [archiveAlerts], a record of an imported document), and in particular
    has that record's severity. *)
Theorem saveAlert_severity {host : Host}
    (ls : Storage) (alert alert' : AlertData) (ls' : Storage) :
  saveAlert alert ls = (true, alert', ls') ->
  let hb := heartbeat alert in
  let sev := if (120 <? hb)%float then CRITICAL
             else if (100 <? hb)%float then HIGH
             else if (90 <? hb)%float then MEDIUM
             else LOW in
  severity alert' = Some sev /\
  fields_but_severity alert' = fields_but_severity alert /\
  (exists stored rest,
      getAllAlerts ls' = stored :: rest /\
      severity stored = Some sev /\
      fields_but_severity stored = fields_but_severity alert) /\
  alert' = set_severity sev alert /\
  hd_error (getAllAlerts ls') = Some (set_severity sev alert) /\
  (hb = 121%float -> sev = CRITICAL) /\
  (hb = 101%float -> sev = HIGH) /\
  (hb = 91%float -> sev = MEDIUM) /\
  (hb = 89%float -> sev = LOW) /\
  (forall later r',
      In r' (records (calls later ls')) ->
      exists r, In r (records ls' ++ flat_map brought later) /\
                same_but_flags r r' /\ severity r' = severity r).
Proof.
  intros Hsave hb sev.
  pose proof (saveAlert_accepted_head _ _ _ _ Hsave) as Hhead.
  apply saveAlert_accepted in Hsave. destruct Hsave as (_ & Halert' & _ & _).
  change (classifyAlertSeverity alert) with sev in Halert'.
  split; [rewrite Halert'; reflexivity|].
  split; [rewrite Halert'; reflexivity|].
  split.
  { exists alert', (firstn (MAX_ACTIVE_ALERTS - 1) (getAllAlerts ls)).
    split; [exact Hhead|]. rewrite Halert'. split; reflexivity. }
  rewrite <- Halert'. repeat split.
  - rewrite Hhead. reflexivity.
  - subst sev. intros ->. reflexivity.
  - subst sev. intros ->. reflexivity.
  - subst sev. intros ->. reflexivity.
  - subst sev. intros ->. reflexivity.
  - intros later r' Hin.
    destruct (calls_Derived later (records ls' ++ flat_map brought later) ls') with (r' := r')
      as [r [Hr E]]; try assumption.
    + apply Derived_incl. apply incl_appr, incl_refl.
    + apply Derived_incl. apply incl_appl. unfold records. apply incl_appl, incl_refl.
    + apply Derived_incl. apply incl_appl. unfold records. apply incl_appr, incl_refl.
    + exists r. repeat split; try assumption. apply same_but_flags_severity, E.
Qed.

Lemma saveAlert_severity_witness :
  let alert := sample_alert "band-7" "2024-05-01T10:00:00.000Z" PANIC 121 in
  let result := saveAlert (host := UTC.browser) alert emptyStorage in
  severity alert = None /\
  severity (snd (fst result)) = Some CRITICAL /\
  option_map severity (hd_error (getAllAlerts (snd result))) = Some (Some CRITICAL).
Proof.
  intros alert result.
  destruct (saveAlert_severity (host := UTC.browser) emptyStorage alert
              (snd (fst result)) (snd result) eq_refl)
    as (Hcaller & _ & (stored & rest & Hlist & Hstored & _) & _).
  split; [reflexivity|]. split; [exact Hcaller|].
  rewrite Hlist. cbn [hd_error option_map]. rewrite Hstored. reflexivity.
Defined.

(** ** The detector *)

Section DetectorFacts.
Context {host : Host}.

Lemma find_existsb {A} (p : A -> bool) l :
  find p l = None <-> existsb p l = false.
Proof.
  induction l as [|x l IH]; simpl; [tauto|].
  destruct (p x); simpl; [split; discriminate | exact IH].
Qed.

Lemma find_existsb_true {A} (p : A -> bool) l :
  existsb p l = true -> exists x, find p l = Some x.
Proof.
  induction l as [|x l IH]; simpl; [discriminate|].
  destruct (p x); simpl; [intros _; exists x; reflexivity | exact IH].
Qed.

End DetectorFacts.

(** C3.  What the detector does with one reading of a poll batch.  The
    reading leads to a submission exactly when [(panicstatus || fallstatus)]
    holds, [heartbeat > 90] holds strictly, and no active record has the id
    [deviceId + "-" + timestamp]; otherwise neither the storage nor the list
    of new alerts changes.  The submitted record has that id and status
    [PANIC] when [panicstatus] is set (also if [fallstatus] is set too),
    else [FALL]; it is echoed in the new alerts when the store accepts it.
    At heartbeat 90 nothing is submitted, at 91 a flagged reading with a new
    id is.  Each reading of a batch is handled in the storage left by the
    readings before it. *)
Theorem detectDevice_submits {host : Host}
    (ls : Storage) (newAlerts : list AlertData) (device : DeviceData.t) :
  let alertId := (DeviceData.id device ++ "-" ++ DeviceData.timestamp device)%string in
  let flagged := DeviceData.panicstatus device || DeviceData.fallstatus device in
  let known := existsb (fun alert => id alert =? alertId) (getAllAlerts ls) in
  let submits := flagged && (90 <? DeviceData.heartbeat device)%float && negb known in
  (if submits then
     exists alert,
       id alert = alertId /\
       status alert = (if DeviceData.panicstatus device then PANIC else FALL) /\
       deviceId alert = DeviceData.id device /\
       timestamp alert = DeviceData.timestamp device /\
       heartbeat alert = DeviceData.heartbeat device /\
       emailSent alert = false /\
       severity alert = None /\
       detectDevice (ls, newAlerts) device =
         (let '(saved, stored, ls') := saveAlert alert ls in
          (ls', if saved then newAlerts ++ [stored] else newAlerts))
   else detectDevice (ls, newAlerts) device = (ls, newAlerts)) /\
  (DeviceData.heartbeat device = 90%float -> submits = false) /\
  (DeviceData.heartbeat device = 91%float -> submits = flagged && negb known) /\
  (forall earlier ls0,
      detectCriticalAlerts (earlier ++ [device]) ls0 =
      detectDevice (detectCriticalAlerts earlier ls0) device).
Proof.
  intros alertId flagged known submits. repeat split.
  - unfold detectDevice. fold alertId. fold flagged.
    subst submits.
    destruct (flagged && (90 <? DeviceData.heartbeat device)%float) eqn:Hcrit;
      [|reflexivity].
    destruct known eqn:Hknown; cbn [negb andb].
    + destruct (find_existsb_true _ _ Hknown) as [x ->]. reflexivity.
    + apply find_existsb in Hknown. rewrite Hknown.
      exists (mkAlertData alertId (DeviceData.id device) (DeviceData.timestamp device)
                (DeviceData.location device) (DeviceData.latitude device)
                (DeviceData.longitude device)
                (if DeviceData.panicstatus device then PANIC else FALL)
                (DeviceData.heartbeat device)
                (Number_toString (DeviceData.latitude device) ++ ", "
                 ++ Number_toString (DeviceData.longitude device))%string
                false None None).
      repeat split.
      match goal with
      | |- context [saveAlert ?a ls] =>
          destruct (saveAlert a ls) as [[saved stored] ls']
      end.
      destruct saved; reflexivity.
  - intros Hhb. subst submits. rewrite Hhb.
    replace (90 <? 90)%float with false by reflexivity.
    rewrite andb_false_r. reflexivity.
  - intros Hhb. subst submits. rewrite Hhb.
    replace (90 <? 91)%float with true by reflexivity.
    rewrite andb_true_r. reflexivity.
  - intros earlier ls0. unfold detectCriticalAlerts.
    rewrite fold_left_app. reflexivity.
Qed.


Lemma detectDevice_submits_witness :
  (* a fall at 90 beats per minute: nothing happens *)
  detectDevice (host := UTC.browser) (emptyStorage, []) (sample_reading false true 90)
    = (emptyStorage, []) /\
  (* a fall at 91: a FALL alert is submitted *)
  (exists alert,
      id alert = "band-7-2024-05-01T10:00:00.000Z" /\ status alert = FALL /\
      detectDevice (host := UTC.browser) (emptyStorage, []) (sample_reading false true 91)
      = (let '(saved, stored, ls') := saveAlert (host := UTC.browser) alert emptyStorage in
         (ls', if saved then [stored] else []))) /\
  (* panic and fall together at 95: the alert is a PANIC alert *)
  (exists alert,
      id alert = "band-7-2024-05-01T10:00:00.000Z" /\ status alert = PANIC /\
      detectDevice (host := UTC.browser) (emptyStorage, []) (sample_reading true true 95)
      = (let '(saved, stored, ls') := saveAlert (host := UTC.browser) alert emptyStorage in
         (ls', if saved then [stored] else []))).
Proof.
  split; [|split].
  - exact (proj1 (detectDevice_submits (host := UTC.browser) emptyStorage []
                    (sample_reading false true 90))).
  - destruct (proj1 (detectDevice_submits (host := UTC.browser) emptyStorage []
                       (sample_reading false true 91)))
      as (alert & Hid & Hstatus & _ & _ & _ & _ & _ & Hrun).
    exists alert. split; [exact Hid | split; [exact Hstatus | exact Hrun]].
  - destruct (proj1 (detectDevice_submits (host := UTC.browser) emptyStorage []
                       (sample_reading true true 95)))
      as (alert & Hid & Hstatus & _ & _ & _ & _ & _ & Hrun).
    exists alert. split; [exact Hid | split; [exact Hstatus | exact Hrun]].
Defined.

(** The same three readings run through the whole detector. *)
Example detect_threshold_and_tie_break :
  detectCriticalAlerts (host := UTC.browser) [sample_reading false true 90] emptyStorage
    = (emptyStorage, []) /\
  map (fun a => (id a, status a, severity a, coordinates a))
      (snd (detectCriticalAlerts (host := UTC.browser)
              [sample_reading false true 91] emptyStorage))
    = [("band-7-2024-05-01T10:00:00.000Z", FALL, Some MEDIUM, "12.5, 77.25")] /\
  map (fun a => (id a, status a, severity a, coordinates a))
      (snd (detectCriticalAlerts (host := UTC.browser)
              [sample_reading true true 95] emptyStorage))
    = [("band-7-2024-05-01T10:00:00.000Z", PANIC, Some MEDIUM, "12.5, 77.25")] /\
  (* the same reading polled twice raises one alert *)
  length (getAllAlerts
            (fst (detectCriticalAlerts (host := UTC.browser)
                    [sample_reading true true 95; sample_reading true true 95]
                    emptyStorage))) = 1%nat.
Proof. vm_compute. repeat split. Qed.

(** ** Overflow of the active collection *)

Section Overflow.
Context {host : Host}.

Lemma split_oldest {A} n (l : list A) :
  length l = S n ->
  exists oldest, skipn n l = [oldest] /\ l = firstn n l ++ [oldest].
Proof.
  intros Hlen.
  assert (Hskip : length (skipn n l) = 1%nat) by (rewrite length_skipn; lia).
  destruct (skipn n l) as [|oldest [|x rest]] eqn:E; try discriminate.
  exists oldest. split; [reflexivity|].
  rewrite <- E. symmetry. apply firstn_skipn.
Qed.

Lemma Forall_set_archived l :
  Forall (fun r => archived r = Some true) (map set_archived l).
Proof. apply Forall_map. apply Forall_forall. intros r _. reflexivity. Qed.

End Overflow.

(** C4 (amended).  When a successful [saveAlert] makes the active
    collection exceed the cap of 1000 and the archive write it triggers goes
    through, the overflow suffix (everything after the first 1000 of the new
    alert followed by the former active records) is prepended, each record
    marked [archived = true], to the archive, which is then cut to its own
    cap of 5000; exactly 1000 records stay active.  An overflow of at most
    5000 records is in the archive in full.  With the active collection at
    the cap, one more distinct submission moves exactly the oldest record
    and leaves 1000 active. *)
Theorem saveAlert_overflow {host : Host}
    (ls : Storage) (alert alert' : AlertData) (ls' : Storage) :
  saveAlert alert ls = (true, alert', ls') ->
  (MAX_ACTIVE_ALERTS < length (alert :: getAllAlerts ls))%nat ->
  let updated := alert' :: getAllAlerts ls in
  let overflow := skipn MAX_ACTIVE_ALERTS updated in
  fst (archiveAlerts overflow ls) = true ->
  getAllAlerts ls' = firstn MAX_ACTIVE_ALERTS updated /\
  length (getAllAlerts ls') = MAX_ACTIVE_ALERTS /\
  getArchivedAlerts ls' =
    firstn MAX_ARCHIVED_ALERTS (map set_archived overflow ++ getArchivedAlerts ls) /\
  Forall (fun r => archived r = Some true) (map set_archived overflow) /\
  ((length overflow <= MAX_ARCHIVED_ALERTS)%nat ->
   firstn (length overflow) (getArchivedAlerts ls') = map set_archived overflow) /\
  (length (getAllAlerts ls) = MAX_ACTIVE_ALERTS ->
   exists kept oldest,
     getAllAlerts ls = kept ++ [oldest] /\
     getAllAlerts ls' = alert' :: kept /\
     getArchivedAlerts ls' =
       firstn MAX_ARCHIVED_ALERTS (set_archived oldest :: getArchivedAlerts ls)).
Proof.
  intros Hsave Hover updated overflow Harchive.
  apply saveAlert_accepted in Hsave. destruct Hsave as (_ & _ & Hact & Harch).
  fold updated in Hact, Harch.
  assert (Hlen : (MAX_ACTIVE_ALERTS < length updated)%nat) by exact Hover.
  apply Nat.ltb_lt in Hlen. rewrite Hlen in Harch. fold overflow in Harch.
  assert (Harchived : getArchivedAlerts ls' =
            firstn MAX_ARCHIVED_ALERTS (map set_archived overflow ++ getArchivedAlerts ls)).
  { unfold getArchivedAlerts at 1. rewrite Harch.
    fold (getArchivedAlerts (snd (archiveAlerts overflow ls))).
    rewrite archiveAlerts_archived, Harchive. reflexivity. }
  repeat split.
  - exact Hact.
  - rewrite Hact, length_firstn. apply Nat.ltb_lt in Hlen. lia.
  - exact Harchived.
  - apply Forall_set_archived.
  - intros Hfits. rewrite Harchived.
    rewrite firstn_firstn, Nat.min_l by exact Hfits.
    rewrite <- (length_map set_archived overflow).
    rewrite firstn_app, Nat.sub_diag, firstn_all. cbn [firstn]. apply app_nil_r.
  - intros Hcap.
    destruct (split_oldest (MAX_ACTIVE_ALERTS - 1) (getAllAlerts ls)) as [oldest [Hskip Hsplit]].
    { rewrite Hcap. reflexivity. }
    exists (firstn (MAX_ACTIVE_ALERTS - 1) (getAllAlerts ls)), oldest.
    assert (Hov : overflow = [oldest]) by exact Hskip.
    split; [exact Hsplit|]. split.
    + rewrite Hact. reflexivity.
    + rewrite Harchived, Hov. reflexivity.
Qed.


Lemma saveAlert_overflow_witness :
  let ls := active_series 1000 in
  let alert := sample_alert "band-new" "2024-05-02T08:30:00.000Z" PANIC 130 in
  let ls' := snd (saveAlert (host := UTC.browser) alert ls) in
  length (getAllAlerts ls') = 1000%nat /\
  exists kept oldest,
    getAllAlerts ls = kept ++ [oldest] /\
    getAllAlerts ls' = set_severity CRITICAL alert :: kept /\
    getArchivedAlerts ls' =
      firstn MAX_ARCHIVED_ALERTS (set_archived oldest :: getArchivedAlerts ls).
Proof.
  intros ls alert ls'.
  assert (Hsave : saveAlert (host := UTC.browser) alert ls
                  = (true, set_severity CRITICAL alert, ls'))
    by (vm_compute; reflexivity).
  assert (Hover : (MAX_ACTIVE_ALERTS < length (alert :: getAllAlerts ls))%nat)
    by (vm_compute; apply Nat.le_refl).
  assert (Harchive :
            fst (archiveAlerts (host := UTC.browser)
                   (skipn MAX_ACTIVE_ALERTS (set_severity CRITICAL alert :: getAllAlerts ls))
                   ls) = true)
    by reflexivity.
  destruct (saveAlert_overflow (host := UTC.browser) ls alert _ ls' Hsave Hover Harchive)
    as (_ & Hlen & _ & _ & _ & Hcap).
  split; [exact Hlen|].
  apply Hcap. vm_compute. reflexivity.
Defined.

(** C4 as stated fails in two ways.  First, the archive write can throw
    inside [archiveAlerts], which swallows the exception; [saveAlert] goes
    on, trims the active list and returns [true], and the overflow record is
    in neither collection.  Second, an overflow of more than 5000 records
    (an active item that was imported above the cap) does not fit the
    archive, which keeps only 5000 of them. *)
Lemma saveAlert_overflow_counterexample :
  (let ls := active_series 1000 in
   let alert := sample_alert "band-new" "2024-05-02T08:30:00.000Z" PANIC 130 in
   let oldest := numbered_alert 999 in
   let result := saveAlert (host := UTC.archiveFull) alert ls in
   let alert' := snd (fst result) in
   let ls' := snd result in
   fst (fst result) = true /\
   length (getAllAlerts ls) = 1000%nat /\
   skipn 1000 (alert' :: getAllAlerts ls) = [oldest] /\
   length (getAllAlerts ls') = 1000%nat /\
   getArchivedAlerts ls' = [] /\
   existsb (same_id oldest) (getAllAlerts ls') = false) /\
  (let ls := active_series (6 * 1000 + 1) in
   let alert := sample_alert "band-new" "2024-05-02T08:30:00.000Z" PANIC 130 in
   let result := saveAlert (host := UTC.browser) alert ls in
   let alert' := snd (fst result) in
   let ls' := snd result in
   fst (fst result) = true /\
   Z.of_nat (length (skipn 1000 (alert' :: getAllAlerts ls))) = 5002%Z /\
   Z.of_nat (length (getAllAlerts ls')) = 1000%Z /\
   Z.of_nat (length (getArchivedAlerts ls')) = 5000%Z /\
   existsb (same_id (numbered_alert (6 * 1000)))
     (getAllAlerts ls' ++ getArchivedAlerts ls')
   = false).
Proof. vm_compute. repeat split. Qed.

(** ** Archiving *)

(** C5 (amended).  [archiveAlerts] whose write goes through returns
    [true] and leaves as the archive the given records, each with the field
    [archived] set to [true] and its other fields as they were, followed by
    the former archive, cut to the first 5000; what lies beyond the cap, the
    tail and so the oldest entries, is in the storage no more.  When the
    write throws the call returns [false] and the storage is as before, so
    the archive does not hold the given records.  [true] is returned exactly
    when the write goes through.  The active item is never touched. *)
Theorem archiveAlerts_prepends {host : Host} (alerts : list AlertData) (ls : Storage) :
  let marked := map set_archived alerts in
  let updated := marked ++ getArchivedAlerts ls in
  let kept := firstn MAX_ARCHIVED_ALERTS updated in
  (setItem_throws ls ARCHIVED_KEY kept = false ->
     fst (archiveAlerts alerts ls) = true /\
     getArchivedAlerts (snd (archiveAlerts alerts ls)) = kept /\
     updated = getArchivedAlerts (snd (archiveAlerts alerts ls))
               ++ skipn MAX_ARCHIVED_ALERTS updated /\
     (length (getArchivedAlerts (snd (archiveAlerts alerts ls))) <= MAX_ARCHIVED_ALERTS)%nat) /\
  (setItem_throws ls ARCHIVED_KEY kept = true ->
     archiveAlerts alerts ls = (false, ls)) /\
  (fst (archiveAlerts alerts ls) = true <-> setItem_throws ls ARCHIVED_KEY kept = false) /\
  Forall (fun r => archived r = Some true) marked /\
  map without_flags marked = map without_flags alerts /\
  map emailSent marked = map emailSent alerts /\
  getItem (snd (archiveAlerts alerts ls)) STORAGE_KEY = getItem ls STORAGE_KEY.
Proof.
  intros marked updated kept.
  assert (Hcall : archiveAlerts alerts ls =
                  if setItem_throws ls ARCHIVED_KEY kept
                  then (false, ls)
                  else (true, writeItem ls ARCHIVED_KEY (Some kept))).
  { unfold archiveAlerts, setItem. fold marked. fold updated. fold kept.
    destruct (setItem_throws ls ARCHIVED_KEY kept); reflexivity. }
  split; [|split; [|split; [|split; [|split; [|split]]]]].
  - intros Hwrite. rewrite Hcall, Hwrite. cbn [fst snd].
    rewrite getArchivedAlerts_write_archived.
    split; [reflexivity|]. split; [reflexivity|].
    split; [symmetry; apply firstn_skipn | apply firstn_le_length].
  - intros Hwrite. rewrite Hcall, Hwrite. reflexivity.
  - rewrite Hcall. destruct (setItem_throws ls ARCHIVED_KEY kept); cbn [fst].
    + split; discriminate.
    + split; reflexivity.
  - apply Forall_set_archived.
  - unfold marked. rewrite map_map. reflexivity.
  - unfold marked. rewrite map_map. reflexivity.
  - apply archiveAlerts_active.
Qed.

Lemma archiveAlerts_prepends_witness :
  let older := set_archived (numbered_alert 1) in
  let ls := mkStorage (Some [numbered_alert 2]) (Some [older]) in
  let result := archiveAlerts (host := UTC.browser) [numbered_alert 2] ls in
  fst result = true /\
  getArchivedAlerts (snd result) = [set_archived (numbered_alert 2); older] /\
  map archived (getArchivedAlerts (snd result)) = [Some true; Some true] /\
  getAllAlerts (snd result) = [numbered_alert 2].
Proof.
  intros older ls result.
  destruct (archiveAlerts_prepends (host := UTC.browser) [numbered_alert 2] ls)
    as (Hok & _ & _ & _ & _ & _ & Hact).
  destruct (Hok eq_refl) as (Htrue & Harch & _ & _).
  split; [exact Htrue|]. split; [exact Harch|].
  split; [unfold result; rewrite Harch; reflexivity|].
  unfold getAllAlerts, result. rewrite Hact. reflexivity.
Defined.

(** C5 as stated fails: in a browser whose archive item takes no write,
    [archiveAlerts] returns [false] and the archive is what it was, not the
    given record followed by the former archive. *)
Lemma archiveAlerts_prepends_counterexample :
  let older := set_archived (numbered_alert 1) in
  let ls := mkStorage (Some [numbered_alert 2]) (Some [older]) in
  let result := archiveAlerts (host := UTC.archiveFull) [numbered_alert 2] ls in
  fst result = false /\
  getArchivedAlerts (snd result) = [older] /\
  getArchivedAlerts (snd result)
  <> firstn MAX_ARCHIVED_ALERTS
       (map set_archived [numbered_alert 2] ++ getArchivedAlerts ls).
Proof.
  vm_compute. split; [reflexivity|]. split; [reflexivity|]. discriminate.
Qed.

(** The cap at work: 5001 records handed to an empty archive leave 5000,
    and the last of them is gone. *)
Example archive_cap_drops_tail :
  let ls' := snd (archiveAlerts (host := UTC.browser)
                    (map numbered_alert (seq 0 (5 * 1000 + 1))) emptyStorage) in
  Z.of_nat (length (getArchivedAlerts ls')) = 5000%Z /\
  existsb (same_id (numbered_alert (5 * 1000))) (getArchivedAlerts ls') = false /\
  existsb (same_id (numbered_alert (5 * 1000 - 1))) (getArchivedAlerts ls') = true.
Proof. vm_compute. repeat split. Qed.

(** ** Uniqueness of ids *)

Section UniqueIds.
Context {host : Host}.


Lemma unique_ids_firstn n l : unique_ids l -> unique_ids (firstn n l).
Proof.
  unfold unique_ids. intros H.
  rewrite <- (firstn_skipn n l), map_app in H.
  apply NoDup_app_remove_r in H. exact H.
Qed.

Lemma unique_ids_filter p l : unique_ids l -> unique_ids (filter p l).
Proof.
  unfold unique_ids. induction l as [|x l IH]; simpl; intros H; [constructor|].
  inversion H as [|? ? Hnotin Hrest]; subst.
  destruct (p x); simpl.
  - constructor; [|apply IH, Hrest].
    intros Hin. apply Hnotin. apply in_map_iff in Hin.
    destruct Hin as [y [Hy Hin]]. apply filter_In in Hin.
    apply in_map_iff. exists y. split; [exact Hy | apply Hin].
  - apply IH, Hrest.
Qed.

Lemma map_id_update_at i l : map id (update_at i set_emailSent l) = map id l.
Proof.
  revert i. induction l as [|x l IH]; intros [|j]; simpl; try reflexivity.
  rewrite IH. reflexivity.
Qed.

Lemma unique_ids_cons a l :
  existsb (same_id a) l = false -> unique_ids l ->
  unique_ids (set_severity (classifyAlertSeverity a) a :: l).
Proof.
  unfold unique_ids. intros Hfresh Hl. simpl. constructor; [|exact Hl].
  intros Hin. apply in_map_iff in Hin. destruct Hin as [y [Hy Hin]].
  assert (Hex : existsb (same_id a) l = true)
    by (apply existsb_same_id; exists y; split; assumption).
  rewrite Hfresh in Hex. discriminate.
Qed.

Lemma setItem_active ls v ls' :
  setItem ls STORAGE_KEY v = Some ls' -> getAllAlerts ls' = v.
Proof. intros H. apply setItem_Some in H. destruct H as [_ ->]. reflexivity. Qed.

Lemma saveAlert_unique alert ls :
  unique_ids (getAllAlerts ls) -> unique_ids (getAllAlerts (snd (saveAlert alert ls))).
Proof.
  intros Huniq. unfold saveAlert. fold (same_id alert).
  destruct (existsb (same_id alert) (getAllAlerts ls)) eqn:Hfresh; [exact Huniq|].
  pose proof (unique_ids_cons alert _ Hfresh Huniq) as Hupd.
  destruct (MAX_ACTIVE_ALERTS <? _)%nat.
  - pose proof (archiveAlerts_getAllAlerts
                  (skipn MAX_ACTIVE_ALERTS
                     (set_severity (classifyAlertSeverity alert) alert :: getAllAlerts ls))
                  ls) as Hact1.
    destruct (archiveAlerts _ ls) as [ok ls1]. cbn [snd] in Hact1.
    destruct (setItem ls1 STORAGE_KEY _) as [ls2|] eqn:Hset; cbn [snd].
    + rewrite (setItem_active _ _ _ Hset). apply unique_ids_firstn, Hupd.
    + rewrite Hact1. exact Huniq.
  - destruct (setItem ls STORAGE_KEY _) as [ls1|] eqn:Hset; cbn [snd].
    + rewrite (setItem_active _ _ _ Hset). exact Hupd.
    + exact Huniq.
Qed.

Lemma exec_unique op ls :
  unique_ids (getAllAlerts ls) -> unique_ids (getAllAlerts (exec ls op)).
Proof.
  intros Huniq. destruct op; cbn [exec].
  - apply saveAlert_unique, Huniq.
  - rewrite archiveAlerts_getAllAlerts. exact Huniq.
  - unfold deleteAlert.
    destruct (setItem ls STORAGE_KEY _) as [ls1|] eqn:Hset; cbn [snd].
    + rewrite (setItem_active _ _ _ Hset). apply unique_ids_filter, Huniq.
    + exact Huniq.
  - unfold cleanupOldAlerts.
    destruct (0 <? _)%nat; [|exact Huniq].
    pose proof (archiveAlerts_getAllAlerts
                  (filter (before (Date_minusDays now daysToKeep)) (getAllAlerts ls)) ls)
      as Hact1.
    destruct (archiveAlerts _ ls) as [ok ls1]. cbn [snd] in Hact1.
    destruct (setItem ls1 STORAGE_KEY _) as [ls2|] eqn:Hset; cbn [snd].
    + rewrite (setItem_active _ _ _ Hset). apply unique_ids_filter, Huniq.
    + rewrite Hact1. exact Huniq.
  - unfold markEmailSent.
    destruct (findIndex _ (getAllAlerts ls)) as [i|]; [|exact Huniq].
    destruct (setItem ls STORAGE_KEY _) as [ls1|] eqn:Hset; cbn [snd].
    + rewrite (setItem_active _ _ _ Hset).
      unfold unique_ids. rewrite map_id_update_at. exact Huniq.
    + exact Huniq.
  - unfold clearAllAlerts, removeItem.
    destruct (removeItem_throws ls STORAGE_KEY); cbn [snd]; [exact Huniq | constructor].
  - unfold clearArchivedAlerts, removeItem.
    destruct (removeItem_throws ls ARCHIVED_KEY); cbn [snd]; exact Huniq.
Qed.

End UniqueIds.

(** C6 (amended).  In every state the store's operations ([saveAlert],
    [archiveAlerts], [deleteAlert], [cleanupOldAlerts], [markEmailSent], the
    two clears) reach from the empty storage, or from any storage whose
    active ids are pairwise distinct, no two active records share an id. *)
Theorem active_ids_unique {host : Host} (ops : list Op) (ls : Storage) :
  (unique_ids (getAllAlerts ls) -> unique_ids (getAllAlerts (run ops ls))) /\
  unique_ids (getAllAlerts (run ops emptyStorage)).
Proof.
  assert (Hrun : forall ls0, unique_ids (getAllAlerts ls0) ->
                             unique_ids (getAllAlerts (run ops ls0))).
  { induction ops as [|op ops IH]; intros ls0 H0; [exact H0|].
    cbn [run fold_left]. apply IH. apply exec_unique, H0. }
  split; [apply Hrun|].
  apply Hrun. constructor.
Qed.


Lemma active_ids_unique_witness :
  let alert := sample_alert "band-7" "2024-05-01T10:00:00.000Z" FALL 95 in
  let ops := [OpSave alert; OpCleanup 30 july_1_2024; OpSave alert; OpSave alert;
              OpMarkEmailSent (id alert)] in
  unique_ids (getAllAlerts (run (host := UTC.browser) ops (active_series 3))).
Proof.
  intros alert ops.
  apply (proj1 (active_ids_unique (host := UTC.browser) ops (active_series 3))).
  vm_compute. repeat constructor; simpl; intuition discriminate.
Defined.

(** C6 as stated fails: an alert that [cleanupOldAlerts] has moved to the
    archive is accepted again by [saveAlert], which looks for its id among
    the active records only; the id is then both active and archived.
    [archiveAlerts] called on an active record gives the same. *)
Lemma ids_unique_counterexample :
  let alert := sample_alert "band-7" "2024-05-01T10:00:00.000Z" FALL 95 in
  let ls := run (host := UTC.browser)
                [OpSave alert; OpCleanup 30 july_1_2024; OpSave alert] emptyStorage in
  let ls2 := run (host := UTC.browser) [OpSave alert; OpArchive [alert]] emptyStorage in
  map id (getAllAlerts ls) = ["band-7-2024-05-01T10:00:00.000Z"] /\
  map id (getArchivedAlerts ls) = ["band-7-2024-05-01T10:00:00.000Z"] /\
  ~ NoDup (map id (getAllAlerts ls ++ getArchivedAlerts ls)) /\
  ~ NoDup (map id (getAllAlerts ls2 ++ getArchivedAlerts ls2)).
Proof.
  vm_compute. repeat split; try reflexivity.
  - intros H. inversion H as [|? ? Hnotin _]. apply Hnotin. left. reflexivity.
  - intros H. inversion H as [|? ? Hnotin _]. apply Hnotin. left. reflexivity.
Qed.

(** ** Cleanup by age *)

Section Cleanup.
Context {host : Host}.

Lemma before_notBefore c a : before c a = true -> notBefore c a = false.
Proof.
  unfold before, notBefore. destruct (Date_parse (timestamp a)); [|discriminate].
  intros H. apply Z.ltb_lt in H. apply Z.leb_gt. exact H.
Qed.

Lemma filter_before_kept c l : filter (before c) (filter (notBefore c) l) = [].
Proof.
  induction l as [|x l IH]; simpl; [reflexivity|].
  destruct (notBefore c x) eqn:Hx; simpl; [|exact IH].
  destruct (before c x) eqn:Hb; [|exact IH].
  apply before_notBefore in Hb. congruence.
Qed.

Lemma filter_idem {A} (p : A -> bool) l : filter p (filter p l) = filter p l.
Proof.
  induction l as [|x l IH]; simpl; [reflexivity|].
  destruct (p x) eqn:Hx; simpl; [rewrite Hx, IH; reflexivity | exact IH].
Qed.

Lemma length_zero_ltb {A} (l : list A) : (0 <? length l)%nat = false <-> l = [].
Proof.
  destruct l; simpl; split; intros H; try reflexivity; discriminate.
Qed.

(** With nothing older than the cutoff, cleanup reports 0 and writes
    nothing. *)
Lemma cleanupOldAlerts_nothing daysToKeep now ls :
  filter (before (Date_minusDays now daysToKeep)) (getAllAlerts ls) = [] ->
  cleanupOldAlerts daysToKeep now ls = (Normal 0%nat, ls).
Proof. intros Hnone. unfold cleanupOldAlerts. rewrite Hnone. reflexivity. Qed.

End Cleanup.

(** C7 (amended).  For a call of [cleanupOldAlerts] that returns, and whose
    archive write (made when some record is old) goes through: the count
    returned is the number of active records whose timestamp is strictly
    before the cutoff [now - daysToKeep days]; these records, marked
    [archived = true], are prepended to the archive, which is cut to 5000
    (so all of them are there when they are at most 5000); the records at or
    after the cutoff stay active, in their order, and no record before the
    cutoff stays; a repeated call, at the same clock or at any clock for
    which nothing is old, returns 0 and changes nothing. *)
Theorem cleanupOldAlerts_partition {host : Host}
    (daysToKeep now : Z) (ls : Storage) (count : nat) (ls' : Storage) :
  cleanupOldAlerts daysToKeep now ls = (Normal count, ls') ->
  let cutoffDate := Date_minusDays now daysToKeep in
  let old := filter (before cutoffDate) (getAllAlerts ls) in
  (old <> [] -> fst (archiveAlerts old ls) = true) ->
  count = length old /\
  (old <> [] ->
     getArchivedAlerts ls' =
       firstn MAX_ARCHIVED_ALERTS (map set_archived old ++ getArchivedAlerts ls)) /\
  (old <> [] -> (length old <= MAX_ARCHIVED_ALERTS)%nat ->
     firstn (length old) (getArchivedAlerts ls') = map set_archived old) /\
  (old = [] -> ls' = ls) /\
  filter (notBefore cutoffDate) (getAllAlerts ls') =
    filter (notBefore cutoffDate) (getAllAlerts ls) /\
  filter (before cutoffDate) (getAllAlerts ls') = [] /\
  cleanupOldAlerts daysToKeep now ls' = (Normal 0%nat, ls') /\
  (forall now',
      filter (before (Date_minusDays now' daysToKeep)) (getAllAlerts ls') = [] ->
      cleanupOldAlerts daysToKeep now' ls' = (Normal 0%nat, ls')).
Proof.
  intros Hclean cutoffDate old Harchive.
  unfold cleanupOldAlerts in Hclean. fold cutoffDate in Hclean. fold old in Hclean.
  assert (Hgoal :
    count = length old /\
    (old <> [] ->
       getArchivedAlerts ls' =
         firstn MAX_ARCHIVED_ALERTS (map set_archived old ++ getArchivedAlerts ls)) /\
    (old = [] -> ls' = ls) /\
    filter (notBefore cutoffDate) (getAllAlerts ls') =
      filter (notBefore cutoffDate) (getAllAlerts ls) /\
    filter (before cutoffDate) (getAllAlerts ls') = []).
  { destruct (0 <? length old)%nat eqn:Hsome.
    - assert (Hold : old <> []).
      { intros E. rewrite E in Hsome. discriminate. }
      pose proof (archiveAlerts_archived old ls) as Harch.
      rewrite (Harchive Hold) in Harch.
      destruct (archiveAlerts old ls) as [ok ls1]. cbn [snd] in Harch.
      destruct (setItem ls1 STORAGE_KEY _) as [ls2|] eqn:Hset; [|discriminate].
      inversion Hclean; subst count ls'. clear Hclean.
      pose proof (setItem_active _ _ _ Hset) as Hact.
      apply setItem_Some in Hset. destruct Hset as [_ Hls2].
      repeat split.
      + intros _. rewrite Hls2, getArchivedAlerts_write_active. exact Harch.
      + intros E. contradiction.
      + rewrite Hact. apply filter_idem.
      + rewrite Hact. apply filter_before_kept.
    - inversion Hclean; subst count ls'. clear Hclean.
      apply length_zero_ltb in Hsome.
      repeat split; try reflexivity.
      + intros Hold. contradiction.
      + exact Hsome. }
  destruct Hgoal as (Hcount & Harch & Hsame & Hkept & Hnone).
  repeat split; try assumption.
  - intros Hold Hfits. rewrite (Harch Hold).
    rewrite firstn_firstn, Nat.min_l by exact Hfits.
    rewrite <- (length_map set_archived old).
    rewrite firstn_app, Nat.sub_diag, firstn_all. cbn [firstn]. apply app_nil_r.
  - apply cleanupOldAlerts_nothing. exact Hnone.
  - intros now'. apply cleanupOldAlerts_nothing.
Qed.

Lemma cleanupOldAlerts_partition_witness :
  let old := sample_alert "band-7" "2024-05-01T10:00:00.000Z" FALL 95 in
  let recent := sample_alert "band-9" "2024-06-20T09:15:00.000Z" PANIC 110 in
  let ls := mkStorage (Some [recent; old]) None in
  let ls' := snd (cleanupOldAlerts (host := UTC.browser) 30 july_1_2024 ls) in
  cleanupOldAlerts (host := UTC.browser) 30 july_1_2024 ls = (Normal 1%nat, ls') /\
  getArchivedAlerts ls' = [set_archived old] /\
  filter (notBefore (host := UTC.browser) june_1_2024) (getAllAlerts ls') = [recent] /\
  cleanupOldAlerts (host := UTC.browser) 30 july_1_2024 ls' = (Normal 0%nat, ls').
Proof.
  intros old recent ls ls'.
  assert (Hrun : cleanupOldAlerts (host := UTC.browser) 30 july_1_2024 ls
                 = (Normal 1%nat, ls')) by (vm_compute; reflexivity).
  destruct (cleanupOldAlerts_partition (host := UTC.browser) 30 july_1_2024 ls 1%nat ls' Hrun)
    as (_ & Harch & _ & _ & Hkept & _ & Hagain & _).
  { intros _. reflexivity. }
  split; [exact Hrun|]. split; [|split].
  - apply Harch. vm_compute. discriminate.
  - exact Hkept.
  - exact Hagain.
Defined.

(** C7 as stated fails in two ways.  First, [cleanupOldAlerts] does not
    look at what [archiveAlerts] returns: when the archive write throws, the
    old record is removed from the active item all the same, the count 1 is
    returned, and nothing was moved.  Second, of 5001 old active records
    (an active item imported above its cap) the archive keeps 5000, while
    the count returned is 5001. *)
Lemma cleanupOldAlerts_counterexample :
  (let old := sample_alert "band-7" "2024-05-01T10:00:00.000Z" FALL 95 in
   let ls := mkStorage (Some [old]) None in
   let result := cleanupOldAlerts (host := UTC.archiveFull) 30 july_1_2024 ls in
   before (host := UTC.archiveFull) june_1_2024 old = true /\
   fst result = Normal 1%nat /\
   getAllAlerts (snd result) = [] /\
   getArchivedAlerts (snd result) = []) /\
  (let ls := active_series (5 * 1000 + 1) in
   let result := cleanupOldAlerts (host := UTC.browser) 30 july_1_2024 ls in
   forallb (before (host := UTC.browser) june_1_2024) (getAllAlerts ls) = true /\
   match fst result with
   | Normal count => Z.of_nat count = 5001%Z
   | Throw => False
   end /\
   getAllAlerts (snd result) = [] /\
   Z.of_nat (length (getArchivedAlerts (snd result))) = 5000%Z /\
   existsb (same_id (numbered_alert (5 * 1000))) (getArchivedAlerts (snd result)) = false).
Proof. vm_compute. repeat split. Qed.

(** A record whose timestamp is not a date is neither before nor at or
    after the cutoff: once a cleanup moves anything, it is in neither
    collection. *)
Example cleanup_drops_undated_record :
  let old := sample_alert "band-7" "2024-05-01T10:00:00.000Z" FALL 95 in
  let undated := sample_alert "band-8" "n/a" FALL 95 in
  let result := cleanupOldAlerts (host := UTC.browser) 30 july_1_2024
                  (mkStorage (Some [undated; old]) None) in
  fst result = Normal 1%nat /\
  getAllAlerts (snd result) = [] /\
  getArchivedAlerts (snd result) = [set_archived old].
Proof. vm_compute. repeat split. Qed.

(** ** Export and import *)

Section ExportImportFacts.
Context {host : Host}.

Lemma export_activeAlerts includeArchived now ls :
  exists exportData,
    exportAlerts includeArchived now ls = Some exportData /\
    get_prop exportData "activeAlerts" = Normal (Some (JSArray (getAllAlerts ls))) /\
    get_prop exportData "archivedAlerts" =
      Normal (Some (JSArray (if includeArchived then getArchivedAlerts ls else []))).
Proof. eexists. repeat split. Qed.

(** Import of a document that holds both arrays. *)
Lemma importAlerts_both importData active archived ls :
  get_prop importData "activeAlerts" = Normal (Some (JSArray active)) ->
  get_prop importData "archivedAlerts" = Normal (Some (JSArray archived)) ->
  importAlerts (Some importData) ls =
    match setItem ls STORAGE_KEY active with
    | None => (false, ls)
    | Some ls1 =>
        match setItem ls1 ARCHIVED_KEY archived with
        | None => (false, ls1)
        | Some ls2 => (true, ls2)
        end
    end.
Proof.
  intros Hactive Harchived. unfold importAlerts, JSON_parse.
  rewrite Hactive, Harchived. reflexivity.
Qed.

End ExportImportFacts.

(** C8 (amended).  The document that [exportAlerts(true)] wrote holds the
    two collections as arrays, and importing it into a storage, the
    exporting one or any other, in which the two writes of the import go
    through returns [true] and gives back the collections it was written
    from, same records in the same order; [true] is returned exactly when
    both writes go through.  Imported into the storage it came from, the
    collections read the same afterwards whatever the writes do. *)
Theorem import_export_roundtrip {host : Host} (source target : Storage) (now : Z) :
  let document := exportAlerts true now source in
  let active_written := writeItem target STORAGE_KEY (Some (getAllAlerts source)) in
  (setItem_throws target STORAGE_KEY (getAllAlerts source) = false ->
   setItem_throws active_written ARCHIVED_KEY (getArchivedAlerts source) = false ->
   fst (importAlerts document target) = true /\
   getAllAlerts (snd (importAlerts document target)) = getAllAlerts source /\
   getArchivedAlerts (snd (importAlerts document target)) = getArchivedAlerts source) /\
  (fst (importAlerts document target) = true <->
   setItem_throws target STORAGE_KEY (getAllAlerts source) = false /\
   setItem_throws active_written ARCHIVED_KEY (getArchivedAlerts source) = false) /\
  (holds_array document "activeAlerts" = true /\
   holds_array document "archivedAlerts" = true /\
   document_alerts document = getAllAlerts source ++ getArchivedAlerts source) /\
  (getAllAlerts (snd (importAlerts document source)) = getAllAlerts source /\
   getArchivedAlerts (snd (importAlerts document source)) = getArchivedAlerts source).
Proof.
  intros document active_written.
  destruct (export_activeAlerts true now source) as (exportData & Hdoc & Hactive & Harchived).
  subst document. rewrite Hdoc.
  rewrite !(importAlerts_both _ _ _ _ Hactive Harchived).
  unfold setItem. fold active_written.
  split; [|split; [|split]].
  - intros H1 H2. rewrite H1, H2. cbn [fst snd]. repeat split.
  - destruct (setItem_throws target STORAGE_KEY (getAllAlerts source)); cbn [fst].
    + split; [discriminate | intros [H _]; discriminate H].
    + destruct (setItem_throws active_written ARCHIVED_KEY (getArchivedAlerts source));
        cbn [fst].
      * split; [discriminate | intros [_ H]; discriminate H].
      * split; [intros _; split; reflexivity | reflexivity].
  - unfold holds_array, document_alerts, array_under, JSON_parse.
    rewrite Hactive, Harchived. repeat split.
  - destruct (setItem_throws source STORAGE_KEY (getAllAlerts source));
      [split; reflexivity|].
    destruct (setItem_throws _ ARCHIVED_KEY (getArchivedAlerts source)); split; reflexivity.
Qed.

Lemma import_export_roundtrip_witness :
  let source :=
    mkStorage (Some [set_severity HIGH (numbered_alert 2); set_emailSent (numbered_alert 1)])
              (Some [set_archived (numbered_alert 0)]) in
  let document := exportAlerts (host := UTC.browser) true july_1_2024 source in
  let result := importAlerts (host := UTC.browser) document emptyStorage in
  fst result = true /\
  getAllAlerts (snd result) = getAllAlerts source /\
  getArchivedAlerts (snd result) = getArchivedAlerts source.
Proof.
  intros source document result.
  exact (proj1 (import_export_roundtrip (host := UTC.browser) source emptyStorage
                  july_1_2024) eq_refl eq_refl).
Defined.

(** C8 as stated fails: imported into an empty storage whose archive item
    takes no write, the document of [exportAlerts(true)] gives back the
    active collection only; [importAlerts] returns [false] and the archive
    stays empty. *)
Lemma import_export_roundtrip_counterexample :
  let source :=
    mkStorage (Some [set_severity HIGH (numbered_alert 2); set_emailSent (numbered_alert 1)])
              (Some [set_archived (numbered_alert 0)]) in
  let document := exportAlerts (host := UTC.archiveFull) true july_1_2024 source in
  let result := importAlerts (host := UTC.archiveFull) document emptyStorage in
  fst result = false /\
  getAllAlerts (snd result) = getAllAlerts source /\
  getArchivedAlerts (snd result) = [] /\
  getArchivedAlerts (snd result) <> getArchivedAlerts source.
Proof.
  vm_compute. split; [reflexivity|]. split; [reflexivity|]. split; [reflexivity|].
  discriminate.
Qed.

(** The same round trip, evaluated: the import into an empty storage
    returns [true] and the storage equals the exported one. *)
Example import_export_into_fresh_store :
  let source :=
    mkStorage (Some [set_severity HIGH (numbered_alert 2); set_emailSent (numbered_alert 1)])
              (Some [set_archived (numbered_alert 0)]) in
  importAlerts (host := UTC.browser)
    (exportAlerts (host := UTC.browser) true july_1_2024 source) emptyStorage
  = (true, source).
Proof. reflexivity. Qed.


(** C9 (amended).  An import document that holds an array neither under
    [activeAlerts] nor under [archivedAlerts] leaves the storage exactly as
    it was.  [importAlerts] returns [false] on it only when the text is not
    JSON or is the JSON [null]; on every other such document (an object
    without the two properties, or with values that are not arrays, a
    number, a string, a boolean, a bare array) it returns [true]. *)
Theorem importAlerts_malformed {host : Host} (jsonData : JSONText) (ls : Storage) :
  holds_array jsonData "activeAlerts" = false ->
  holds_array jsonData "archivedAlerts" = false ->
  snd (importAlerts jsonData ls) = ls /\
  (fst (importAlerts jsonData ls) = false <->
   jsonData = None \/ jsonData = Some JSNull).
Proof.
  unfold holds_array, importAlerts, JSON_parse.
  destruct jsonData as [importData|].
  - destruct importData as [ | b | x | s | alerts | props ]; cbn [get_prop].
    + intros _ _. split; [reflexivity|]. split; [right; reflexivity | reflexivity].
    + intros _ _. split; [reflexivity|].
      split; [discriminate | intros [H|H]; discriminate H].
    + intros _ _. split; [reflexivity|].
      split; [discriminate | intros [H|H]; discriminate H].
    + intros _ _. split; [reflexivity|].
      split; [discriminate | intros [H|H]; discriminate H].
    + intros _ _. split; [reflexivity|].
      split; [discriminate | intros [H|H]; discriminate H].
    + intros Hactive Harchived.
      assert (Ha : truthy_array (lookup_prop "activeAlerts" props) = None).
      { destruct (lookup_prop "activeAlerts" props) as [[]|];
          try reflexivity; discriminate. }
      assert (Hb : truthy_array (lookup_prop "archivedAlerts" props) = None).
      { destruct (lookup_prop "archivedAlerts" props) as [[]|];
          try reflexivity; discriminate. }
      rewrite Ha, Hb. split; [reflexivity|].
      split; [discriminate | intros [H|H]; discriminate H].
  - intros _ _. split; [reflexivity|]. split; [left; reflexivity | reflexivity].
Qed.

Lemma importAlerts_malformed_witness :
  let ls := active_series 2 in
  let jsonData := Some (JSObject [("activeAlerts", JSString "none");
                                  ("alerts", JSArray [numbered_alert 5])]) in
  snd (importAlerts (host := UTC.browser) jsonData ls) = ls.
Proof.
  intros ls jsonData.
  exact (proj1 (importAlerts_malformed (host := UTC.browser) jsonData ls eq_refl eq_refl)).
Defined.

(** C9 as stated fails: the document [{}] holds neither collection, and
    [importAlerts] returns [true] on it (the storage is untouched); so it
    does on the document [42]. *)
Lemma importAlerts_malformed_counterexample :
  let ls := active_series 2 in
  holds_array (Some (JSObject [])) "activeAlerts" = false /\
  holds_array (Some (JSObject [])) "archivedAlerts" = false /\
  importAlerts (host := UTC.browser) (Some (JSObject [])) ls = (true, ls) /\
  importAlerts (host := UTC.browser) (Some (JSNumber 42)) ls = (true, ls).
Proof. repeat split. Qed.

(** ** Deleting *)

Section Delete.
Context {host : Host}.

Lemma filter_all {A} (p : A -> bool) l :
  (forall x, In x l -> p x = true) -> filter p l = l.
Proof.
  induction l as [|x l IH]; simpl; intros H; [reflexivity|].
  rewrite (H x (or_introl eq_refl)). f_equal. apply IH.
  intros y Hy. apply H. right. exact Hy.
Qed.

(** [deleteAlert] in terms of the write it makes. *)

Lemma deleteAlert_result alertId ls :
  deleteAlert alertId ls =
    if setItem_throws ls STORAGE_KEY (without_id alertId (getAllAlerts ls))
    then (false, ls)
    else (true, writeItem ls STORAGE_KEY (Some (without_id alertId (getAllAlerts ls)))).
Proof.
  unfold deleteAlert, setItem, without_id.
  destruct (setItem_throws ls STORAGE_KEY _); reflexivity.
Qed.

End Delete.

(** C10.  [deleteAlert] with an id that no active record has rewrites the
    active collection as it is and returns [true], unless the write throws:
    both collections read the same afterwards.  For every id, present or
    not, it returns [false] exactly when the write of the filtered list
    throws; a missing id is never reported. *)
Theorem deleteAlert_missing {host : Host} (alertId : string) (ls : Storage) :
  (forall alert, In alert (getAllAlerts ls) -> id alert <> alertId) ->
  fst (deleteAlert alertId ls) = negb (setItem_throws ls STORAGE_KEY (getAllAlerts ls)) /\
  getAllAlerts (snd (deleteAlert alertId ls)) = getAllAlerts ls /\
  getArchivedAlerts (snd (deleteAlert alertId ls)) = getArchivedAlerts ls /\
  (forall anyId,
      fst (deleteAlert anyId ls) = false <->
      setItem_throws ls STORAGE_KEY (without_id anyId (getAllAlerts ls)) = true).
Proof.
  intros Hmissing.
  assert (Hsame : without_id alertId (getAllAlerts ls) = getAllAlerts ls).
  { apply filter_all. intros alert Hin. apply negb_true_iff. apply String.eqb_neq.
    apply Hmissing, Hin. }
  pose proof (deleteAlert_result alertId ls) as Hdel.
  rewrite Hsame in Hdel. rewrite Hdel.
  split; [|split; [|split]].
  - destruct (setItem_throws ls STORAGE_KEY (getAllAlerts ls)); reflexivity.
  - destruct (setItem_throws ls STORAGE_KEY (getAllAlerts ls)); reflexivity.
  - destruct (setItem_throws ls STORAGE_KEY (getAllAlerts ls)); reflexivity.
  - intros anyId. rewrite (deleteAlert_result anyId ls).
    destruct (setItem_throws ls STORAGE_KEY (without_id anyId (getAllAlerts ls)));
      cbn [fst]; split; intros H; try reflexivity; discriminate H.
Qed.

Lemma deleteAlert_missing_witness :
  let ls := active_series 3 in
  let result := deleteAlert (host := UTC.browser) "band-404-2024-05-01T10:00:00.000Z" ls in
  fst result = true /\ getAllAlerts (snd result) = getAllAlerts ls.
Proof.
  intros ls result.
  assert (Hmissing : forall alert, In alert (getAllAlerts ls) ->
                                   id alert <> "band-404-2024-05-01T10:00:00.000Z").
  { intros alert Hin. vm_compute in Hin.
    destruct Hin as [<-|[<-|[<-|[]]]]; discriminate. }
  destruct (deleteAlert_missing (host := UTC.browser) _ ls Hmissing) as (Hok & Hact & _).
  split; [exact Hok | exact Hact].
Defined.

(** A storage that refuses the write is the one case of [false]. *)
Example deleteAlert_write_failure :
  let readOnly : Host :=
    {| setItem_throws := fun _ _ _ => true;
       removeItem_throws := fun _ _ => true;
       Date_parse := UTC.parse;
       Date_minusDays := fun now d => (now - d * 86400000)%Z;
       Date_toISOString := UTC.toISOString;
       Number_toString := UTC.toString;
       Blob_size := fun _ => None |} in
  deleteAlert (host := readOnly) "band-1-2024-05-01T10:00:00.000Z" (active_series 3)
    = (false, active_series 3) /\
  fst (deleteAlert (host := UTC.browser) "band-1-2024-05-01T10:00:00.000Z" (active_series 3))
    = true /\
  map id (getAllAlerts
            (snd (deleteAlert (host := UTC.browser) "band-1-2024-05-01T10:00:00.000Z"
                    (active_series 3))))
    = ["band-0-2024-05-01T10:00:00.000Z"; "band-2-2024-05-01T10:00:00.000Z"].
Proof. vm_compute. repeat split. Qed.

(** * Further properties *)

(** ** Marking an alert as emailed *)

Section MarkEmailSent.
Context {host : Host}.

Lemma findIndex_None {A} (p : A -> bool) l :
  findIndex p l = None <-> forall x, In x l -> p x = false.
Proof.
  induction l as [|a l IH]; simpl.
  - split; [intros _ x [] | reflexivity].
  - destruct (p a) eqn:Ha.
    + split; [discriminate|]. intros H. specialize (H a (or_introl eq_refl)). congruence.
    + destruct (findIndex p l) as [i|]; simpl.
      * split; [discriminate|]. intros H.
        assert (Hl : forall x, In x l -> p x = false) by (intros x Hx; apply H; right; exact Hx).
        apply IH in Hl. discriminate.
      * split; [|reflexivity]. intros _ x [<-|Hx]; [exact Ha|].
        apply (proj1 IH eq_refl x Hx).
Qed.

Lemma findIndex_Some {A} (p : A -> bool) (f : A -> A) l : forall i,
  findIndex p l = Some i ->
  exists before r after,
    l = before ++ r :: after /\ p r = true /\
    (forall x, In x before -> p x = false) /\
    update_at i f l = before ++ f r :: after.
Proof.
  induction l as [|a l IH]; intros i; simpl; [discriminate|].
  destruct (p a) eqn:Ha.
  - intros E. inversion E; subst i.
    exists [], a, l. repeat split; try assumption. intros x [].
  - destruct (findIndex p l) as [j|] eqn:Hj; simpl; [|discriminate].
    intros E. inversion E; subst i.
    destruct (IH j eq_refl) as (before & r & after & Hl & Hr & Hbefore & Hupd).
    exists (a :: before), r, after. repeat split.
    + rewrite Hl. reflexivity.
    + exact Hr.
    + intros x [<-|Hx]; [exact Ha | apply Hbefore, Hx].
    + simpl. rewrite Hupd. reflexivity.
Qed.

Lemma findIndex_update_at {A} (p : A -> bool) (f : A -> A) l :
  (forall x, p (f x) = p x) ->
  forall i, findIndex p (update_at i f l) = findIndex p l.
Proof.
  intros Hp. induction l as [|a l IH]; intros [|j]; simpl; try reflexivity.
  - rewrite Hp. reflexivity.
  - rewrite IH. reflexivity.
Qed.

Lemma update_at_idem {A} (f : A -> A) l :
  (forall x, f (f x) = f x) ->
  forall i, update_at i f (update_at i f l) = update_at i f l.
Proof.
  intros Hf. induction l as [|a l IH]; intros [|j]; simpl; try reflexivity.
  - rewrite Hf. reflexivity.
  - rewrite IH. reflexivity.
Qed.

End MarkEmailSent.

(** X1.  [markEmailSent] with an id that no active record has returns
    [false] and leaves the storage as it is; the archive is not searched,
    so this holds also when an archived record has the id. *)
Theorem markEmailSent_unknown_id {host : Host} (alertId : string) (ls : Storage) :
  (forall alert, In alert (getAllAlerts ls) -> id alert <> alertId) ->
  markEmailSent alertId ls = (false, ls).
Proof.
  intros Hmissing. unfold markEmailSent.
  replace (findIndex (fun alert => id alert =? alertId) (getAllAlerts ls)) with (@None nat);
    [reflexivity|].
  symmetry. apply findIndex_None. intros x Hx. apply String.eqb_neq. apply Hmissing, Hx.
Qed.

Lemma markEmailSent_unknown_id_witness :
  let archivedOnly := mkStorage (Some [numbered_alert 1])
                                (Some [set_archived (numbered_alert 7)]) in
  markEmailSent (host := UTC.browser) (id (numbered_alert 7)) archivedOnly
  = (false, archivedOnly).
Proof.
  intros archivedOnly.
  apply (markEmailSent_unknown_id (host := UTC.browser)).
  intros alert Hin. vm_compute in Hin. destruct Hin as [<-|[]]. vm_compute. discriminate.
Defined.

(** X2.  When [markEmailSent] returns [true], the active collection is the
    former one with [emailSent] set on the first record of that id and on no
    other (a later record of the same id stays as it is): same records, same
    order.  The archive item is untouched. *)
Theorem markEmailSent_marks_first {host : Host}
    (alertId : string) (ls ls' : Storage) :
  markEmailSent alertId ls = (true, ls') ->
  exists before r after,
    getAllAlerts ls = before ++ r :: after /\
    id r = alertId /\
    (forall alert, In alert before -> id alert <> alertId) /\
    getAllAlerts ls' = before ++ set_emailSent r :: after /\
    emailSent (set_emailSent r) = true /\
    advances r (set_emailSent r) /\
    getItem ls' ARCHIVED_KEY = getItem ls ARCHIVED_KEY.
Proof.
  unfold markEmailSent.
  destruct (findIndex _ (getAllAlerts ls)) as [i|] eqn:Hfind; [|discriminate].
  destruct (findIndex_Some _ set_emailSent _ _ Hfind)
    as (before & r & after & Hl & Hr & Hbefore & Hupd).
  destruct (setItem ls STORAGE_KEY _) as [ls1|] eqn:Hset; [|discriminate].
  intros E. inversion E; subst ls'. clear E.
  apply setItem_Some in Hset. destruct Hset as [_ ->].
  exists before, r, after. repeat split; try assumption.
  - apply String.eqb_eq. exact Hr.
  - intros alert Hin. apply String.eqb_neq. apply Hbefore, Hin.
  - intros H. exact H.
Qed.

Lemma markEmailSent_marks_first_witness :
  let twice := mkStorage (Some [numbered_alert 0; numbered_alert 4; numbered_alert 4]) None in
  exists before r after,
    getAllAlerts twice = before ++ r :: after /\
    getAllAlerts (snd (markEmailSent (host := UTC.browser) (id (numbered_alert 4)) twice))
    = before ++ set_emailSent r :: after.
Proof.
  intros twice.
  destruct (markEmailSent_marks_first (host := UTC.browser) (id (numbered_alert 4)) twice
              (snd (markEmailSent (host := UTC.browser) (id (numbered_alert 4)) twice))
              eq_refl)
    as (before & r & after & Hl & _ & _ & Hl' & _).
  exists before, r, after. split; assumption.
Defined.

(** X3.  Marking is idempotent: after a [markEmailSent] that returned
    [true], a second call with the same id leaves the storage exactly as the
    first left it, and returns [true] again unless the write itself throws. *)
Theorem markEmailSent_again {host : Host} (alertId : string) (ls ls1 : Storage) :
  markEmailSent alertId ls = (true, ls1) ->
  snd (markEmailSent alertId ls1) = ls1 /\
  fst (markEmailSent alertId ls1) = negb (setItem_throws ls1 STORAGE_KEY (getAllAlerts ls1)).
Proof.
  unfold markEmailSent at 1.
  destruct (findIndex _ (getAllAlerts ls)) as [i|] eqn:Hfind; [|discriminate].
  destruct (setItem ls STORAGE_KEY _) as [ls2|] eqn:Hset; [|discriminate].
  intros E. inversion E; subst ls2. clear E.
  apply setItem_Some in Hset. destruct Hset as [_ Hls1].
  assert (Hact : getAllAlerts ls1 = update_at i set_emailSent (getAllAlerts ls))
    by (rewrite Hls1; reflexivity).
  assert (Hitem : critical_alerts ls1 = Some (getAllAlerts ls1))
    by (rewrite Hls1; reflexivity).
  unfold markEmailSent. rewrite Hact.
  rewrite findIndex_update_at by reflexivity. rewrite Hfind.
  rewrite update_at_idem by reflexivity.
  unfold setItem.
  destruct (setItem_throws ls1 STORAGE_KEY _); cbn [fst snd negb]; split; try reflexivity.
  rewrite <- Hact. destruct ls1 as [act arch]. cbn in *. rewrite Hitem. reflexivity.
Qed.

Lemma markEmailSent_again_witness :
  let ls := active_series 3 in
  let ls1 := snd (markEmailSent (host := UTC.browser) (id (numbered_alert 1)) ls) in
  markEmailSent (host := UTC.browser) (id (numbered_alert 1)) ls1 = (true, ls1).
Proof.
  intros ls ls1.
  destruct (markEmailSent_again (host := UTC.browser) (id (numbered_alert 1)) ls ls1 eq_refl)
    as [Hsame Hok].
  destruct (markEmailSent (host := UTC.browser) (id (numbered_alert 1)) ls1) as [ok ls2].
  cbn [fst snd] in Hsame, Hok. rewrite Hsame, Hok. reflexivity.
Defined.

(** ** What one operation can do to each collection *)

Section Shapes.
Context {host : Host}.


(** The active collection after an operation is the former one, or the
    first 1000 of a new alert put in front of it, or a sublist picked by a
    test, or the list with one [emailSent] set, or empty. *)
Lemma exec_active op ls :
  getAllAlerts (exec ls op) = getAllAlerts ls \/
  (exists alert,
      op = OpSave alert /\
      existsb (same_id alert) (getAllAlerts ls) = false /\
      getAllAlerts (exec ls op) =
        firstn MAX_ACTIVE_ALERTS
          (set_severity (classifyAlertSeverity alert) alert :: getAllAlerts ls)) \/
  (exists p, getAllAlerts (exec ls op) = filter p (getAllAlerts ls)) \/
  (exists i, getAllAlerts (exec ls op) = update_at i set_emailSent (getAllAlerts ls)) \/
  getAllAlerts (exec ls op) = [].
Proof.
  destruct op; cbn [exec].
  - unfold saveAlert. fold (same_id alert).
    destruct (existsb (same_id alert) (getAllAlerts ls)) eqn:Hfresh; [left; reflexivity|].
    set (a := set_severity (classifyAlertSeverity alert) alert).
    destruct (MAX_ACTIVE_ALERTS <? length (a :: getAllAlerts ls))%nat eqn:Hover.
    + pose proof (archiveAlerts_getAllAlerts
                    (skipn MAX_ACTIVE_ALERTS (a :: getAllAlerts ls)) ls) as Hact1.
      destruct (archiveAlerts _ ls) as [ok ls1]. cbn [snd] in Hact1.
      destruct (setItem ls1 STORAGE_KEY _) as [ls2|] eqn:Hset; cbn [snd].
      * right. left. exists alert. split; [reflexivity|]. split; [exact Hfresh|].
        rewrite (setItem_active _ _ _ Hset). reflexivity.
      * left. exact Hact1.
    + destruct (setItem ls STORAGE_KEY _) as [ls1|] eqn:Hset; cbn [snd].
      * right. left. exists alert. split; [reflexivity|]. split; [exact Hfresh|].
        rewrite (setItem_active _ _ _ Hset). symmetry. apply firstn_all2.
        apply Nat.ltb_ge in Hover. exact Hover.
      * left. reflexivity.
  - left. apply archiveAlerts_getAllAlerts.
  - unfold deleteAlert.
    destruct (setItem ls STORAGE_KEY _) as [ls1|] eqn:Hset; cbn [snd].
    + right. right. left. eexists. apply (setItem_active _ _ _ Hset).
    + left. reflexivity.
  - unfold cleanupOldAlerts.
    destruct (0 <? _)%nat; [|left; reflexivity].
    pose proof (archiveAlerts_getAllAlerts
                  (filter (before (Date_minusDays now daysToKeep)) (getAllAlerts ls)) ls)
      as Hact1.
    destruct (archiveAlerts _ ls) as [ok ls1]. cbn [snd] in Hact1.
    destruct (setItem ls1 STORAGE_KEY _) as [ls2|] eqn:Hset; cbn [snd].
    + right. right. left. eexists. apply (setItem_active _ _ _ Hset).
    + left. exact Hact1.
  - unfold markEmailSent.
    destruct (findIndex _ (getAllAlerts ls)) as [i|]; [|left; reflexivity].
    destruct (setItem ls STORAGE_KEY _) as [ls1|] eqn:Hset; cbn [snd].
    + right. right. right. left. exists i. apply (setItem_active _ _ _ Hset).
    + left. reflexivity.
  - unfold clearAllAlerts, removeItem.
    destruct (removeItem_throws ls STORAGE_KEY); cbn [snd];
      [left; reflexivity | right; right; right; right; reflexivity].
  - unfold clearArchivedAlerts, removeItem.
    destruct (removeItem_throws ls ARCHIVED_KEY); cbn [snd]; left; reflexivity.
Qed.

(** The archive after an operation is the former one, or records taken
    from what the operation was handed and from the active collection,
    marked and put in front of it and the whole cut to 5000, or empty. *)
Lemma exec_archived op ls :
  getArchivedAlerts (exec ls op) = getArchivedAlerts ls \/
  (exists moved,
      incl moved (presented op ++ getAllAlerts ls) /\
      getArchivedAlerts (exec ls op) =
        firstn MAX_ARCHIVED_ALERTS (map set_archived moved ++ getArchivedAlerts ls)) \/
  getArchivedAlerts (exec ls op) = [].
Proof.
  assert (Harchive : forall moved,
             incl moved (presented op ++ getAllAlerts ls) ->
             getArchivedAlerts (snd (archiveAlerts moved ls)) = getArchivedAlerts ls \/
             (exists moved0,
                 incl moved0 (presented op ++ getAllAlerts ls) /\
                 getArchivedAlerts (snd (archiveAlerts moved ls)) =
                   firstn MAX_ARCHIVED_ALERTS
                     (map set_archived moved0 ++ getArchivedAlerts ls))).
  { intros moved Hincl. rewrite archiveAlerts_archived.
    destruct (fst (archiveAlerts moved ls)); [right; exists moved; split; auto | left; reflexivity]. }
  destruct op; cbn [exec].
  - unfold saveAlert. fold (same_id alert).
    destruct (existsb (same_id alert) (getAllAlerts ls)); [left; reflexivity|].
    set (a := set_severity (classifyAlertSeverity alert) alert).
    destruct (MAX_ACTIVE_ALERTS <? length (a :: getAllAlerts ls))%nat.
    + specialize (Harchive (skipn MAX_ACTIVE_ALERTS (a :: getAllAlerts ls))).
      destruct (archiveAlerts _ ls) as [ok ls1]. cbn [snd] in Harchive.
      assert (Hls1 : getArchivedAlerts ls1 = getArchivedAlerts ls \/
                     (exists moved0,
                         incl moved0 (presented (OpSave alert) ++ getAllAlerts ls) /\
                         getArchivedAlerts ls1 =
                           firstn MAX_ARCHIVED_ALERTS
                             (map set_archived moved0 ++ getArchivedAlerts ls))).
      { apply Harchive. intros x Hx. apply in_skipn in Hx. exact Hx. }
      destruct (setItem ls1 STORAGE_KEY _) as [ls2|] eqn:Hset; cbn [snd].
      * apply setItem_Some in Hset. destruct Hset as [_ ->].
        rewrite getArchivedAlerts_write_active.
        destruct Hls1 as [H|H]; [left | right; left]; exact H.
      * destruct Hls1 as [H|H]; [left | right; left]; exact H.
    + destruct (setItem ls STORAGE_KEY _) as [ls1|] eqn:Hset; cbn [snd]; [|left; reflexivity].
      apply setItem_Some in Hset. destruct Hset as [_ ->]. left. reflexivity.
  - destruct (Harchive alerts) as [H|H]; [apply incl_appl, incl_refl | left | right; left];
      exact H.
  - unfold deleteAlert.
    destruct (setItem ls STORAGE_KEY _) as [ls1|] eqn:Hset; cbn [snd]; [|left; reflexivity].
    apply setItem_Some in Hset. destruct Hset as [_ ->]. left. reflexivity.
  - unfold cleanupOldAlerts.
    destruct (0 <? _)%nat; [|left; reflexivity].
    specialize (Harchive (filter (before (Date_minusDays now daysToKeep)) (getAllAlerts ls))).
    destruct (archiveAlerts _ ls) as [ok ls1]. cbn [snd] in Harchive.
    assert (Hls1 : getArchivedAlerts ls1 = getArchivedAlerts ls \/
                   (exists moved0,
                       incl moved0 (presented (OpCleanup daysToKeep now) ++ getAllAlerts ls) /\
                       getArchivedAlerts ls1 =
                         firstn MAX_ARCHIVED_ALERTS
                           (map set_archived moved0 ++ getArchivedAlerts ls))).
    { apply Harchive. intros x Hx. apply filter_In in Hx. apply Hx. }
    destruct (setItem ls1 STORAGE_KEY _) as [ls2|] eqn:Hset; cbn [snd].
    + apply setItem_Some in Hset. destruct Hset as [_ ->].
      rewrite getArchivedAlerts_write_active.
      destruct Hls1 as [H|H]; [left | right; left]; exact H.
    + destruct Hls1 as [H|H]; [left | right; left]; exact H.
  - unfold markEmailSent.
    destruct (findIndex _ (getAllAlerts ls)) as [i|]; [|left; reflexivity].
    destruct (setItem ls STORAGE_KEY _) as [ls1|] eqn:Hset; cbn [snd]; [|left; reflexivity].
    apply setItem_Some in Hset. destruct Hset as [_ ->]. left. reflexivity.
  - unfold clearAllAlerts, removeItem.
    destruct (removeItem_throws ls STORAGE_KEY); cbn [snd]; left; reflexivity.
  - unfold clearArchivedAlerts, removeItem.
    destruct (removeItem_throws ls ARCHIVED_KEY); cbn [snd];
      [left; reflexivity | right; right; reflexivity].
Qed.

End Shapes.

(** ** Flags are only ever raised, and the archive is a one-way street *)

Section TracedFacts.
Context {host : Host}.
Variable R : AlertData -> AlertData -> Prop.
Hypothesis R_refl : forall r, R r r.
Hypothesis R_archived : forall r r', R r r' -> R r (set_archived r').
Hypothesis R_emailSent : forall r r', R r r' -> R r (set_emailSent r').

Lemma Traced_incl src dst : incl dst src -> Traced R src dst.
Proof. intros Hincl r' Hin. exists r'. split; [apply Hincl, Hin | apply R_refl]. Qed.

Lemma Traced_nil src : Traced R src [].
Proof. intros r' []. Qed.

Lemma Traced_sub src l l' : incl l' l -> Traced R src l -> Traced R src l'.
Proof. intros Hincl H r' Hin. apply H, Hincl, Hin. Qed.

Lemma Traced_app src d1 d2 : Traced R src d1 -> Traced R src d2 -> Traced R src (d1 ++ d2).
Proof.
  intros H1 H2 r' Hin. apply in_app_or in Hin. destruct Hin; [apply H1 | apply H2]; assumption.
Qed.

Lemma Traced_set_archived src l : Traced R src l -> Traced R src (map set_archived l).
Proof.
  intros H r' Hin. apply in_map_iff in Hin. destruct Hin as [r0 [<- Hin0]].
  destruct (H r0 Hin0) as [r [Hr HR]]. exists r. split; [exact Hr | apply R_archived, HR].
Qed.

Lemma Traced_set_emailSent src i l :
  Traced R src l -> Traced R src (update_at i set_emailSent l).
Proof.
  intros H r' Hin. apply In_update_at in Hin. destruct Hin as [Hin|[y [Hy ->]]].
  - apply H, Hin.
  - destruct (H y Hy) as [r [Hr HR]]. exists r. split; [exact Hr | apply R_emailSent, HR].
Qed.

(** The active collection after an operation, traced to the former active
    collection and the submitted alert. *)
Lemma exec_active_Traced src op ls :
  Traced R src (submitted op) -> Traced R src (getAllAlerts ls) ->
  Traced R src (getAllAlerts (exec ls op)).
Proof.
  intros Hnew Hact.
  destruct (exec_active op ls)
    as [E|[(alert & Hop & _ & E)|[[p E]|[[i E]|E]]]]; rewrite E.
  - exact Hact.
  - subst op. cbn [submitted] in Hnew.
    apply Traced_sub with (l := submitted (OpSave alert) ++ getAllAlerts ls).
    + intros x Hx. apply in_firstn in Hx. exact Hx.
    + apply Traced_app; assumption.
  - eapply Traced_sub; [|exact Hact]. intros x Hx. apply filter_In in Hx. apply Hx.
  - apply Traced_set_emailSent, Hact.
  - apply Traced_nil.
Qed.

Lemma exec_Traced src op ls :
  Traced R src (presented op) ->
  Traced R src (getAllAlerts ls) -> Traced R src (getArchivedAlerts ls) ->
  Traced R src (getAllAlerts (exec ls op)) /\
  Traced R src (getArchivedAlerts (exec ls op)).
Proof.
  intros Hnew Hact Harch. split.
  - apply exec_active_Traced; [|exact Hact].
    destruct op; cbn [submitted presented] in *; try exact Hnew; apply Traced_nil.
  - destruct (exec_archived op ls) as [E|[(moved & Hincl & E)|E]]; rewrite E.
    + exact Harch.
    + eapply Traced_sub; [intros x Hx; apply in_firstn in Hx; exact Hx|].
      apply Traced_app; [|exact Harch].
      apply Traced_set_archived.
      eapply Traced_sub; [exact Hincl|]. apply Traced_app; assumption.
    + apply Traced_nil.
Qed.

Lemma importAlerts_Traced src jsonData ls :
  Traced R src (document_alerts jsonData) ->
  Traced R src (getAllAlerts ls) -> Traced R src (getArchivedAlerts ls) ->
  Traced R src (getAllAlerts (snd (importAlerts jsonData ls))) /\
  Traced R src (getArchivedAlerts (snd (importAlerts jsonData ls))).
Proof.
  intros Hdoc Hact Harch. unfold importAlerts.
  unfold document_alerts, array_under in Hdoc.
  destruct (JSON_parse jsonData) as [importData|]; [|split; assumption].
  destruct (get_prop importData "activeAlerts") as [activeField|]; [|split; assumption].
  assert (H1 : forall ls1,
             match truthy_array activeField with
             | Some alerts => setItem ls STORAGE_KEY alerts
             | None => Some ls
             end = Some ls1 ->
             Traced R src (getAllAlerts ls1) /\ Traced R src (getArchivedAlerts ls1)).
  { intros ls1 E. destruct (truthy_array activeField) as [alerts|].
    - apply setItem_Some in E. destruct E as [_ ->]. split; [|exact Harch].
      intros r' Hin. apply Hdoc. apply in_or_app. left. exact Hin.
    - inversion E; subst. split; assumption. }
  destruct (match truthy_array activeField with
            | Some alerts => setItem ls STORAGE_KEY alerts
            | None => Some ls
            end) as [ls1|]; [|split; assumption].
  destruct (H1 ls1 eq_refl) as [Hact1 Harch1]. cbn [snd].
  destruct (get_prop importData "archivedAlerts") as [archivedField|]; [|split; assumption].
  destruct (truthy_array archivedField) as [alerts|]; [|split; assumption].
  destruct (setItem ls1 ARCHIVED_KEY alerts) as [ls2|] eqn:E; cbn [snd];
    [|split; assumption].
  apply setItem_Some in E. destruct E as [_ ->]. split; [exact Hact1|].
  rewrite getArchivedAlerts_write_archived.
  intros r' Hin. apply Hdoc. apply in_or_app. right. exact Hin.
Qed.

Lemma calls_Traced cs : forall src ls,
  Traced R src (flat_map brought cs) ->
  Traced R src (getAllAlerts ls) -> Traced R src (getArchivedAlerts ls) ->
  Traced R src (records (calls cs ls)).
Proof.
  induction cs as [|c cs IH]; intros src ls Hnew Hact Harch.
  - cbn [calls fold_left]. unfold records. apply Traced_app; assumption.
  - cbn [calls fold_left]. cbn [flat_map] in Hnew.
    assert (Hc : Traced R src (brought c))
      by (intros r' Hin; apply Hnew; apply in_or_app; left; exact Hin).
    assert (Hcs : Traced R src (flat_map brought cs))
      by (intros r' Hin; apply Hnew; apply in_or_app; right; exact Hin).
    assert (Hstep : Traced R src (getAllAlerts (call ls c)) /\
                    Traced R src (getArchivedAlerts (call ls c))).
    { destruct c as [op|jsonData]; cbn [call brought] in *.
      - apply exec_Traced; assumption.
      - apply importAlerts_Traced; assumption. }
    destruct Hstep as [Hact' Harch']. apply IH; assumption.
Qed.

Lemma run_active_Traced ops : forall src ls,
  Traced R src (flat_map submitted ops) -> Traced R src (getAllAlerts ls) ->
  Traced R src (getAllAlerts (run ops ls)).
Proof.
  induction ops as [|op ops IH]; intros src ls Hnew Hact; [exact Hact|].
  cbn [run fold_left]. cbn [flat_map] in Hnew.
  apply IH.
  - intros r' Hin. apply Hnew. apply in_or_app. right. exact Hin.
  - apply exec_active_Traced; [|exact Hact].
    intros r' Hin. apply Hnew. apply in_or_app. left. exact Hin.
Qed.

End TracedFacts.

Section AdvancesFacts.

Lemma advances_refl r : advances r r.
Proof. repeat split; intros H; exact H. Qed.

Lemma advances_set_archived r r' : advances r r' -> advances r (set_archived r').
Proof.
  intros (Hsame & Hmail & Harch). repeat split.
  - unfold same_but_flags in *. rewrite <- Hsame. reflexivity.
  - exact Hmail.
Qed.

Lemma advances_set_emailSent r r' : advances r r' -> advances r (set_emailSent r').
Proof.
  intros (Hsame & Hmail & Harch). repeat split.
  - unfold same_but_flags in *. rewrite <- Hsame. reflexivity.
  - exact Harch.
Qed.

End AdvancesFacts.

(** X4.  No call of the store lowers a flag.  After any sequence of calls
    (the operations and imports), every stored record comes from a record
    that was stored before or that a call brought, with the same fields,
    with [emailSent] still [true] if it was, and with [archived] still
    [true] if it was. *)
Theorem flags_never_lowered {host : Host} (later : list Call) (ls : Storage) (r' : AlertData) :
  In r' (records (calls later ls)) ->
  exists r, In r (records ls ++ flat_map brought later) /\ advances r r'.
Proof.
  intros Hin.
  apply calls_Traced
    with (R := advances) (cs := later) (src := records ls ++ flat_map brought later) (ls := ls);
    try exact Hin;
    try exact advances_set_archived; try exact advances_set_emailSent;
    apply Traced_incl; try exact advances_refl; unfold records.
  - apply incl_appr, incl_refl.
  - apply incl_appl, incl_appl, incl_refl.
  - apply incl_appl, incl_appr, incl_refl.
Qed.

Lemma flags_never_lowered_witness :
  let alert := set_emailSent (numbered_alert 3) in
  let later := [CallOp (OpSave alert); CallOp (OpCleanup 30 july_1_2024);
                CallOp (OpMarkEmailSent (id alert))] in
  exists r, In r (records emptyStorage ++ flat_map brought later) /\
            advances r (set_archived (set_severity MEDIUM alert)).
Proof.
  intros alert later.
  apply (flags_never_lowered (host := UTC.browser) later emptyStorage).
  vm_compute. left. reflexivity.
Defined.

(** X5.  Nothing comes back from the archive.  After any run of the
    store's operations (without import), every active record comes from a
    record that was active before the run or from an alert the run
    submitted; its flags were raised at most. *)
Theorem archived_never_reactivated {host : Host}
    (ops : list Op) (ls : Storage) (r' : AlertData) :
  In r' (getAllAlerts (run ops ls)) ->
  exists r, In r (getAllAlerts ls ++ flat_map submitted ops) /\ advances r r'.
Proof.
  intros Hin.
  apply run_active_Traced
    with (R := advances) (ops := ops) (src := getAllAlerts ls ++ flat_map submitted ops)
         (ls := ls);
    try exact Hin; try exact advances_set_emailSent;
    apply Traced_incl; try exact advances_refl.
  - apply incl_appr, incl_refl.
  - apply incl_appl, incl_refl.
Qed.

Lemma archived_never_reactivated_witness :
  let ls := mkStorage (Some [numbered_alert 1]) (Some [set_archived (numbered_alert 0)]) in
  let ops := [OpArchive [numbered_alert 5]; OpMarkEmailSent (id (numbered_alert 1));
              OpDelete (id (numbered_alert 0))] in
  exists r, In r (getAllAlerts ls ++ flat_map submitted ops) /\
            advances r (set_emailSent (numbered_alert 1)).
Proof.
  intros ls ops.
  apply (archived_never_reactivated (host := UTC.browser) ops ls).
  vm_compute. left. reflexivity.
Defined.



(** ** Statistics *)

Section Stats.
Context {host : Host}.

Lemma status_split (l : list AlertData) :
  (length (filter (fun alert => AlertStatus_eqb (status alert) PANIC) l)
   + length (filter (fun alert => AlertStatus_eqb (status alert) FALL) l))%nat
  = length l.
Proof.
  induction l as [|a l IH]; simpl; [reflexivity|].
  destruct (status a); simpl; lia.
Qed.

Lemma ascii_compare_refl c : Ascii.compare c c = Eq.
Proof. unfold Ascii.compare. apply N.compare_refl. Qed.

Lemma string_leb_trans s1 : forall s2 s3,
  String.leb s1 s2 = true -> String.leb s2 s3 = true -> String.leb s1 s3 = true.
Proof.
  unfold String.leb.
  induction s1 as [|c1 s1 IH]; intros [|c2 s2] [|c3 s3]; simpl;
    try reflexivity; try discriminate.
  destruct (Ascii.compare c1 c2) eqn:E12; try discriminate;
    destruct (Ascii.compare c2 c3) eqn:E23; try discriminate.
  - apply Ascii.compare_eq_iff in E12, E23. subst. rewrite ascii_compare_refl. apply IH.
  - apply Ascii.compare_eq_iff in E12. subst. rewrite E23. reflexivity.
  - apply Ascii.compare_eq_iff in E23. subst. rewrite E12. reflexivity.
  - intros _ _. unfold Ascii.compare in *.
    apply N.compare_lt_iff in E12. apply N.compare_lt_iff in E23.
    assert (E13 : (N_of_ascii c1 ?= N_of_ascii c3)%N = Lt)
      by (apply N.compare_lt_iff; eapply N.lt_trans; eassumption).
    rewrite E13. reflexivity.
Qed.

Lemma string_leb_refl s : String.leb s s = true.
Proof. destruct (String.leb_total s s); assumption. Qed.

Lemma In_insert_sorted s l x : In x (insert_sorted s l) <-> x = s \/ In x l.
Proof.
  induction l as [|a l IH]; simpl.
  - intuition.
  - destruct (String.leb s a); simpl; [intuition|]. rewrite IH. intuition.
Qed.

Lemma insert_sorted_ascending s l : ascending l -> ascending (insert_sorted s l).
Proof.
  unfold ascending. induction l as [|a l IH]; intros Hl; simpl.
  - constructor; constructor.
  - inversion Hl as [|? ? Hrest Hall]; subst.
    destruct (String.leb s a) eqn:Hsa.
    + constructor; [exact Hl|]. constructor; [exact Hsa|].
      rewrite Forall_forall in *. intros x Hx. eapply string_leb_trans; [exact Hsa|].
      apply Hall, Hx.
    + constructor; [apply IH, Hrest|].
      rewrite Forall_forall in *. intros x Hx. apply In_insert_sorted in Hx.
      destruct Hx as [->|Hx]; [|apply Hall, Hx].
      destruct (String.leb_total s a) as [H|H]; [congruence | exact H].
Qed.

Lemma sort_strings_ascending l : ascending (sort_strings l).
Proof.
  induction l as [|a l IH]; simpl; [constructor|]. apply insert_sorted_ascending, IH.
Qed.

Lemma In_sort_strings l x : In x (sort_strings l) <-> In x l.
Proof.
  induction l as [|a l IH]; simpl; [tauto|]. rewrite In_insert_sorted, IH. intuition.
Qed.

Lemma ascending_first l o :
  ascending l -> nth_error l 0 = Some o ->
  forall t, In t l -> String.leb o t = true.
Proof.
  intros Hl Ho. destruct l as [|a l]; [discriminate|]. inversion Ho; subst a.
  inversion Hl as [|? ? _ Hall]; subst. rewrite Forall_forall in Hall.
  intros t [<-|Ht]; [apply string_leb_refl | apply Hall, Ht].
Qed.

Lemma ascending_last l : forall n,
  ascending l -> nth_error l (length l - 1) = Some n ->
  forall t, In t l -> String.leb t n = true.
Proof.
  induction l as [|a l IH]; intros n Hl Hn; [intros t []|].
  inversion Hl as [|? ? Hrest Hall]; subst. rewrite Forall_forall in Hall.
  destruct l as [|b l].
  - inversion Hn; subst. intros t [<-|[]]. apply string_leb_refl.
  - assert (Hn' : nth_error (b :: l) (length (b :: l) - 1) = Some n).
    { cbn [length] in *. replace (S (S (length l)) - 1)%nat with (S (length l)) in Hn by lia.
      replace (S (length l) - 1)%nat with (length l) by lia. exact Hn. }
    intros t [<-|Ht].
    + apply Hall. eapply nth_error_In. exact Hn'.
    + apply (IH n Hrest Hn' t Ht).
Qed.

End Stats.

(** X7.  The counters of [getStorageStats] add up: [totalAlerts] is the
    number of active plus archived records and equals
    [panicAlerts + fallAlerts]; [archivedAlerts] is the size of the archive;
    [emailsSent] is at most [totalAlerts]. *)
Theorem stats_counts {host : Host} (ls : Storage) :
  let st := getStorageStats ls in
  totalAlerts st = (length (getAllAlerts ls) + length (getArchivedAlerts ls))%nat /\
  totalAlerts st = (panicAlerts st + fallAlerts st)%nat /\
  archivedAlerts st = length (getArchivedAlerts ls) /\
  (emailsSent st <= totalAlerts st)%nat.
Proof.
  cbn. repeat split.
  - apply length_app.
  - symmetry. apply status_split.
  - apply filter_length_le.
Qed.

(** X8.  [oldestAlert] and [newestAlert] are absent exactly when no record
    is stored.  Otherwise they are timestamps of stored records, the least
    and the greatest in the order of strings: every stored timestamp lies
    between them. *)
Theorem stats_oldest_newest {host : Host} (ls : Storage) :
  let st := getStorageStats ls in
  let stamps := map timestamp (getAllAlerts ls ++ getArchivedAlerts ls) in
  (stamps = [] -> oldestAlert st = None /\ newestAlert st = None) /\
  (stamps <> [] ->
   exists oldest newest,
     oldestAlert st = Some oldest /\ newestAlert st = Some newest /\
     In oldest stamps /\ In newest stamps /\
     forall t, In t stamps -> String.leb oldest t = true /\ String.leb t newest = true).
Proof.
  intros st stamps. subst st. unfold getStorageStats. cbn [oldestAlert newestAlert].
  fold stamps. set (sorted := sort_strings stamps).
  assert (Hasc : ascending sorted) by apply sort_strings_ascending.
  assert (Hin : forall x, In x sorted <-> In x stamps) by apply In_sort_strings.
  split.
  - intros Hnil. subst sorted. rewrite Hnil. split; reflexivity.
  - intros Hsome.
    destruct sorted as [|a rest] eqn:Hsorted.
    { destruct stamps as [|t ts]; [contradiction|].
      exfalso. apply (proj2 (Hin t)). left. reflexivity. }
    rewrite <- Hsorted in *.
    assert (Hlen : (0 <? length sorted)%nat = true) by (rewrite Hsorted; reflexivity).
    rewrite Hlen.
    destruct (nth_error sorted 0) as [oldest|] eqn:Hfirst;
      [|rewrite Hsorted in Hfirst; discriminate].
    destruct (nth_error sorted (length sorted - 1)) as [newest|] eqn:Hlast.
    2:{ apply nth_error_None in Hlast. rewrite Hsorted in Hlast. cbn [length] in Hlast. lia. }
    exists oldest, newest. repeat split.
    + apply Hin. eapply nth_error_In. exact Hfirst.
    + apply Hin. eapply nth_error_In. exact Hlast.
    + apply (ascending_first sorted oldest Hasc Hfirst). apply Hin. assumption.
    + apply (ascending_last sorted newest Hasc Hlast). apply Hin. assumption.
Qed.

Lemma stats_oldest_newest_witness :
  let ls := mkStorage (Some [sample_alert "band-9" "2024-06-20T09:15:00.000Z" PANIC 110])
                      (Some [set_archived (numbered_alert 0)]) in
  exists oldest newest,
    oldestAlert (getStorageStats (host := UTC.browser) ls) = Some oldest /\
    newestAlert (getStorageStats (host := UTC.browser) ls) = Some newest /\
    String.leb oldest newest = true.
Proof.
  intros ls.
  destruct (proj2 (stats_oldest_newest (host := UTC.browser) ls))
    as (oldest & newest & Ho & Hn & _ & Hin & Hbetween).
  { vm_compute. discriminate. }
  exists oldest, newest. repeat split; try assumption.
  apply (Hbetween newest Hin).
Defined.

(** X9.  The by-status queries see the active collection only and split
    it: every active alert is counted by exactly one of
    [getAlertsByStatus("PANIC")] and [getAlertsByStatus("FALL")].  The
    counters of [getStorageStats] count archived records too: each exceeds
    the size of the query by the archived records of that status. *)
Theorem status_queries_and_stats {host : Host} (ls : Storage) :
  let st := getStorageStats ls in
  let archivedOf st0 :=
    length (filter (fun alert => AlertStatus_eqb (status alert) st0)
              (getArchivedAlerts ls)) in
  (length (getAlertsByStatus PANIC ls) + length (getAlertsByStatus FALL ls))%nat
    = length (getAllAlerts ls) /\
  panicAlerts st = (length (getAlertsByStatus PANIC ls) + archivedOf PANIC)%nat /\
  fallAlerts st = (length (getAlertsByStatus FALL ls) + archivedOf FALL)%nat /\
  (totalAlerts st - archivedAlerts st)%nat = length (getAllAlerts ls).
Proof.
  cbn. unfold getAlertsByStatus. repeat split.
  - apply status_split.
  - rewrite filter_app, length_app. reflexivity.
  - rewrite filter_app, length_app. reflexivity.
  - rewrite length_app. lia.
Qed.

(** ** More on export and import *)

(** X10.  An export without the archive still carries an [archivedAlerts]
    array, the empty one, and an empty array passes the check of
    [importAlerts]: importing such a document, when it returns [true],
    installs the exported active collection and empties the archive of the
    importing storage. *)
Theorem import_of_export_without_archive {host : Host}
    (source target : Storage) (now : Z) :
  let result := importAlerts (exportAlerts false now source) target in
  fst result = true ->
  getAllAlerts (snd result) = getAllAlerts source /\
  getArchivedAlerts (snd result) = [].
Proof.
  intros result. subst result.
  destruct (export_activeAlerts false now source) as (exportData & Hdoc & Hactive & Harchived).
  rewrite Hdoc. rewrite (importAlerts_both _ _ _ _ Hactive Harchived).
  destruct (setItem target STORAGE_KEY _) as [ls1|] eqn:H1; [|discriminate].
  apply setItem_Some in H1. destruct H1 as [_ ->].
  destruct (setItem _ ARCHIVED_KEY _) as [ls2|] eqn:H2; [|discriminate].
  apply setItem_Some in H2. destruct H2 as [_ ->]. intros _. split; reflexivity.
Qed.

Lemma import_of_export_without_archive_witness :
  let store := mkStorage (Some [numbered_alert 2]) (Some [set_archived (numbered_alert 0)]) in
  let result := importAlerts (host := UTC.browser)
                  (exportAlerts (host := UTC.browser) false july_1_2024 store) store in
  getAllAlerts (snd result) = getAllAlerts store /\ getArchivedAlerts (snd result) = [].
Proof.
  intros store result.
  exact (import_of_export_without_archive (host := UTC.browser) store store july_1_2024 eq_refl).
Defined.

(** X11.  An import is not all or nothing.  When the document holds both
    arrays, the write of the active collection goes through and the write
    of the archive throws, [importAlerts] returns [false] although the
    active collection has been replaced; the archive is as before. *)
Theorem importAlerts_second_write_fails {host : Host}
    (importData : JSValue) (active archived : list AlertData) (ls : Storage) :
  get_prop importData "activeAlerts" = Normal (Some (JSArray active)) ->
  get_prop importData "archivedAlerts" = Normal (Some (JSArray archived)) ->
  setItem_throws ls STORAGE_KEY active = false ->
  setItem_throws (writeItem ls STORAGE_KEY (Some active)) ARCHIVED_KEY archived = true ->
  let result := importAlerts (Some importData) ls in
  fst result = false /\
  getAllAlerts (snd result) = active /\
  getArchivedAlerts (snd result) = getArchivedAlerts ls.
Proof.
  intros Hactive Harchived Hfirst Hsecond result. subst result.
  rewrite (importAlerts_both _ _ _ _ Hactive Harchived).
  unfold setItem. rewrite Hfirst, Hsecond. repeat split.
Qed.

Lemma importAlerts_second_write_fails_witness :
  let document := JSObject [("activeAlerts", JSArray [numbered_alert 8]);
                            ("archivedAlerts", JSArray [set_archived (numbered_alert 9)])] in
  let result := importAlerts (host := UTC.archiveFull) (Some document) (active_series 2) in
  fst result = false /\
  getAllAlerts (snd result) = [numbered_alert 8] /\
  getArchivedAlerts (snd result) = [].
Proof.
  intros document result.
  exact (importAlerts_second_write_fails (host := UTC.archiveFull) document
           [numbered_alert 8] [set_archived (numbered_alert 9)] (active_series 2)
           eq_refl eq_refl eq_refl eq_refl).
Defined.

(** X12.  Import works per collection.  In a storage that takes every
    write, any document other than the JSON [null] is imported with result
    [true]; the active item is replaced by the array under [activeAlerts]
    if there is one and is left alone otherwise, and likewise, on its own,
    the archive item and [archivedAlerts]. *)
Theorem importAlerts_per_collection {host : Host} (importData : JSValue) (ls : Storage) :
  (forall st k v, setItem_throws st k v = false) ->
  importData <> JSNull ->
  let result := importAlerts (Some importData) ls in
  fst result = true /\
  getItem (snd result) STORAGE_KEY =
    (if holds_array (Some importData) "activeAlerts"
     then Some (array_under importData "activeAlerts")
     else getItem ls STORAGE_KEY) /\
  getItem (snd result) ARCHIVED_KEY =
    (if holds_array (Some importData) "archivedAlerts"
     then Some (array_under importData "archivedAlerts")
     else getItem ls ARCHIVED_KEY).
Proof.
  intros Hwrites Hnull result. subst result.
  unfold importAlerts, holds_array, array_under, JSON_parse, setItem.
  destruct importData as [ | b | x | s | alerts | props ]; cbn [get_prop];
    try (repeat split; reflexivity); [contradiction|].
  destruct (lookup_prop "activeAlerts" props) as [[ | b | x | s | active | ps ]|];
    destruct (lookup_prop "archivedAlerts" props) as [[ | b' | x' | s' | archived | ps' ]|];
    cbn [truthy_array]; rewrite ?Hwrites; repeat split.
Qed.

Lemma importAlerts_per_collection_witness :
  let document := JSObject [("archivedAlerts", JSArray [set_archived (numbered_alert 9)]);
                            ("activeAlerts", JSBoolean true)] in
  let result := importAlerts (host := UTC.browser) (Some document) (active_series 2) in
  fst result = true /\
  getItem (snd result) STORAGE_KEY = getItem (active_series 2) STORAGE_KEY /\
  getItem (snd result) ARCHIVED_KEY = Some [set_archived (numbered_alert 9)].
Proof.
  intros document result.
  apply (importAlerts_per_collection (host := UTC.browser) document (active_series 2)).
  - reflexivity.
  - discriminate.
Defined.

(** ** Clearing *)

(** X13.  [clearAllAlerts] that returns [true] leaves no active alert and
    does not touch the archive; the duplicate check has then nothing to
    find, so any alert, also one that was active a moment ago or one that
    is archived, is accepted by the next [saveAlert] unless its write
    throws, and is then the only active alert.  When the removal throws,
    [clearAllAlerts] returns [false] and the storage is as before. *)
Theorem clearAllAlerts_then_save {host : Host}
    (ls : Storage) (ok : bool) (ls1 : Storage) (alert : AlertData) :
  clearAllAlerts ls = (ok, ls1) ->
  (ok = false -> ls1 = ls) /\
  (ok = true ->
   let stored := set_severity (classifyAlertSeverity alert) alert in
   getAllAlerts ls1 = [] /\
   getItem ls1 ARCHIVED_KEY = getItem ls ARCHIVED_KEY /\
   fst (fst (saveAlert alert ls1)) = negb (setItem_throws ls1 STORAGE_KEY [stored]) /\
   (fst (fst (saveAlert alert ls1)) = true ->
    getAllAlerts (snd (saveAlert alert ls1)) = [stored])).
Proof.
  unfold clearAllAlerts, removeItem.
  destruct (removeItem_throws ls STORAGE_KEY); intros E;
    injection E as Hok Hls; subst ok ls1.
  - split; [reflexivity | discriminate].
  - split; [discriminate|]. intros _. cbv zeta.
    set (stored := set_severity (classifyAlertSeverity alert) alert).
    match goal with |- context [saveAlert alert ?c] => set (cleared := c) end.
    assert (Hsave : saveAlert alert cleared =
                    match setItem cleared STORAGE_KEY [stored] with
                    | Some ls2 => (true, stored, ls2)
                    | None => (false, stored, cleared)
                    end) by reflexivity.
    rewrite Hsave. unfold setItem.
    destruct (setItem_throws cleared STORAGE_KEY [stored]);
      cbn [fst snd negb]; repeat split; discriminate.
Qed.

Lemma clearAllAlerts_then_save_witness :
  let ls := mkStorage (Some [numbered_alert 1]) (Some [set_archived (numbered_alert 0)]) in
  let ls1 := snd (clearAllAlerts (host := UTC.browser) ls) in
  getAllAlerts (snd (saveAlert (host := UTC.browser) (numbered_alert 0) ls1))
  = [set_severity MEDIUM (numbered_alert 0)].
Proof.
  intros ls ls1.
  destruct (clearAllAlerts_then_save (host := UTC.browser) ls true ls1 (numbered_alert 0) eq_refl)
    as [_ Hok].
  destruct (Hok eq_refl) as (_ & _ & _ & Hsaved).
  apply Hsaved. reflexivity.
Defined.

(** X14.  [clearArchivedAlerts] that returns [true] empties the archive
    and leaves the active item alone; the statistics then count the active
    records only.  When the removal throws it returns [false] and the
    storage is as before. *)
Theorem clearArchivedAlerts_result {host : Host} (ls : Storage) (ok : bool) (ls1 : Storage) :
  clearArchivedAlerts ls = (ok, ls1) ->
  (ok = false -> ls1 = ls) /\
  (ok = true ->
   getArchivedAlerts ls1 = [] /\
   getItem ls1 STORAGE_KEY = getItem ls STORAGE_KEY /\
   archivedAlerts (getStorageStats ls1) = 0%nat /\
   totalAlerts (getStorageStats ls1) = length (getAllAlerts ls)).
Proof.
  unfold clearArchivedAlerts, removeItem.
  destruct (removeItem_throws ls ARCHIVED_KEY); intros E; inversion E; subst ok ls1.
  - split; [reflexivity | discriminate].
  - split; [discriminate|]. intros _. cbn. rewrite app_nil_r. repeat split.
Qed.

Lemma clearArchivedAlerts_result_witness :
  let ls := mkStorage (Some [numbered_alert 1]) (Some [set_archived (numbered_alert 0)]) in
  let ls1 := snd (clearArchivedAlerts (host := UTC.browser) ls) in
  getArchivedAlerts ls1 = [] /\ totalAlerts (getStorageStats (host := UTC.browser) ls1) = 1%nat.
Proof.
  intros ls ls1.
  destruct (clearArchivedAlerts_result (host := UTC.browser) ls true ls1 eq_refl) as [_ Hok].
  destruct (Hok eq_refl) as (Harch & _ & _ & Htotal).
  split; [exact Harch | exact Htotal].
Defined.

(** ** Cleanup and submission when things go wrong *)

Section Dated.
Context {host : Host}.

Lemma before_dated c a :
  before c a = true <-> exists t, Date_parse (timestamp a) = Some t /\ (t < c)%Z.
Proof.
  unfold before. destruct (Date_parse (timestamp a)) as [t|].
  - rewrite Z.ltb_lt. split; [intros H; exists t; split; [reflexivity | exact H]|].
    intros (t' & E & H). inversion E; subst. exact H.
  - split; [discriminate | intros (t & E & _); discriminate].
Qed.

Lemma notBefore_dated c a :
  notBefore c a = true <-> exists t, Date_parse (timestamp a) = Some t /\ (c <= t)%Z.
Proof.
  unfold notBefore. destruct (Date_parse (timestamp a)) as [t|].
  - rewrite Z.leb_le. split; [intros H; exists t; split; [reflexivity | exact H]|].
    intros (t' & E & H). inversion E; subst. exact H.
  - split; [discriminate | intros (t & E & _); discriminate].
Qed.

End Dated.

(** X15.  A cleanup that finds something old rewrites the active
    collection as the records dated at or after the cutoff: what stays
    active has a timestamp that is a date.  A record whose timestamp is not
    a date is neither kept nor among the records handed to the archive,
    which are the records dated before the cutoff.  A cleanup that finds
    nothing old changes nothing, so such a record stays. *)
Theorem cleanupOldAlerts_keeps_dated_only {host : Host}
    (daysToKeep now : Z) (ls : Storage) (count : nat) (ls' : Storage) :
  cleanupOldAlerts daysToKeep now ls = (Normal count, ls') ->
  let cutoffDate := Date_minusDays now daysToKeep in
  let old := filter (before cutoffDate) (getAllAlerts ls) in
  (count = 0%nat -> ls' = ls) /\
  ((0 < count)%nat ->
   getAllAlerts ls' = filter (notBefore cutoffDate) (getAllAlerts ls) /\
   (forall r, In r (getAllAlerts ls') ->
              exists t, Date_parse (timestamp r) = Some t /\ (cutoffDate <= t)%Z) /\
   (forall r, In r old ->
              exists t, Date_parse (timestamp r) = Some t /\ (t < cutoffDate)%Z) /\
   (getArchivedAlerts ls' = getArchivedAlerts ls \/
    getArchivedAlerts ls' =
      firstn MAX_ARCHIVED_ALERTS (map set_archived old ++ getArchivedAlerts ls))).
Proof.
  intros Hclean cutoffDate old.
  unfold cleanupOldAlerts in Hclean. fold cutoffDate in Hclean. fold old in Hclean.
  destruct (0 <? length old)%nat eqn:Hsome.
  - pose proof (archiveAlerts_archived old ls) as Harch.
    destruct (archiveAlerts old ls) as [ok ls1]. cbn [fst snd] in Harch.
    destruct (setItem ls1 STORAGE_KEY _) as [ls2|] eqn:Hset; [|discriminate].
    injection Hclean as Hcount Hls. subst count ls2.
    apply Nat.ltb_lt in Hsome.
    split; [intros E; rewrite E in Hsome; inversion Hsome|].
    intros _. pose proof (setItem_active _ _ _ Hset) as Hact.
    apply setItem_Some in Hset. destruct Hset as [_ Hls2].
    split; [exact Hact|]. split; [|split].
    + intros r Hin. rewrite Hact in Hin. apply filter_In in Hin.
      apply notBefore_dated. apply Hin.
    + intros r Hin. apply filter_In in Hin. apply before_dated. apply Hin.
    + rewrite Hls2, getArchivedAlerts_write_active, Harch.
      destruct ok; [right | left]; reflexivity.
  - injection Hclean as Hcount Hls. subst count ls'.
    apply length_zero_ltb in Hsome.
    split; [reflexivity|]. intros Hpos. rewrite Hsome in Hpos. inversion Hpos.
Qed.

Lemma cleanupOldAlerts_keeps_dated_only_witness :
  let old := sample_alert "band-7" "2024-05-01T10:00:00.000Z" FALL 95 in
  let undated := sample_alert "band-8" "n/a" FALL 95 in
  let ls := mkStorage (Some [undated; old]) None in
  let ls' := snd (cleanupOldAlerts (host := UTC.browser) 30 july_1_2024 ls) in
  getAllAlerts ls' = filter (notBefore (host := UTC.browser) june_1_2024) (getAllAlerts ls).
Proof.
  intros old undated ls ls'.
  destruct (cleanupOldAlerts_keeps_dated_only (host := UTC.browser) 30 july_1_2024 ls 1%nat ls'
              eq_refl) as [_ Hmoved].
  destruct (Hmoved (Nat.lt_0_succ 0)) as [Hact _]. exact Hact.
Defined.

(** X16.  The last write of [cleanupOldAlerts] is outside any [try]: when
    something is old and the write of the kept records throws, the
    exception escapes the call, the active collection is as before, and,
    if the archive write went through, the old records are now both active
    and archived. *)
Theorem cleanupOldAlerts_throws {host : Host} (daysToKeep now : Z) (ls : Storage) :
  let cutoffDate := Date_minusDays now daysToKeep in
  let old := filter (before cutoffDate) (getAllAlerts ls) in
  let kept := filter (notBefore cutoffDate) (getAllAlerts ls) in
  old <> [] ->
  setItem_throws (snd (archiveAlerts old ls)) STORAGE_KEY kept = true ->
  let result := cleanupOldAlerts daysToKeep now ls in
  fst result = Throw /\
  getAllAlerts (snd result) = getAllAlerts ls /\
  (fst (archiveAlerts old ls) = true ->
   getArchivedAlerts (snd result) =
     firstn MAX_ARCHIVED_ALERTS (map set_archived old ++ getArchivedAlerts ls)).
Proof.
  intros cutoffDate old kept Hold Hthrows result. subst result.
  unfold cleanupOldAlerts. fold cutoffDate. fold old. fold kept.
  assert (Hsome : (0 <? length old)%nat = true).
  { destruct old; [contradiction | reflexivity]. }
  rewrite Hsome.
  pose proof (archiveAlerts_archived old ls) as Harch.
  pose proof (archiveAlerts_getAllAlerts old ls) as Hact.
  destruct (archiveAlerts old ls) as [ok ls1]. cbn [fst snd] in *.
  unfold setItem. rewrite Hthrows. cbn [fst snd].
  split; [reflexivity|]. split; [exact Hact|].
  intros ->. exact Harch.
Qed.

Lemma cleanupOldAlerts_throws_witness :
  let old := sample_alert "band-7" "2024-05-01T10:00:00.000Z" FALL 95 in
  let ls := mkStorage (Some [old]) None in
  let result := cleanupOldAlerts (host := activeFullHost) 30 july_1_2024 ls in
  fst result = Throw /\
  getAllAlerts (snd result) = [old] /\
  getArchivedAlerts (snd result) = [set_archived old].
Proof.
  intros old ls result.
  destruct (cleanupOldAlerts_throws (host := activeFullHost) 30 july_1_2024 ls)
    as (Hthrow & Hact & Harch).
  - vm_compute. discriminate.
  - reflexivity.
  - split; [exact Hthrow|]. split; [exact Hact|]. apply Harch. reflexivity.
Defined.




(** ** Queries by date *)

Section DateRange.
Context {host : Host}.

Lemma getAlertsByDateRange_filter startDate endDate ls :
  getAlertsByDateRange startDate endDate ls
  = filter (dated_within startDate endDate) (getAllAlerts ls).
Proof. reflexivity. Qed.

Lemma dated_within_split startDate middle endDate l :
  (startDate <= middle)%Z -> (middle <= endDate + 1)%Z ->
  (length (filter (dated_within startDate (middle - 1)) l)
   + length (filter (dated_within middle endDate) l))%nat
  = length (filter (dated_within startDate endDate) l).
Proof.
  intros Hlow Hhigh. induction l as [|a l IH]; cbn [filter length]; [reflexivity|].
  assert (Hcut : (if dated_within startDate (middle - 1) a then 1 else 0)
                 + (if dated_within middle endDate a then 1 else 0)
                 = (if dated_within startDate endDate a then 1 else 0)).
  { unfold dated_within. destruct (Date_parse (timestamp a)) as [t|]; [|reflexivity].
    destruct (startDate <=? t)%Z eqn:E1; destruct (t <=? middle - 1)%Z eqn:E2;
      destruct (middle <=? t)%Z eqn:E3; destruct (t <=? endDate)%Z eqn:E4;
      cbn [andb]; try reflexivity;
      repeat match goal with
             | H : (_ <=? _)%Z = true |- _ => apply Z.leb_le in H
             | H : (_ <=? _)%Z = false |- _ => apply Z.leb_gt in H
             end; lia. }
  destruct (dated_within startDate (middle - 1) a);
    destruct (dated_within middle endDate a);
    destruct (dated_within startDate endDate a);
    cbn [length]; lia.
Qed.

End DateRange.

(** X18.  [getAlertsByDateRange] returns, in their order, the active
    alerts whose timestamp is a date within the two bounds, bounds included;
    an alert whose timestamp is not a date is in no range.  A range whose
    end lies before its start is empty, and cutting a range in two at any
    instant splits its alerts between the two parts. *)
Theorem getAlertsByDateRange_bounds {host : Host} (startDate endDate : Z) (ls : Storage) :
  (forall alert,
      In alert (getAlertsByDateRange startDate endDate ls) <->
      In alert (getAllAlerts ls) /\
      exists t, Date_parse (timestamp alert) = Some t /\ (startDate <= t <= endDate)%Z) /\
  ((endDate < startDate)%Z -> getAlertsByDateRange startDate endDate ls = []) /\
  (forall middle,
      (startDate <= middle)%Z -> (middle <= endDate + 1)%Z ->
      (length (getAlertsByDateRange startDate (middle - 1) ls)
       + length (getAlertsByDateRange middle endDate ls))%nat
      = length (getAlertsByDateRange startDate endDate ls)).
Proof.
  rewrite !getAlertsByDateRange_filter.
  assert (Hwithin : forall alert,
             dated_within startDate endDate alert = true <->
             exists t, Date_parse (timestamp alert) = Some t /\ (startDate <= t <= endDate)%Z).
  { intros alert. unfold dated_within. destruct (Date_parse (timestamp alert)) as [t|].
    - rewrite andb_true_iff, !Z.leb_le. split.
      + intros H. exists t. split; [reflexivity | exact H].
      + intros (t' & E & H). inversion E; subst. exact H.
    - split; [discriminate | intros (t & E & _); discriminate]. }
  split; [|split].
  - intros alert. rewrite filter_In, Hwithin. reflexivity.
  - intros Hempty. induction (getAllAlerts ls) as [|a l IH]; simpl; [reflexivity|].
    destruct (dated_within startDate endDate a) eqn:E; [|exact IH].
    apply Hwithin in E. destruct E as (t & _ & H). lia.
  - intros middle Hlow Hhigh. rewrite !getAlertsByDateRange_filter.
    apply dated_within_split; assumption.
Qed.

Lemma getAlertsByDateRange_bounds_witness :
  let ls := mkStorage (Some [sample_alert "band-9" "2024-06-20T09:15:00.000Z" PANIC 110;
                             sample_alert "band-8" "n/a" FALL 95;
                             numbered_alert 0]) None in
  getAlertsByDateRange (host := UTC.browser) july_1_2024 june_1_2024 ls = [].
Proof.
  intros ls.
  apply (proj1 (proj2 (getAlertsByDateRange_bounds (host := UTC.browser)
                         july_1_2024 june_1_2024 ls))).
  reflexivity.
Defined.

(** ** More on the detector *)

Section DetectorMore.
Context {host : Host}.

Lemma existsb_id_same_id device l :
  existsb (fun alert => id alert =? alertId_of device) l
  = existsb (same_id (candidate_of device)) l.
Proof. reflexivity. Qed.

(** One reading leaves the new alerts as they are or appends the stored
    form of its candidate; the latter only for a critical reading. *)
Lemma detectDevice_appends st device :
  snd (detectDevice st device) = snd st \/
  (isCritical device = true /\
   snd (detectDevice st device) =
     snd st ++ [set_severity (classifyAlertSeverity (candidate_of device))
                  (candidate_of device)]).
Proof.
  destruct st as [ls newAlerts]. unfold detectDevice. fold (isCritical device).
  destruct (isCritical device); [|left; reflexivity].
  fold (alertId_of device).
  destruct (find _ (getAllAlerts ls)); [left; reflexivity|].
  change (mkAlertData (alertId_of device) _ _ _ _ _ _ _ _ _ _ _) with (candidate_of device).
  destruct (saveAlert (candidate_of device) ls) as [[saved stored] ls'] eqn:Hsave.
  destruct saved; [|left; reflexivity].
  apply saveAlert_accepted in Hsave. destruct Hsave as (_ & -> & _).
  right. split; reflexivity.
Qed.

(** A reading that is not critical, or whose alert id is active, changes
    nothing. *)
Lemma detectDevice_skips st device :
  (isCritical device = true ->
   existsb (fun alert => id alert =? alertId_of device) (getAllAlerts (fst st)) = true) ->
  detectDevice st device = st.
Proof.
  destruct st as [ls newAlerts]. cbn [fst]. intros Hknown.
  unfold detectDevice. fold (isCritical device).
  destruct (isCritical device); [|reflexivity].
  fold (alertId_of device).
  destruct (find_existsb_true _ _ (Hknown eq_refl)) as [x ->]. reflexivity.
Qed.

Lemma classify_not_LOW alert :
  (90 <? heartbeat alert)%float = true -> classifyAlertSeverity alert <> LOW.
Proof.
  intros H. unfold classifyAlertSeverity.
  destruct (120 <? heartbeat alert)%float; [discriminate|].
  destruct (100 <? heartbeat alert)%float; [discriminate|].
  rewrite H. discriminate.
Qed.

(** A batch of readings each of which is skipped changes nothing. *)
Lemma detect_skips_all devices st :
  (forall device,
      In device devices -> isCritical device = true ->
      existsb (fun alert => id alert =? alertId_of device) (getAllAlerts (fst st)) = true) ->
  fold_left detectDevice devices st = st.
Proof.
  induction devices as [|d ds IH]; intros Hknown; [reflexivity|].
  cbn [fold_left]. rewrite detectDevice_skips.
  - apply IH. intros device Hin. apply Hknown. right. exact Hin.
  - apply Hknown. left. reflexivity.
Qed.

End DetectorMore.

(** X19.  Every alert [detectCriticalAlerts] reports comes from a reading
    of the batch that has a flag set and a heartbeat above 90: it has the
    id [deviceId + "-" + timestamp] of that reading, its device, heartbeat
    and status ([PANIC] if the panic flag is set, else [FALL]); it is not yet
    emailed and not archived; and its severity is the one of its heartbeat,
    which is never [LOW]. *)
Theorem detected_alerts_come_from_critical_readings {host : Host}
    (devices : list DeviceData.t) (ls : Storage) (alert : AlertData) :
  In alert (snd (detectCriticalAlerts devices ls)) ->
  exists device,
    In device devices /\
    (DeviceData.panicstatus device || DeviceData.fallstatus device) = true /\
    (90 <? DeviceData.heartbeat device)%float = true /\
    id alert = (DeviceData.id device ++ "-" ++ DeviceData.timestamp device)%string /\
    deviceId alert = DeviceData.id device /\
    heartbeat alert = DeviceData.heartbeat device /\
    status alert = (if DeviceData.panicstatus device then PANIC else FALL) /\
    emailSent alert = false /\
    archived alert = None /\
    severity alert = Some (classifyAlertSeverity alert) /\
    severity alert <> Some LOW.
Proof.
  unfold detectCriticalAlerts.
  assert (Hfold : forall ds st,
             In alert (snd (fold_left detectDevice ds st)) ->
             In alert (snd st) \/
             exists device, In device ds /\ isCritical device = true /\
                            alert = set_severity (classifyAlertSeverity (candidate_of device))
                                      (candidate_of device)).
  { induction ds as [|d ds IH]; intros st Hin; [left; exact Hin|].
    cbn [fold_left] in Hin. destruct (IH _ Hin) as [Hst|(device & Hd & Hcrit & Ha)].
    - destruct (detectDevice_appends st d) as [E|[Hcrit E]]; rewrite E in Hst.
      + left. exact Hst.
      + apply in_app_or in Hst. destruct Hst as [Hst|[<-|[]]]; [left; exact Hst|].
        right. exists d. split; [left; reflexivity|]. split; [exact Hcrit | reflexivity].
    - right. exists device. split; [right; exact Hd|]. split; assumption. }
  intros Hin. destruct (Hfold devices (ls, []) Hin) as [[]|(device & Hd & Hcrit & ->)].
  unfold isCritical in Hcrit. apply andb_true_iff in Hcrit. destruct Hcrit as [Hflag Hhb].
  exists device. repeat split; try assumption.
  cbn [severity set_severity]. intros E. injection E as E.
  revert E. apply classify_not_LOW. exact Hhb.
Qed.

Lemma detected_alerts_come_from_critical_readings_witness :
  exists device,
    In device [sample_reading false true 90; sample_reading true true 95] /\
    severity (set_severity MEDIUM (candidate_of (host := UTC.browser) (sample_reading true true 95)))
      <> Some LOW /\
    (90 <? DeviceData.heartbeat device)%float = true.
Proof.
  destruct (detected_alerts_come_from_critical_readings (host := UTC.browser)
              [sample_reading false true 90; sample_reading true true 95] emptyStorage
              (set_severity MEDIUM (candidate_of (host := UTC.browser)
                                      (sample_reading true true 95))))
    as (device & Hin & _ & Hhb & _ & _ & _ & _ & _ & _ & _ & Hlow).
  - vm_compute. left. reflexivity.
  - exists device. split; [exact Hin|]. split; [exact Hlow | exact Hhb].
Defined.

(** X20.  The detector raises at most one alert per flagged reading, so
    the number of new alerts of a batch is at most the "active alerts"
    counter the dashboard sets from the same batch, which counts the flagged
    readings whatever their heartbeat; that counter is at most the number of
    devices and at least the counter of falls. *)
Theorem detector_and_dashboard_counts {host : Host}
    (devices : list DeviceData.t) (ls : Storage) :
  (length (snd (detectCriticalAlerts devices ls)) <= activeAlerts_of devices)%nat /\
  (fallAlerts_of devices <= activeAlerts_of devices)%nat /\
  (activeAlerts_of devices <= totalDevices_of devices)%nat.
Proof.
  unfold activeAlerts_of, fallAlerts_of, totalDevices_of, detectCriticalAlerts.
  split; [|split].
  - assert (Hfold : forall ds st,
               (length (snd (fold_left detectDevice ds st))
                <= length (snd st)
                   + length (filter (fun d => DeviceData.panicstatus d || DeviceData.fallstatus d)
                               ds))%nat).
    { induction ds as [|d ds IH]; intros st; cbn [fold_left filter]; [lia|].
      specialize (IH (detectDevice st d)).
      destruct (detectDevice_appends st d) as [E|[Hcrit E]]; rewrite E in IH.
      - destruct (DeviceData.panicstatus d || DeviceData.fallstatus d); cbn [length]; lia.
      - unfold isCritical in Hcrit. apply andb_true_iff in Hcrit. destruct Hcrit as [-> _].
        rewrite length_app in IH. cbn [length] in *. lia. }
    apply (Hfold devices (ls, [])).
  - induction devices as [|d ds IH]; cbn [filter]; [lia|].
    destruct (DeviceData.fallstatus d); rewrite ?orb_true_r; cbn [length].
    + lia.
    + destruct (DeviceData.panicstatus d || false); cbn [length]; lia.
  - apply filter_length_le.
Qed.

(** X21.  Polling again raises nothing again.  A batch in which every
    critical reading has its alert id already among the active alerts (as a
    repeated poll of unchanged telemetry does) leaves the storage as it is
    and reports no new alert; so does a batch without critical readings. *)
Theorem detector_known_batch {host : Host} (devices : list DeviceData.t) (ls : Storage) :
  (forall device,
      In device devices -> isCritical device = true ->
      existsb (fun alert => id alert =? alertId_of device) (getAllAlerts ls) = true) ->
  detectCriticalAlerts devices ls = (ls, []).
Proof.
  intros Hknown. unfold detectCriticalAlerts. apply detect_skips_all. exact Hknown.
Qed.

Lemma detector_known_batch_witness :
  let batch := [sample_reading true true 95; sample_reading false false 140] in
  let ls := fst (detectCriticalAlerts (host := UTC.browser) batch emptyStorage) in
  detectCriticalAlerts (host := UTC.browser) batch ls = (ls, []).
Proof.
  intros batch ls.
  apply (detector_known_batch (host := UTC.browser) batch ls).
  intros device [<-|[<-|[]]] Hcrit; [reflexivity | discriminate Hcrit].
Defined.

(** ** The telemetry fetch and its cache *)

Section TelemetryFacts.
Context {host : Host} {page : PageHost}.

Lemma loadFromCache_fresh now c :
  (now - CacheData.timestamp c <= CACHE_EXPIRY_MS)%Z ->
  loadFromCache now (Some c) = (Some c, Some c).
Proof.
  intros Hage. unfold loadFromCache.
  destruct (CACHE_EXPIRY_MS <? now - CacheData.timestamp c)%Z eqn:E; [|reflexivity].
  apply Z.ltb_lt in E. lia.
Qed.

Lemma loadFromCache_stale now c :
  (CACHE_EXPIRY_MS < now - CacheData.timestamp c)%Z ->
  fst (loadFromCache now (Some c)) = None /\
  (snd (loadFromCache now (Some c)) = Some c \/ snd (loadFromCache now (Some c)) = None).
Proof.
  intros Hage. unfold loadFromCache.
  destruct (CACHE_EXPIRY_MS <? now - CacheData.timestamp c)%Z eqn:E.
  - destruct (cache_removeItem_throws (Some c)); split; auto.
  - apply Z.ltb_ge in E. lia.
Qed.

Lemma keepDevice_spec device :
  keepDevice device = true ->
  DeviceData.id device <> "" /\ DeviceData.id device <> "unknown" /\
  (DeviceData.location device <> ""
   \/ (DeviceData.latitude device =? 0)%float = false
   \/ (DeviceData.longitude device =? 0)%float = false).
Proof.
  unfold keepDevice. rewrite !andb_true_iff, !orb_true_iff, !negb_true_iff.
  intros [[[Hid Hunknown] _] Hplace].
  apply String.eqb_neq in Hid. apply String.eqb_neq in Hunknown.
  split; [exact Hid|]. split; [exact Hunknown|].
  destruct Hplace as [[Hloc|Hlat]|Hlon]; [left; apply String.eqb_neq; exact Hloc | auto | auto].
Qed.

Lemma transformItems_flags clock i items device :
  In device (transformItems clock i items) ->
  exists item, In item items /\
               DeviceData.panicstatus device = is_true_flag (Raw.panicstatus item) /\
               DeviceData.fallstatus device = is_true_flag (Raw.fallstatus item).
Proof.
  revert i. induction items as [|item rest IH]; intros i; cbn [transformItems]; [intros []|].
  intros [<-|Hin].
  - exists item. split; [left; reflexivity|]. split; reflexivity.
  - destruct (IH _ Hin) as (item' & Hitem & Hflags).
    exists item'. split; [right; exact Hitem | exact Hflags].
Qed.

Lemma length_transformItems clock i items :
  length (transformItems clock i items) = length items.
Proof.
  revert i. induction items as [|item rest IH]; intros i; cbn [transformItems length];
    [reflexivity | rewrite IH; reflexivity].
Qed.

End TelemetryFacts.



(** X23.  A fetch that fails (the request is rejected or times out, the
    status is not ok, the body is not JSON) resolves to a list, not to an
    error, and never writes the cache.  A forced fetch, or one that finds no
    cache item, resolves to the empty list and leaves the item as it was.
    An unforced fetch that finds a cache item at most 3000 ms old resolves
    to the cached devices and leaves the item.  An unforced fetch that
    finds an older item resolves to the empty list and removes the item
    (it stays when the removal throws). *)
Theorem fetchDeviceData_failed {host : Host} {page : PageHost}
    (forceRefresh : bool) (clock : Clock) (cache : DeviceCache) :
  (forceRefresh = true \/ cache = None ->
   fetchDeviceData forceRefresh clock FetchFailed cache = ([], cache)) /\
  (forall c,
      forceRefresh = false -> cache = Some c ->
      (at_load clock - CacheData.timestamp c <= CACHE_EXPIRY_MS)%Z ->
      fetchDeviceData forceRefresh clock FetchFailed cache = (CacheData.data c, cache)) /\
  (forall c,
      forceRefresh = false -> cache = Some c ->
      (CACHE_EXPIRY_MS < at_load clock - CacheData.timestamp c)%Z ->
      fetchDeviceData forceRefresh clock FetchFailed cache
      = ([], if cache_removeItem_throws cache then cache else None)).
Proof.
  split; [|split].
  - intros [-> | ->]; [reflexivity|]. destruct forceRefresh; reflexivity.
  - intros c -> -> Hage. unfold fetchDeviceData. cbn [negb].
    rewrite loadFromCache_fresh by exact Hage. reflexivity.
  - intros c -> -> Hage. unfold fetchDeviceData, loadFromCache. cbn [negb].
    destruct (CACHE_EXPIRY_MS <? at_load clock - CacheData.timestamp c)%Z eqn:E.
    + destruct (cache_removeItem_throws (Some c)); reflexivity.
    + apply Z.ltb_ge in E. lia.
Qed.

Lemma fetchDeviceData_failed_witness :
  let cached := {| CacheData.data := [sample_reading true false 130];
                   CacheData.timestamp := june_1_2024;
                   CacheData.lastUpdate := "2024-06-01T00:00:00.000Z" |} in
  fetchDeviceData (host := UTC.browser) (page := UTCPage.browser) false
    (clock_at (june_1_2024 + 3000)) FetchFailed (Some cached)
  = ([sample_reading true false 130], Some cached) /\
  fetchDeviceData (host := UTC.browser) (page := UTCPage.browser) false
    (clock_at (june_1_2024 + 3001)) FetchFailed (Some cached)
  = ([], None).
Proof.
  intros cached. split.
  - apply (proj1 (proj2 (fetchDeviceData_failed (host := UTC.browser)
                           (page := UTCPage.browser) false
                           (clock_at (june_1_2024 + 3000)) (Some cached))) cached);
      [reflexivity | reflexivity | vm_compute; discriminate].
  - apply (proj2 (proj2 (fetchDeviceData_failed (host := UTC.browser)
                           (page := UTCPage.browser) false
                           (clock_at (june_1_2024 + 3001)) (Some cached))) cached);
      [reflexivity | reflexivity | reflexivity].
Defined.

(** X24.  The devices a response is turned into.  A single object is
    treated as an array of that one object.  Every device returned has an
    id that is neither empty nor ["unknown"], and a location or a
    coordinate other than zero; there are at most as many devices as
    objects.  An object whose [id] and [deviceId] are both missing or falsy
    (null, 0, the empty string, false) yields no device. *)
Theorem transformResult_devices {host : Host} {page : PageHost} (clock : nat -> Z) :
  (forall item,
      transformResult clock (ResultObject item) = transformResult clock (ResultArray [item])) /\
  (forall result device,
      In device (transformResult clock result) ->
      DeviceData.id device <> "" /\ DeviceData.id device <> "unknown" /\
      (DeviceData.location device <> ""
       \/ (DeviceData.latitude device =? 0)%float = false
       \/ (DeviceData.longitude device =? 0)%float = false)) /\
  (forall items,
      (length (transformResult clock (ResultArray items)) <= length items)%nat) /\
  (forall item,
      truthy (Raw.id item) = false -> truthy (Raw.deviceId item) = false ->
      transformResult clock (ResultObject item) = []).
Proof.
  split; [|split; [|split]].
  - intros item. cbn [transformResult transformItems filter].
    destruct (keepDevice (transformItem (clock 0%nat) item)); reflexivity.
  - intros result device Hin. apply keepDevice_spec.
    destruct result as [items|item|]; cbn [transformResult] in Hin.
    + apply filter_In in Hin. exact (proj2 Hin).
    + destruct (keepDevice (transformItem (clock 0%nat) item)) eqn:E; [|destruct Hin].
      destruct Hin as [<-|[]]. exact E.
    + destruct Hin.
  - intros items. cbn [transformResult].
    rewrite <- (length_transformItems clock 0 items). apply filter_length_le.
  - intros item Hid Hdev. cbn [transformResult].
    assert (Hempty : DeviceData.id (transformItem (clock 0%nat) item) = "").
    { cbn [transformItem DeviceData.id]. unfold or_else. rewrite Hid, Hdev. reflexivity. }
    unfold keepDevice. rewrite Hempty. reflexivity.
Qed.

(** X25.  Only the values ["true"] and [true] set a flag.  If no object
    of a response carries one of them in [panicstatus] or [fallstatus]
    (other truthy values such as [1], ["1"], ["True"] or ["yes"] do not
    count), the devices of the response raise no alert, whatever their
    heartbeat: the detector leaves the storage as it is and reports nothing,
    and the dashboard's "active alerts" and "fall alerts" counters are 0. *)
Theorem other_flag_values_raise_nothing {host : Host} {page : PageHost}
    (clock : nat -> Z) (items : list Raw.item) (ls : Storage) :
  (forall item,
      In item items ->
      is_true_flag (Raw.panicstatus item) = false /\
      is_true_flag (Raw.fallstatus item) = false) ->
  detectCriticalAlerts (transformResult clock (ResultArray items)) ls = (ls, []) /\
  activeAlerts_of (transformResult clock (ResultArray items)) = 0%nat /\
  fallAlerts_of (transformResult clock (ResultArray items)) = 0%nat.
Proof.
  intros Hflags.
  assert (Hoff : forall device,
             In device (transformResult clock (ResultArray items)) ->
             DeviceData.panicstatus device = false /\ DeviceData.fallstatus device = false).
  { intros device Hin. cbn [transformResult] in Hin. apply filter_In in Hin.
    destruct (transformItems_flags _ _ _ _ (proj1 Hin)) as (item & Hitem & -> & ->).
    apply Hflags. exact Hitem. }
  split; [|split].
  - unfold detectCriticalAlerts. apply detect_skips_all.
    intros device Hin Hcrit. unfold isCritical in Hcrit.
    destruct (Hoff device Hin) as [Hp Hf]. rewrite Hp, Hf in Hcrit. discriminate Hcrit.
  - unfold activeAlerts_of.
    induction (transformResult clock (ResultArray items)) as [|d ds IH]; [reflexivity|].
    cbn [filter]. destruct (Hoff d (or_introl eq_refl)) as [-> ->]. cbn [orb].
    apply IH. intros device Hin. apply Hoff. right. exact Hin.
  - unfold fallAlerts_of.
    induction (transformResult clock (ResultArray items)) as [|d ds IH]; [reflexivity|].
    cbn [filter]. destruct (Hoff d (or_introl eq_refl)) as [_ ->].
    apply IH. intros device Hin. apply Hoff. right. exact Hin.
Qed.

Lemma other_flag_values_raise_nothing_witness :
  let items := [sample_item (SNumber 1) (SString "True"); sample_item (SString "yes") SNull] in
  detectCriticalAlerts (host := UTC.browser)
    (transformResult (host := UTC.browser) (page := UTCPage.browser) (fun _ => june_1_2024)
       (ResultArray items))
    emptyStorage
  = (emptyStorage, []).
Proof.
  intros items.
  apply (other_flag_values_raise_nothing (host := UTC.browser) (page := UTCPage.browser)
           (fun _ => june_1_2024) items emptyStorage).
  intros item [<-|[<-|[]]]; split; reflexivity.
Defined.

(** ** What the dashboard clears *)

Section PageClearing.
Context {host : Host} {page : PageHost}.

Lemma removeItem_named_active name st st' :
  name <> key_name STORAGE_KEY ->
  removeItem_named name st = Some st' ->
  getAllAlerts (alert_items st') = getAllAlerts (alert_items st).
Proof.
  intros Hname. unfold removeItem_named, key_of_name.
  destruct (name =? "safetrack_critical_alerts")%string eqn:E1.
  { apply String.eqb_eq in E1. contradiction. }
  destruct (name =? "safetrack_archived_alerts")%string.
  - unfold removeItem. destruct (removeItem_throws (alert_items st) ARCHIVED_KEY); [discriminate|].
    intros H. injection H as <-. reflexivity.
  - destruct (name =? CACHE_KEY)%string.
    + destruct (cache_removeItem_throws (device_data st)); [discriminate|].
      intros H. injection H as <-. reflexivity.
    + destruct (other_removeItem_throws st name); [discriminate|].
      intros H. injection H as <-. reflexivity.
Qed.

Lemma removeItems_active names st :
  ~ In (key_name STORAGE_KEY) names ->
  getAllAlerts (alert_items (snd (removeItems names st))) = getAllAlerts (alert_items st).
Proof.
  revert st. induction names as [|name rest IH]; intros st Hnot; [reflexivity|].
  cbn [removeItems]. destruct (removeItem_named name st) as [st'|] eqn:E; [|reflexivity].
  rewrite IH by (intros Hin; apply Hnot; right; exact Hin).
  apply removeItem_named_active with (name := name); [|exact E].
  intros ->. apply Hnot. left. reflexivity.
Qed.

Lemma cleared_names_spare_active : ~ In (key_name STORAGE_KEY) cleared_names.
Proof. intros [H|[H|[H|[H|[]]]]]; discriminate H. Qed.

Lemma removeItems_cleared st st' :
  removeItems cleared_names st = (Normal tt, st') ->
  device_data st' = None /\ getArchivedAlerts (alert_items st') = [].
Proof.
  cbv [cleared_names removeItems removeItem_named key_of_name CACHE_KEY removeItem].
  cbn [String.eqb Ascii.eqb Bool.eqb andb].
  destruct (cache_removeItem_throws (device_data st)); [discriminate|].
  destruct (other_removeItem_throws _ "safetrack_historical_data"); [discriminate|].
  destruct (other_removeItem_throws _ "safetrack_alerts"); [discriminate|].
  cbn [alert_items device_data].
  destruct (removeItem_throws (alert_items st) ARCHIVED_KEY); [discriminate|].
  intros H. injection H as <-. split; reflexivity.
Qed.

End PageClearing.

(** X26.  The dashboard's clearing never removes the active alerts.
    [clearCache] and [handleBeforeUnload] remove the items
    [safetrack_device_data], [safetrack_historical_data], [safetrack_alerts]
    and [safetrack_archived_alerts]; the active alerts are stored under
    [safetrack_critical_alerts].  So after either of them [getAllAlerts]
    returns what it returned before, also when [clearCache] has emptied the
    list the page shows; and when no removal throws, the archive reads empty
    and the telemetry cache is gone. *)
Theorem page_clearing_keeps_active_alerts {host : Host} {page : PageHost}
    (criticalAlerts : list AlertData) (st : PageStorage) :
  getAllAlerts (alert_items (handleBeforeUnload st)) = getAllAlerts (alert_items st) /\
  fst (clearCache criticalAlerts st) = handleBeforeUnload st /\
  (snd (clearCache criticalAlerts st) = [] \/
   snd (clearCache criticalAlerts st) = criticalAlerts) /\
  (fst (removeItems cleared_names st) = Normal tt ->
   snd (clearCache criticalAlerts st) = [] /\
   device_data (handleBeforeUnload st) = None /\
   getArchivedAlerts (alert_items (handleBeforeUnload st)) = []).
Proof.
  unfold handleBeforeUnload, clearCache.
  split; [apply removeItems_active; exact cleared_names_spare_active|].
  destruct (removeItems cleared_names st) as [[[]|] st'] eqn:E; cbn [fst snd].
  - split; [reflexivity|]. split; [left; reflexivity|]. intros _.
    split; [reflexivity|]. apply removeItems_cleared with (st := st). exact E.
  - split; [reflexivity|]. split; [right; reflexivity|]. discriminate.
Qed.

Lemma page_clearing_keeps_active_alerts_witness :
  let st := mkPageStorage (mkStorage (Some [numbered_alert 1; numbered_alert 2])
                             (Some [numbered_alert 0])) None in
  snd (clearCache (host := UTC.browser) (page := UTCPage.browser)
         [numbered_alert 1; numbered_alert 2] st) = [] /\
  getAllAlerts (alert_items (handleBeforeUnload (host := UTC.browser)
                               (page := UTCPage.browser) st))
  = [numbered_alert 1; numbered_alert 2].
Proof.
  intros st.
  destruct (page_clearing_keeps_active_alerts (host := UTC.browser) (page := UTCPage.browser)
              [numbered_alert 1; numbered_alert 2] st) as (Hactive & _ & _ & Hclear).
  split; [exact (proj1 (Hclear eq_refl)) | exact Hactive].
Defined.

(** ** Deleting an alert that is stored *)

(** X27.  [deleteAlert] that returns [true] has removed every active
    record with the id, however many there were, and no other: the other
    records keep their order, the archive is not touched (an archived record
    with the id stays), and the id is forgotten, so that [markEmailSent]
    with it now returns [false] and the detector's look-up for it finds
    nothing. *)
Theorem deleteAlert_removes_every_match {host : Host} (alertId : string) (ls ls' : Storage) :
  deleteAlert alertId ls = (true, ls') ->
  getAllAlerts ls' = filter (fun alert => negb (id alert =? alertId)%string) (getAllAlerts ls) /\
  (forall alert, In alert (getAllAlerts ls') <-> In alert (getAllAlerts ls) /\ id alert <> alertId) /\
  (length (getAllAlerts ls')
   + length (filter (fun alert => (id alert =? alertId)%string) (getAllAlerts ls)))%nat
  = length (getAllAlerts ls) /\
  getItem ls' ARCHIVED_KEY = getItem ls ARCHIVED_KEY /\
  markEmailSent alertId ls' = (false, ls') /\
  find (fun alert => (id alert =? alertId)%string) (getAllAlerts ls') = None.
Proof.
  rewrite deleteAlert_result. fold (without_id alertId (getAllAlerts ls)).
  destruct (setItem_throws ls STORAGE_KEY (without_id alertId (getAllAlerts ls)));
    [discriminate|].
  intros H.
  assert (Hls : ls' = writeItem ls STORAGE_KEY (Some (without_id alertId (getAllAlerts ls))))
    by congruence.
  clear H. subst ls'. rewrite getAllAlerts_write_active.
  assert (Hgone : forall alert, In alert (without_id alertId (getAllAlerts ls)) ->
                                (id alert =? alertId)%string = false).
  { intros alert Hin. apply filter_In in Hin. apply negb_true_iff. exact (proj2 Hin). }
  split; [reflexivity|]. split; [|split; [|split; [|split]]].
  - intros alert. unfold without_id. rewrite filter_In, negb_true_iff, String.eqb_neq.
    reflexivity.
  - clear Hgone. unfold without_id. induction (getAllAlerts ls) as [|a l IH]; cbn [filter]; [reflexivity|].
    destruct (id a =? alertId)%string; cbn [negb filter length] in *; lia.
  - reflexivity.
  - unfold markEmailSent. rewrite getAllAlerts_write_active.
    rewrite (proj2 (findIndex_None _ _) Hgone). reflexivity.
  - destruct (find _ (without_id alertId (getAllAlerts ls))) as [a|] eqn:E; [|reflexivity].
    apply find_some in E. destruct E as [Hin Hid]. rewrite (Hgone a Hin) in Hid. discriminate.
Qed.

Lemma deleteAlert_removes_every_match_witness :
  let twice := sample_alert "band-1" "2024-05-01T10:00:00.000Z" FALL 95 in
  let ls := mkStorage (Some [twice; numbered_alert 2; twice]) (Some [twice]) in
  getAllAlerts (snd (deleteAlert (host := UTC.browser) (id twice) ls)) = [numbered_alert 2] /\
  getArchivedAlerts (snd (deleteAlert (host := UTC.browser) (id twice) ls)) = [twice].
Proof.
  intros twice ls.
  destruct (deleteAlert_removes_every_match (host := UTC.browser) (id twice) ls
              (snd (deleteAlert (host := UTC.browser) (id twice) ls)) eq_refl)
    as (Hactive & _ & _ & Harchive & _).
  split.
  - rewrite Hactive. reflexivity.
  - unfold getArchivedAlerts. rewrite Harchive. reflexivity.
Defined.
